(** * EasyFEA: prism shape functions and linear elastic laws

    A shallow embedding of [EasyFEA/fem/elems/_prism.py] and
    [EasyFEA/materials/_elastic.py].

    Python numbers are read in exact arithmetic: a float or an int used as a
    quantity is a real number of [R], [/] is the true division, [**] the
    power.  Rounding is not modelled; every tolerance test of the source is
    kept as the comparison it is written as. *)

From Stdlib Require Import String Reals Lra Lia Bool ZArith List.
Import ListNotations.
Open Scope R_scope.

(* ================================================================== *)
(** * Part I.  Definitions                                            *)
(* ================================================================== *)

(** ** Shape functions of the prism elements ([_prism.py]) *)

(** A basis function or one of its derivatives: a [lambda r, s, t : ...]. *)
Definition shape_fun : Type := R -> R -> R -> R.

(** [np.array([...]).reshape(-1, 1)]: a column, one entry per row. *)
Definition reshape_col {A : Type} (xs : list A) : list (list A) :=
  map (fun x => [x]) xs.

(** The constant function a table falls back on outside of its bounds; the
    tables below are only read inside of them. *)
Definition no_fun : shape_fun := fun _ _ _ => 0.

(** [N[i, 0]] for the column returned by [_N]. *)
Definition basis (N : list (list shape_fun)) (i : nat) : shape_fun :=
  nth 0 (nth i N []) no_fun.

(** [dN[i, k]] for the table returned by [_dN]. *)
Definition entry (dN : list (list shape_fun)) (i k : nat) : shape_fun :=
  nth k (nth i dN []) no_fun.

(** The values of a column of functions at one reference coordinate. *)
Definition evaluate (N : list (list shape_fun)) (r s t : R) : list R :=
  map (fun row => nth 0 row no_fun r s t) N.

(** [sum] over a vector of numbers. *)
Definition vsum (xs : list R) : R := fold_right Rplus 0 xs.

Module PRISM6.

Definition origin : list Z := [0; 0; -1]%Z.

Definition faces : list nat :=
  [0; 3; 4; 1;
   0; 2; 5; 3;
   1; 4; 5; 2;
   3; 5; 4; 3;
   0; 1; 2; 0]%nat.

Definition segments : list (list nat) :=
  [[0; 1]; [1; 2]; [2; 0]; [3; 4]; [4; 5]; [5; 3]; [0; 3]; [1; 4]; [2; 5]]%nat.

Definition N1 : shape_fun := fun r s t => (t - 1)*(r + s - 1)/2.
Definition N2 : shape_fun := fun r s t => -r*(t - 1)/2.
Definition N3 : shape_fun := fun r s t => -s*(t - 1)/2.
Definition N4 : shape_fun := fun r s t => -(t + 1)*(r + s - 1)/2.
Definition N5 : shape_fun := fun r s t => r*(t + 1)/2.
Definition N6 : shape_fun := fun r s t => s*(t + 1)/2.

Definition _N : list (list shape_fun) :=
    reshape_col [N1; N2; N3; N4; N5; N6].

Definition dN1 : list shape_fun :=
    [fun r s t => t/2 - 1/2;
     fun r s t => t/2 - 1/2;
     fun r s t => r/2 + s/2 - 1/2].
Definition dN2 : list shape_fun :=
    [fun r s t => 1/2 - t/2;
     fun r s t => 0;
     fun r s t => -r/2].
Definition dN3 : list shape_fun :=
    [fun r s t => 0;
     fun r s t => 1/2 - t/2;
     fun r s t => -s/2].
Definition dN4 : list shape_fun :=
    [fun r s t => -t/2 - 1/2;
     fun r s t => -t/2 - 1/2;
     fun r s t => -r/2 - s/2 + 1/2].
Definition dN5 : list shape_fun :=
    [fun r s t => t/2 + 1/2;
     fun r s t => 0;
     fun r s t => r/2].
Definition dN6 : list shape_fun :=
    [fun r s t => 0;
     fun r s t => t/2 + 1/2;
     fun r s t => s/2].

Definition _dN : list (list shape_fun) :=
    [dN1; dN2; dN3; dN4; dN5; dN6].

End PRISM6.

Module PRISM15.

Definition origin : list Z := [0; 0; -1]%Z.

Definition faces : list nat :=
  [0; 8; 3; 12; 4; 10; 1; 6;
   0; 7; 2; 11; 5; 13; 3; 8;
   1; 10; 4; 14; 5; 11; 2; 9;
   3; 13; 5; 14; 4; 12; 3; 3;
   0; 6; 1; 9; 2; 7; 0; 0]%nat.

Definition segments : list (list nat) :=
  [[0; 1]; [1; 2]; [2; 0]; [3; 4]; [4; 5]; [5; 3]; [0; 3]; [1; 4]; [2; 5]]%nat.

Definition N1 : shape_fun := fun r s t => -(t - 1)*(r + s - 1)*(2*r + 2*s + t)/2.
Definition N2 : shape_fun := fun r s t => -r*(t - 1)*(2*r - t - 2)/2.
Definition N3 : shape_fun := fun r s t => -s*(t - 1)*(2*s - t - 2)/2.
Definition N4 : shape_fun := fun r s t => (t + 1)*(r + s - 1)*(2*r + 2*s - t)/2.
Definition N5 : shape_fun := fun r s t => r*(t + 1)*(2*r + t - 2)/2.
Definition N6 : shape_fun := fun r s t => s*(t + 1)*(2*s + t - 2)/2.
Definition N7 : shape_fun := fun r s t => 2*r*(t - 1)*(r + s - 1).
Definition N8 : shape_fun := fun r s t => 2*s*(t - 1)*(r + s - 1).
Definition N9 : shape_fun := fun r s t => (t - 1)*(t + 1)*(r + s - 1).
Definition N10 : shape_fun := fun r s t => -2*r*s*(t - 1).
Definition N11 : shape_fun := fun r s t => -r*(t - 1)*(t + 1).
Definition N12 : shape_fun := fun r s t => -s*(t - 1)*(t + 1).
Definition N13 : shape_fun := fun r s t => -2*r*(t + 1)*(r + s - 1).
Definition N14 : shape_fun := fun r s t => -2*s*(t + 1)*(r + s - 1).
Definition N15 : shape_fun := fun r s t => 2*r*s*(t + 1).

Definition _N : list (list shape_fun) :=
    reshape_col [N1; N2; N3; N4; N5; N6; N7; N8; N9; N10; N11; N12; N13; N14; N15].

Definition dN1 : list shape_fun :=
    [fun r s t => -(t - 1)*(r + s - 1) - (t - 1)*(2*r + 2*s + t)/2;
     fun r s t => -(t - 1)*(r + s - 1) - (t - 1)*(2*r + 2*s + t)/2;
     fun r s t => -(t - 1)*(r + s - 1)/2 - (r + s - 1)*(2*r + 2*s + t)/2].
Definition dN2 : list shape_fun :=
    [fun r s t => -r*(t - 1) - (t - 1)*(2*r - t - 2)/2;
     fun r s t => 0;
     fun r s t => r*(t - 1)/2 - r*(2*r - t - 2)/2].
Definition dN3 : list shape_fun :=
    [fun r s t => 0;
     fun r s t => -s*(t - 1) - (t - 1)*(2*s - t - 2)/2;
     fun r s t => s*(t - 1)/2 - s*(2*s - t - 2)/2].
Definition dN4 : list shape_fun :=
    [fun r s t => (t + 1)*(r + s - 1) + (t + 1)*(2*r + 2*s - t)/2;
     fun r s t => (t + 1)*(r + s - 1) + (t + 1)*(2*r + 2*s - t)/2;
     fun r s t => -(t + 1)*(r + s - 1)/2 + (r + s - 1)*(2*r + 2*s - t)/2].
Definition dN5 : list shape_fun :=
    [fun r s t => r*(t + 1) + (t + 1)*(2*r + t - 2)/2;
     fun r s t => 0;
     fun r s t => r*(t + 1)/2 + r*(2*r + t - 2)/2].
Definition dN6 : list shape_fun :=
    [fun r s t => 0;
     fun r s t => s*(t + 1) + (t + 1)*(2*s + t - 2)/2;
     fun r s t => s*(t + 1)/2 + s*(2*s + t - 2)/2].
Definition dN7 : list shape_fun :=
    [fun r s t => 2*r*(t - 1) + 2*(t - 1)*(r + s - 1);
     fun r s t => 2*r*(t - 1);
     fun r s t => 2*r*(r + s - 1)].
Definition dN8 : list shape_fun :=
    [fun r s t => 2*s*(t - 1);
     fun r s t => 2*s*(t - 1) + 2*(t - 1)*(r + s - 1);
     fun r s t => 2*s*(r + s - 1)].
Definition dN9 : list shape_fun :=
    [fun r s t => (t - 1)*(t + 1);
     fun r s t => (t - 1)*(t + 1);
     fun r s t => (t - 1)*(r + s - 1) + (t + 1)*(r + s - 1)].
Definition dN10 : list shape_fun :=
    [fun r s t => -2*s*(t - 1);
     fun r s t => -2*r*(t - 1);
     fun r s t => -2*r*s].
Definition dN11 : list shape_fun :=
    [fun r s t => -(t - 1)*(t + 1);
     fun r s t => 0;
     fun r s t => -r*(t - 1) - r*(t + 1)].
Definition dN12 : list shape_fun :=
    [fun r s t => 0;
     fun r s t => -(t - 1)*(t + 1);
     fun r s t => -s*(t - 1) - s*(t + 1)].
Definition dN13 : list shape_fun :=
    [fun r s t => -2*r*(t + 1) - 2*(t + 1)*(r + s - 1);
     fun r s t => -2*r*(t + 1);
     fun r s t => -2*r*(r + s - 1)].
Definition dN14 : list shape_fun :=
    [fun r s t => -2*s*(t + 1);
     fun r s t => -2*s*(t + 1) - 2*(t + 1)*(r + s - 1);
     fun r s t => -2*s*(r + s - 1)].
Definition dN15 : list shape_fun :=
    [fun r s t => 2*s*(t + 1);
     fun r s t => 2*r*(t + 1);
     fun r s t => 2*r*s].

Definition _dN : list (list shape_fun) :=
    [dN1; dN2; dN3; dN4; dN5; dN6; dN7; dN8; dN9; dN10; dN11; dN12; dN13; dN14; dN15].

Definition ddN1 : list shape_fun :=
  [fun r s t => 2 - 2*t; fun r s t => 2 - 2*t; fun r s t => -r - s + 1].
Definition ddN2 : list shape_fun :=
  [fun r s t => 2 - 2*t; fun r s t => 0; fun r s t => r].
Definition ddN3 : list shape_fun :=
  [fun r s t => 0; fun r s t => 2 - 2*t; fun r s t => s].
Definition ddN4 : list shape_fun :=
  [fun r s t => 2*t + 2; fun r s t => 2*t + 2; fun r s t => -r - s + 1].
Definition ddN5 : list shape_fun :=
  [fun r s t => 2*t + 2; fun r s t => 0; fun r s t => r].
Definition ddN6 : list shape_fun :=
  [fun r s t => 0; fun r s t => 2*t + 2; fun r s t => s].
Definition ddN7 : list shape_fun :=
  [fun r s t => 4*t - 4; fun r s t => 0; fun r s t => 0].
Definition ddN8 : list shape_fun :=
  [fun r s t => 0; fun r s t => 4*t - 4; fun r s t => 0].
Definition ddN9 : list shape_fun :=
  [fun r s t => 0; fun r s t => 0; fun r s t => 2*r + 2*s - 2].
Definition ddN10 : list shape_fun :=
  [fun r s t => 0; fun r s t => 0; fun r s t => 0].
Definition ddN11 : list shape_fun :=
  [fun r s t => 0; fun r s t => 0; fun r s t => -2*r].
Definition ddN12 : list shape_fun :=
  [fun r s t => 0; fun r s t => 0; fun r s t => -2*s].
Definition ddN13 : list shape_fun :=
  [fun r s t => -4*t - 4; fun r s t => 0; fun r s t => 0].
Definition ddN14 : list shape_fun :=
  [fun r s t => 0; fun r s t => -4*t - 4; fun r s t => 0].
Definition ddN15 : list shape_fun :=
  [fun r s t => 0; fun r s t => 0; fun r s t => 0].

Definition _ddN : list (list shape_fun) :=
  [ddN1; ddN2; ddN3; ddN4; ddN5; ddN6; ddN7; ddN8; ddN9; ddN10; ddN11; ddN12; ddN13;
   ddN14; ddN15].

End PRISM15.

(** The partial derivative of [f] at [(r, s, t)] with respect to its [k]-th
    argument (order r, s, t) is [l]. *)
Definition partial_derivative (k : nat) (f : shape_fun) (r s t l : R) : Prop :=
  match k with
  | 0%nat => derivable_pt_lim (fun x => f x s t) r l
  | 1%nat => derivable_pt_lim (fun y => f r y t) s l
  | 2%nat => derivable_pt_lim (fun z => f r s z) t l
  | _ => False
  end.

(** ** Exceptions and fallible results *)

(** The exceptions the modelled code can raise.  [FloatingPointError] stands
    for the point where numpy would go on with [inf] or [nan] (an array
    division by zero, which only warns): these are not real numbers, and the
    model stops there. *)
Inductive exn : Type :=
| AssertionError
| ZeroDivisionError
| FloatingPointError
| ValueError
| LinAlgError
| IndexError
| AttributeError
| UnboundLocalError.

Inductive result (A : Type) : Type :=
| Ok (a : A)
| Raise (e : exn).
Arguments Ok {A} a.
Arguments Raise {A} e.

Definition bind {A B : Type} (c : result A) (k : A -> result B) : result B :=
  match c with
  | Ok a => k a
  | Raise e => Raise e
  end.

Declare Scope py_scope.
Delimit Scope py_scope with py.
Notation "x <- c ;; k" := (bind c (fun x => k))
  (at level 61, c at next level, right associativity) : py_scope.
Notation "' pat <- c ;; k" := (bind c (fun x => match x with pat => k end))
  (at level 61, pat pattern, c at next level, right associativity) : py_scope.
Notation "c ;;; k" := (bind c (fun _ => k))
  (at level 61, right associativity) : py_scope.
Open Scope py_scope.

(** [assert b] *)
Definition assert (b : bool) : result unit :=
  if b then Ok tt else Raise AssertionError.

Fixpoint mapM {A B : Type} (f : A -> result B) (xs : list A) : result (list B) :=
  match xs with
  | [] => Ok []
  | x :: xs' => y <- f x ;; ys <- mapM f xs' ;; Ok (y :: ys)
  end.

(** Comparisons of real numbers as Python booleans. *)
Definition Rltb (x y : R) : bool := if Rlt_dec x y then true else false.
Definition Rleb (x y : R) : bool := if Rle_dec x y then true else false.

(** ** Parameter values: a number or a one-dimensional array of numbers *)

(** [Union[float, np.ndarray]]: a material parameter is a Python number or
    an array with one value per point (arrays of one dimension are
    modelled). *)
Inductive value : Type :=
| Scalar (x : R)
| Array (xs : list R).

(** Division of two Python numbers. *)
Definition py_div (x y : R) : result R :=
  if Req_dec_T y 0 then Raise ZeroDivisionError else Ok (x / y).

(** Division of two numbers inside a numpy array operation. *)
Definition np_div (x y : R) : result R :=
  if Req_dec_T y 0 then Raise FloatingPointError else Ok (x / y).

Fixpoint zip_with {A B C : Type} (f : A -> B -> C) (xs : list A) (ys : list B)
  : result (list C) :=
  match xs, ys with
  | [], [] => Ok []
  | x :: xs', y :: ys' => zs <- zip_with f xs' ys' ;; Ok (f x y :: zs)
  | _, _ => Raise ValueError
  end.

(** numpy's broadcasting of two one-dimensional arrays: equal lengths, or
    one of them of length 1; the shapes are checked before any entry is
    computed. *)
Definition broadcast_lists {A : Type} (f : R -> R -> A) (xs ys : list R) : result (list A) :=
  match xs, ys with
  | [x], _ => Ok (map (f x) ys)
  | _, [y] => Ok (map (fun x => f x y) xs)
  | _, _ => zip_with f xs ys
  end.

(** The results of a list of computations, or the first exception. *)
Definition sequence {A : Type} (cs : list (result A)) : result (list A) :=
  mapM (fun c => c) cs.

(** A binary operation on parameter values; [f] is used between two Python
    numbers and [g] as soon as an array is involved. *)
Definition binop (f g : R -> R -> result R) (a b : value) : result value :=
  match a, b with
  | Scalar x, Scalar y => z <- f x y ;; Ok (Scalar z)
  | Scalar x, Array ys => zs <- mapM (g x) ys ;; Ok (Array zs)
  | Array xs, Scalar y => zs <- mapM (fun x => g x y) xs ;; Ok (Array zs)
  | Array xs, Array ys =>
      cs <- broadcast_lists g xs ys ;; zs <- sequence cs ;; Ok (Array zs)
  end.

Definition total (op : R -> R -> R) (x y : R) : result R := Ok (op x y).

Definition lift2 (op : value -> value -> result value) (a b : result value) : result value :=
  x <- a ;; y <- b ;; op x y.

Definition vadd := lift2 (binop (total Rplus) (total Rplus)).
Definition vsub := lift2 (binop (total Rminus) (total Rminus)).
Definition vmul := lift2 (binop (total Rmult) (total Rmult)).
Definition vdiv := lift2 (binop py_div np_div).
Definition vneg (a : result value) : result value :=
  x <- a ;;
  match x with
  | Scalar r => Ok (Scalar (- r))
  | Array rs => Ok (Array (map Ropp rs))
  end.
(** [a ** n] for a literal exponent [n]. *)
Definition vpow (a : result value) (n : nat) : result value :=
  x <- a ;;
  match x with
  | Scalar r => Ok (Scalar (r ^ n))
  | Array rs => Ok (Array (map (fun r => r ^ n) rs))
  end.

(** Python expressions over parameter values, written as in the source. *)
Notation "a +' b" := (vadd a b) (at level 50, left associativity) : py_scope.
Notation "a -' b" := (vsub a b) (at level 50, left associativity) : py_scope.
Notation "a *' b" := (vmul a b) (at level 40, left associativity) : py_scope.
Notation "a /' b" := (vdiv a b) (at level 40, left associativity) : py_scope.
Notation "-' a" := (vneg a) (at level 35, right associativity) : py_scope.
Notation "a **' n" := (vpow a n) (at level 30, right associativity) : py_scope.
Notation "# r" := (Ok (Scalar r)) (at level 9, r at level 9, format "# r") : py_scope.
Notation "! x" := (Ok x) (at level 9, x at level 9, format "! x") : py_scope.

(** ** Vectors, matrices and the numpy operations the code uses *)

Definition vec : Type := list R.
Definition matrix : Type := list (list R).

(** A numpy array holding one matrix (two dimensions) or a batch of them
    (a leading dimension with one matrix per point). *)
Inductive ndarray : Type :=
| Mat (m : matrix)
| Batch (ms : list matrix).

(** [len(a.shape)] *)
Definition ndim (a : ndarray) : Z :=
  match a with
  | Mat _ => 2
  | Batch _ => 3
  end.

(** [m.shape == (n, n)] *)
Definition is_shape (n : nat) (m : matrix) : bool :=
  (length m =? n)%nat && forallb (fun row => (length row =? n)%nat) m.

(** [a.shape[-2:] == (n, n)] *)
Definition last_shape_is (n : nat) (a : ndarray) : bool :=
  match a with
  | Mat m => is_shape n m
  | Batch ms => forallb (is_shape n) ms
  end.

(** [np.eye(n)] *)
Definition eye (n : nat) : matrix :=
  map (fun i => map (fun j => if (i =? j)%nat then 1 else 0) (seq 0 n)) (seq 0 n).

(** [a @ b] for two vectors. *)
Fixpoint dot (a b : vec) : R :=
  match a, b with
  | x :: a', y :: b' => x * y + dot a' b'
  | _, _ => 0
  end.

(** Column [j] of a matrix. *)
Definition col (j : nat) (m : matrix) : vec := map (fun row => nth j row 0) m.

(** [a @ b] for two matrices of matching sizes. *)
Definition matmul (a b : matrix) : matrix :=
  map (fun row => map (fun j => dot row (col j b)) (seq 0 (length (hd [] b)))) a.

(** Entrywise operations on matrices of one shape.  The matrices met here
    are 3x3 or 6x6, for which numpy's broadcasting admits equal shapes
    only. *)
Definition zip_rows (f : R -> R -> R) (a b : matrix) : result matrix :=
  rows <- zip_with (zip_with f) a b ;; sequence rows.
Definition mat_add := zip_rows Rplus.
Definition mat_sub := zip_rows Rminus.

(** [m - a] for a matrix [m] and an array [a]; the matrix is subtracted
    from each matrix of a batch. *)
Definition matrix_minus (m : matrix) (a : ndarray) : result ndarray :=
  match a with
  | Mat m' => d <- mat_sub m m' ;; Ok (Mat d)
  | Batch ms => ds <- mapM (mat_sub m) ms ;; Ok (Batch ds)
  end.

(** [x * m] for a number [x]. *)
Definition mat_scale (x : R) (m : matrix) : matrix := map (map (Rmult x)) m.

(** [c * m] for a parameter value [c]: an array is broadcast along the rows. *)
Definition value_times_matrix (c : value) (m : matrix) : result matrix :=
  match c with
  | Scalar x => Ok (mat_scale x m)
  | Array xs => mapM (broadcast_lists Rmult xs) m
  end.

(** The sum of the squares of the entries. *)
Definition sumsq (m : matrix) : R :=
  fold_right Rplus 0 (map (fun row => dot row row) m).

(** [np.linalg.norm(m)]: the Frobenius norm. *)
Definition norm (m : matrix) : R := sqrt (sumsq m).

(** [np.linalg.norm(a)] on an array: the square root of the sum of the
    squares of all its entries. *)
Definition nd_norm (a : ndarray) : R :=
  match a with
  | Mat m => norm m
  | Batch ms => sqrt (fold_right Rplus 0 (map sumsq ms))
  end.

(** [np.linalg.norm(v)] for a vector. *)
Definition vnorm (v : vec) : R := sqrt (dot v v).

(** [norm(a) / norm(b) <= tol] between two numpy floats: a zero denominator
    gives [inf] or [nan], and the comparison is false. *)
Definition ratio_le (num den tol : R) : bool :=
  if Req_dec_T den 0 then false else Rleb (num / den) tol.

(** [m[x, :][:, x]]: the rows then the columns listed in [x]. *)
Definition take_rows (x : list nat) (m : matrix) : result matrix :=
  mapM (fun i => match nth_error m i with
                 | Some row => Ok row
                 | None => Raise IndexError
                 end) x.
Definition take_cols (x : list nat) (m : matrix) : result matrix :=
  mapM (fun row => mapM (fun j => match nth_error row j with
                                  | Some a => Ok a
                                  | None => Raise IndexError
                                  end) x) m.
Definition submatrix (x : list nat) (m : matrix) : result matrix :=
  rows <- take_rows x m ;; take_cols x rows.

(** *** Determinant and inverse *)

(** A row without its [j]-th entry. *)
Fixpoint drop_nth (j : nat) (row : vec) : vec :=
  match j, row with
  | _, [] => []
  | O, _ :: rest => rest
  | S j', a :: rest => a :: drop_nth j' rest
  end.

(** [sgn * f j + (- sgn) * f (j + 1) + ...], [count] terms. *)
Fixpoint alt_sum (f : nat -> R) (j count : nat) (sgn : R) : R :=
  match count with
  | O => 0
  | S c => sgn * f j + alt_sum f (S j) c (- sgn)
  end.

(** Determinant of the leading [n] x [n] matrix, expanded along the first
    row. *)
Fixpoint det (n : nat) (m : matrix) : R :=
  match n with
  | O => 1
  | S n' =>
      match m with
      | [] => 0
      | row :: rest =>
          alt_sum (fun j => nth j row 0 * det n' (map (drop_nth j) rest)) 0 n 1
      end
  end.

(** The matrix without row [i] and column [j]. *)
Fixpoint drop_row (i : nat) (m : matrix) : matrix :=
  match i, m with
  | _, [] => []
  | O, _ :: rest => rest
  | S i', a :: rest => a :: drop_row i' rest
  end.
Definition minor (i j : nat) (m : matrix) : matrix :=
  map (drop_nth j) (drop_row i m).

Definition sign (k : nat) : R := if Nat.even k then 1 else -1.

(** The adjugate: entry (i, j) is the cofactor of entry (j, i). *)
Definition adjugate (n : nat) (m : matrix) : matrix :=
  map (fun i => map (fun j => sign (i + j) * det (n - 1) (minor j i m)) (seq 0 n))
      (seq 0 n).

(** [np.linalg.inv(m)] in exact arithmetic: the inverse of a square matrix
    with a non-zero determinant, [LinAlgError] otherwise. *)
Definition inv (m : matrix) : result matrix :=
  let n := length m in
  if negb (is_shape n m) then Raise LinAlgError
  else if Req_dec_T (det n m) 0 then Raise LinAlgError
  else Ok (map (map (fun a => a / det n m)) (adjugate n m)).

(** [np.linalg.inv] on an array: each matrix of a batch is inverted. *)
Definition np_linalg_inv (a : ndarray) : result ndarray :=
  match a with
  | Mat m => s <- inv m ;; Ok (Mat s)
  | Batch ms => ss <- mapM inv ms ;; Ok (Batch ss)
  end.

(** ** Helpers of the repository that live outside of the two modules *)

Fixpoint mapi_from {A B : Type} (i : nat) (f : nat -> A -> B) (xs : list A) : list B :=
  match xs with
  | [] => []
  | x :: xs' => f i x :: mapi_from (S i) f xs'
  end.
Definition mapi {A B : Type} (f : nat -> A -> B) (xs : list A) : list B :=
  mapi_from 0 f xs.

(** The Kelvin-Mandel factor of a row or column: 1 on a normal component
    (the first [dim] ones), sqrt 2 on a shear component. *)
Definition kelvin_coef (dim : Z) (i : nat) : R :=
  if (Z.of_nat i <? dim)%Z then 1 else sqrt 2.

Definition kelvin_matrix (dim : Z) (m : matrix) : matrix :=
  mapi (fun i row => mapi (fun j a => a * (kelvin_coef dim i * kelvin_coef dim j)) row) m.

(** Modelled from the spec: [KelvinMandel_Matrix(dim, M)] of [_utils], not
    part of the two modules.  It converts a Voigt matrix to Kelvin-Mandel
    form by scaling the shear rows and the shear columns by sqrt 2, on each
    matrix of a batch. *)
Definition KelvinMandel_Matrix (dim : Z) (a : ndarray) : ndarray :=
  match a with
  | Mat m => Mat (kelvin_matrix dim m)
  | Batch ms => Batch (map (kelvin_matrix dim) ms)
  end.

(** The length of the first array among the entries of an object matrix. *)
Fixpoint first_array (xs : list value) : option nat :=
  match xs with
  | [] => None
  | Scalar _ :: xs' => first_array xs'
  | Array ys :: _ => Some (length ys)
  end.

(** The number held by an entry that is not an array. *)
Definition as_number (x : value) : R :=
  match x with
  | Scalar r => r
  | Array ys => nth 0 ys 0
  end.

(** The value an entry takes at point [b] of a batch of [n] points. *)
Definition at_point (n b : nat) (x : value) : result R :=
  match x with
  | Scalar r => Ok r
  | Array ys =>
      if (length ys =? n)%nat then Ok (nth b ys 0)
      else if (length ys =? 1)%nat then Ok (nth 0 ys 0)
      else Raise ValueError
  end.

(** [isinstance(x, np.ndarray)] on a parameter value. *)
Definition is_array (x : value) : bool :=
  match x with
  | Scalar _ => false
  | Array _ => true
  end.

(** [np.array(rows, dtype=dtype)] on rows of parameter values, [dtype]
    being [object] or [float].  With [dtype=object] the entries are kept as
    they are.  With [dtype=float] every entry has to be a number: an entry
    that is an array makes the rows ragged and numpy raises ValueError. *)
Definition np_array (dtype_is_object : bool) (rows : list (list value))
  : result (list (list value)) :=
  if dtype_is_object || forallb (forallb (fun x => negb (is_array x))) rows
  then Ok rows
  else Raise ValueError.

(** Modelled from the spec: [Heterogeneous_Array(array)] of [_utils], not
    part of the two modules.  A matrix whose entries are all numbers is kept
    as it is; as soon as an entry is an array, the result has a leading
    batch dimension, one matrix per point, the numbers being repeated at
    every point. *)
Definition Heterogeneous_Array (m : list (list value)) : result ndarray :=
  match first_array (concat m) with
  | None => Ok (Mat (map (map as_number) m))
  | Some n => ms <- mapM (fun b => mapM (mapM (at_point n b)) m) (seq 0 n) ;;
              Ok (Batch ms)
  end.

(** Modelled from the spec: [Tensor_Product(a, b)] of [_utils] on two
    vectors, the tensor product written I (x) I in the Walpole
    decomposition: entry (i, j) is [a[i] * b[j]]. *)
Definition Tensor_Product (a b : vec) : matrix :=
  map (fun x => map (fun y => x * y) b) a.

(** Modelled from the spec: [_IModel._Test_Sup0(value)], not part of the two
    modules.  The value, or every entry of an array, is greater than 0;
    otherwise the parameter is out of its domain. *)
Definition _Test_Sup0 (value : value) : result unit :=
  match value with
  | Scalar x => assert (Rltb 0 x)
  | Array xs => assert (forallb (Rltb 0) xs)
  end.

(** Modelled from the spec: [_IModel._Test_In(value, bInf, bSup)], not part
    of the two modules.  The value, or every entry of an array, lies in the
    open interval from [bInf] to [bSup]; otherwise the parameter is out of
    its domain.  The spec words the admissible range of a Poisson ratio as an
    open interval excluding its endpoints, and the source comments it as
    [-1<vl<0.5]. *)
Definition _Test_In (value : value) (bInf bSup : R) : result unit :=
  match value with
  | Scalar x => assert (Rltb bInf x && Rltb x bSup)
  | Array xs => assert (forallb (fun x => Rltb bInf x && Rltb x bSup) xs)
  end.

(** Modelled from the spec: the bounds [_Test_In(value)] takes when none is
    given, the admissible range of the Poisson ratio. *)
Definition bInf_default : R := -1.
Definition bSup_default : R := 0.5.

(** Modelled from the spec: [As_Coordinates] of [Geoms], the coercion of a
    sequence of numbers to an array of coordinates; the components are
    kept. *)
Definition As_Coordinates (axis : vec) : vec := axis.

(** Modelled from the spec: [Normalize_vect] of [Geoms], the vector divided
    by its norm (an array division). *)
Definition Normalize_vect (axis : vec) : result vec :=
  mapM (fun x => np_div x (vnorm axis)) axis.

(** ** The state of a law and its methods *)

(** A method of an object of type [T]: it returns or raises, and leaves the
    object in a new state in both cases. *)
Definition M (T A : Type) : Type := T -> result A * T.

Definition ret {T A : Type} (a : A) : M T A := fun self => (Ok a, self).

Definition mbind {T A B : Type} (c : M T A) (k : A -> M T B) : M T B :=
  fun self =>
    match c self with
    | (Ok a, self') => k a self'
    | (Raise e, self') => (Raise e, self')
    end.

(** A computation that reads the object without changing it. *)
Definition reads {T A : Type} (f : T -> result A) : M T A :=
  fun self => (f self, self).

(** An assignment to attributes. *)
Definition modify {T : Type} (f : T -> T) : M T unit :=
  fun self => (Ok tt, f self).

Notation "x <~ c ;; k" := (mbind c (fun x => k))
  (at level 61, c at next level, right associativity) : py_scope.
Notation "c ;;~ k" := (mbind c (fun _ => k))
  (at level 61, right associativity) : py_scope.

(** Values a caller can pass where a [bool] is expected. *)
Inductive pyobj : Type :=
| PyBool (b : bool)
| PyInt (z : Z)
| PyFloat (x : R)
| PyStr (s : string)
| PyNone
| PyArray (a : ndarray).

(** [isinstance(value, bool)] *)
Definition is_bool (value : pyobj) : bool :=
  match value with
  | PyBool _ => true
  | _ => false
  end.

(** *** The base class [_Elas] *)

Module _Elas.

(** The attributes [_Elas] and [_IModel] keep on an instance, under their
    mangled names.  [thickness] is only assigned in dimension 2; the cached
    matrices are assigned by the first update. *)
Record attrs : Type := {
  _Elas__dim : Z;
  _Elas__thickness : option R;
  _Elas__planeStress : bool;
  useNumba : bool;
  _IModel__needUpdate : bool;
  _Elas__C : option ndarray;
  _Elas__S : option ndarray
}.

Definition set_needUpdate (b : bool) (e : attrs) : attrs :=
  {| _Elas__dim := _Elas__dim e; _Elas__thickness := _Elas__thickness e;
     _Elas__planeStress := _Elas__planeStress e; useNumba := useNumba e;
     _IModel__needUpdate := b;
     _Elas__C := _Elas__C e; _Elas__S := _Elas__S e |}.

Definition set_planeStress (b : bool) (e : attrs) : attrs :=
  {| _Elas__dim := _Elas__dim e; _Elas__thickness := _Elas__thickness e;
     _Elas__planeStress := b; useNumba := useNumba e;
     _IModel__needUpdate := _IModel__needUpdate e;
     _Elas__C := _Elas__C e; _Elas__S := _Elas__S e |}.

Definition set_C (a : ndarray) (e : attrs) : attrs :=
  {| _Elas__dim := _Elas__dim e; _Elas__thickness := _Elas__thickness e;
     _Elas__planeStress := _Elas__planeStress e; useNumba := useNumba e;
     _IModel__needUpdate := _IModel__needUpdate e;
     _Elas__C := Some a; _Elas__S := _Elas__S e |}.

Definition set_S (a : ndarray) (e : attrs) : attrs :=
  {| _Elas__dim := _Elas__dim e; _Elas__thickness := _Elas__thickness e;
     _Elas__planeStress := _Elas__planeStress e; useNumba := useNumba e;
     _IModel__needUpdate := _IModel__needUpdate e;
     _Elas__C := _Elas__C e; _Elas__S := Some a |}.

(** An instance of a subclass keeps the attributes of [_Elas] next to its
    own. *)
Class Instance (T : Type) : Type := {
  base : T -> attrs;
  with_base : attrs -> T -> T
}.

(** The abstract method of the three laws. *)
Class Law (T : Type) `{Instance T} : Type := {
  _Update : M T unit
}.

Section Attributes.

Context {T : Type} `{Instance T}.

(** Modelled from the spec: [_IModel.Need_Update(value=True)], not part of
    the two modules; it marks the law stale, or fresh with [False]. *)
Definition Need_Update (value : bool) : M T unit :=
  modify (fun self => with_base (set_needUpdate value (base self)) self).

Definition needUpdate (self : T) : bool := _IModel__needUpdate (base self).

Definition dim (self : T) : Z := _Elas__dim (base self).

Definition thickness (self : T) : result R :=
  if (_Elas__dim (base self) =? 2)%Z then
    match _Elas__thickness (base self) with
    | Some h => Ok h
    | None => Raise AttributeError
    end
  else Ok 1.

Definition planeStress (self : T) : bool := _Elas__planeStress (base self).

Definition planeStress_setter (value : pyobj) : M T unit :=
  match value with
  | PyBool b =>
      (fun self => if negb (Bool.eqb (planeStress self) b)
                   then Need_Update true self
                   else ret tt self) ;;~
      modify (fun self => with_base (set_planeStress b (base self)) self)
  | _ => ret tt
  end.

(** [(3, 3) if self.dim == 2 else (6, 6)] *)
Definition expected_size (self : T) : nat :=
  if (dim self =? 2)%Z then 3%nat else 6%nat.

Definition C_setter (array : ndarray) : M T unit :=
  (fun self => (assert (last_shape_is (expected_size self) array), self)) ;;~
  modify (fun self => with_base (set_C array (base self)) self).

Definition S_setter (array : ndarray) : M T unit :=
  (fun self => (assert (last_shape_is (expected_size self) array), self)) ;;~
  modify (fun self => with_base (set_S array (base self)) self).

End Attributes.

Section Cache.

Context {T : Type} `{Law T}.

(** [if self.needUpdate: self._Update(); self.Need_Update(False)] *)
Definition refresh : M T unit :=
  fun self => if needUpdate self
              then (_Update ;;~ Need_Update false) self
              else ret tt self.

(** The property [C]: a stale law is updated first. *)
Definition C : M T ndarray :=
  refresh ;;~
  reads (fun self => match _Elas__C (base self) with
                     | Some c => Ok c
                     | None => Raise AttributeError
                     end).

Definition isHeterogeneous : M T bool :=
  c <~ C ;; ret (2 <? ndim c)%Z.

(** The property [S]. *)
Definition S : M T ndarray :=
  refresh ;;~
  reads (fun self => match _Elas__S (base self) with
                     | Some s => Ok s
                     | None => Raise AttributeError
                     end).

End Cache.

(** [_Elas.__init__]: the attributes of the base class at the end of a
    constructor.  Every constructor has marked the law stale by then. *)
Definition __init__ (dim : Z) (thickness : R) (planeStress : bool) : result attrs :=
  th <- (if (dim =? 2)%Z
         then assert (Rltb 0 thickness) ;;; Ok (Some thickness)
         else Ok None) ;;
  Ok {| _Elas__dim := dim;
        _Elas__thickness := th;
        _Elas__planeStress := if (dim =? 2)%Z then planeStress else false;
        useNumba := false;
        _IModel__needUpdate := true;
        _Elas__C := None;
        _Elas__S := None |}.

End _Elas.

(** *** Isotropic law *)

Module Elas_Isot.

Record instance : Type := {
  elas : _Elas.attrs;
  _Elas_Isot__dim : Z;
  _Elas_Isot__E : value;
  _Elas_Isot__v : value
}.

Definition with_elas (e : _Elas.attrs) (self : instance) : instance :=
  {| elas := e; _Elas_Isot__dim := _Elas_Isot__dim self;
     _Elas_Isot__E := _Elas_Isot__E self; _Elas_Isot__v := _Elas_Isot__v self |}.

Definition set_E (value : value) (self : instance) : instance :=
  {| elas := elas self; _Elas_Isot__dim := _Elas_Isot__dim self;
     _Elas_Isot__E := value; _Elas_Isot__v := _Elas_Isot__v self |}.

Definition set_v (value : value) (self : instance) : instance :=
  {| elas := elas self; _Elas_Isot__dim := _Elas_Isot__dim self;
     _Elas_Isot__E := _Elas_Isot__E self; _Elas_Isot__v := value |}.

#[global] Instance is_elas : _Elas.Instance instance :=
  {| _Elas.base := elas; _Elas.with_base := with_elas |}.

Definition __init__ (dim : Z) (E v : value) (planeStress : bool) (thickness : R)
  : result instance :=
  assert ((dim =? 2) || (dim =? 3))%Z ;;;
  _Test_Sup0 E ;;;
  _Test_In v bInf_default bSup_default ;;;
  e <- _Elas.__init__ dim thickness planeStress ;;
  Ok {| elas := e; _Elas_Isot__dim := dim; _Elas_Isot__E := E; _Elas_Isot__v := v |}.

Definition E (self : instance) : value := _Elas_Isot__E self.

Definition E_setter (value : value) : M instance unit :=
  reads (fun _ => _Test_Sup0 value) ;;~
  _Elas.Need_Update true ;;~
  modify (set_E value).

Definition v (self : instance) : value := _Elas_Isot__v self.

Definition v_setter (value : value) : M instance unit :=
  reads (fun _ => _Test_In value bInf_default bSup_default) ;;~
  _Elas.Need_Update true ;;~
  modify (set_v value).

Definition get_lambda (self : instance) : result value :=
  let E := E self in
  let v := v self in
  l <- !E *' !v /' ((#1 +' !v) *' (#1 -' #2 *' !v)) ;;
  if (_Elas_Isot__dim self =? 2)%Z && _Elas.planeStress self
  then !E *' !v /' (#1 -' !v **' 2)
  else Ok l.

Definition get_mu (self : instance) : result value :=
  let E := E self in
  let v := v self in
  !E /' (#2 *' (#1 +' !v)).

Definition get_bulk (self : instance) : result value :=
  mu <- get_mu self ;;
  l <- get_lambda self ;;
  !l +' #2 *' !mu /' #(IZR (_Elas.dim self)).

Definition _Behavior (self : instance) (dim : option Z) : result (ndarray * ndarray) :=
  dim <- match dim with
         | None => Ok (_Elas_Isot__dim self)
         | Some d => assert ((d =? 2) || (d =? 3))%Z ;;; Ok d
         end ;;
  mu <- get_mu self ;;
  l <- get_lambda self ;;
  let O := Scalar 0 in
  cVoigt <- (if (dim =? 2)%Z then
               d <- !l +' #2 *' !mu ;;
               Ok [[d; l; O];
                   [l; d; O];
                   [O; O; mu]]
             else if (dim =? 3)%Z then
               d <- !l +' #2 *' !mu ;;
               Ok [[d; l; l; O; O; O];
                   [l; d; l; O; O; O];
                   [l; l; d; O; O; O];
                   [O; O; O; mu; O; O];
                   [O; O; O; O; mu; O];
                   [O; O; O; O; O; mu]]
             else Raise UnboundLocalError) ;;
  cVoigt <- Heterogeneous_Array cVoigt ;;
  let c := KelvinMandel_Matrix dim cVoigt in
  s <- np_linalg_inv c ;;
  Ok (c, s).

Definition _Update : M instance unit :=
  fun self =>
    match _Behavior self (Some (_Elas.dim self)) with
    | Ok (c, s) => (_Elas.C_setter c ;;~ _Elas.S_setter s) self
    | Raise e => (Raise e, self)
    end.

#[global] Instance is_law : _Elas.Law instance :=
  {| _Elas._Update := _Update |}.

Definition Walpole_Decomposition : M instance (list value * list matrix) :=
  c1 <~ reads get_bulk ;;
  c2 <~ reads get_mu ;;
  let Ivect := [1; 1; 1; 0; 0; 0] in
  let Isym := eye 6 in
  let E1 := mat_scale (1/3) (Tensor_Product Ivect Ivect) in
  E2 <~ reads (fun _ => mat_sub Isym E1) ;;
  heterogeneous <~ _Elas.isHeterogeneous ;;
  (if negb heterogeneous then
     C <~ _Elas.C ;;
     reads (fun _ =>
       c1' <- #3 *' !c1 ;;
       a <- value_times_matrix c1' E1 ;;
       c2' <- #2 *' !c2 ;;
       b <- value_times_matrix c2' E2 ;;
       ab <- mat_add a b ;;
       diff <- matrix_minus ab C ;;
       assert (ratio_le (nd_norm diff) (nd_norm C) 1e-12))
   else ret tt) ;;~
  ret ([c1; c2], [mat_scale 3 E1; mat_scale 2 E2]).

End Elas_Isot.

(** *** Operations on arrays of matrices *)

(** [a - b] for two arrays of matrices, with numpy's broadcasting of a matrix
    against a batch. *)
Definition nd_sub (a b : ndarray) : result ndarray :=
  match a, b with
  | Mat m, Mat m' => d <- mat_sub m m' ;; Ok (Mat d)
  | Mat m, Batch ms' => ds <- mapM (mat_sub m) ms' ;; Ok (Batch ds)
  | Batch ms, Mat m' => ds <- mapM (fun m => mat_sub m m') ms ;; Ok (Batch ds)
  | Batch ms, Batch ms' =>
      cs <- (match ms, ms' with
             | [m], _ => Ok (map (mat_sub m) ms')
             | _, [m'] => Ok (map (fun m => mat_sub m m') ms)
             | _, _ => zip_with mat_sub ms ms'
             end) ;;
      ds <- sequence cs ;; Ok (Batch ds)
  end.

(** [np.linalg.norm(a, axis=(-2,-1))]: one norm per matrix. *)
Definition norms (a : ndarray) : value :=
  match a with
  | Mat m => Scalar (norm m)
  | Batch ms => Array (map norm ms)
  end.

(** The quotient of two numpy floats; [None] stands for [inf] and [nan]. *)
Definition np_ratio (x y : R) : option R :=
  if Req_dec_T y 0 then None else Some (x / y).

(** [n / d] for the norms of two arrays. *)
Definition ratios (n d : value) : result (list (option R)) :=
  match n, d with
  | Scalar x, Scalar y => Ok [np_ratio x y]
  | Scalar x, Array ys => Ok (map (np_ratio x) ys)
  | Array xs, Scalar y => Ok (map (fun x => np_ratio x y) xs)
  | Array xs, Array ys => broadcast_lists np_ratio xs ys
  end.

(** [np.max(rs) < tol]; the maximum of no value raises, and a comparison
    with [inf] or [nan] is false. *)
Definition max_lt (rs : list (option R)) (tol : R) : result bool :=
  match rs with
  | [] => Raise ValueError
  | _ => Ok (forallb (fun r => match r with
                               | Some x => Rltb x tol
                               | None => false
                               end) rs)
  end.

(** [assert np.max(norm(x - y, axis=(-2,-1)) / norm(ref, axis=(-2,-1))) < tol] *)
Definition assert_close (x y ref : ndarray) (tol : R) : result unit :=
  d <- nd_sub x y ;;
  rs <- ratios (norms d) (norms ref) ;;
  ok <- max_lt rs tol ;;
  assert ok.

(** [a[x, :][:, x]] *)
Definition index2 (x : list nat) (a : ndarray) : result ndarray :=
  match a with
  | Mat m => r <- submatrix x m ;; Ok (Mat r)
  | Batch ms =>
      picked <- mapM (fun i => match nth_error ms i with
                               | Some m => Ok m
                               | None => Raise IndexError
                               end) x ;;
      rs <- mapM (take_rows x) picked ;; Ok (Batch rs)
  end.

(** [a[:, x, :][:, :, x]] *)
Definition index3 (x : list nat) (a : ndarray) : result ndarray :=
  match a with
  | Mat _ => Raise IndexError
  | Batch ms => rs <- mapM (submatrix x) ms ;; Ok (Batch rs)
  end.

(** The reduction to the components xx, yy, xy, chosen on [len(shape)]. *)
Definition reduce_2d (shape_len : Z) (x : list nat) (a : ndarray) : result ndarray :=
  if (shape_len =? 2)%Z then index2 x a
  else if (shape_len =? 3)%Z then index3 x a
  else Ok a.

(** [a - b] for two vectors. *)
Definition vec_sub (a b : vec) : result vec := broadcast_lists Rminus a b.

(** The orthogonality test the two constructors with axes share:
    [assert axis1 @ axis2 <= 1e-12]. *)
Definition axes_test (axis1 axis2 : vec) : bool := Rleb (dot axis1 axis2) 1e-12.

Module Elas_IsotTrans.

Record instance : Type := {
  elas : _Elas.attrs;
  _Elas_IsotTrans__dim : Z;
  _Elas_IsotTrans__El : value;
  _Elas_IsotTrans__Et : value;
  _Elas_IsotTrans__Gl : value;
  _Elas_IsotTrans__vl : value;
  _Elas_IsotTrans__vt : value;
  _Elas_IsotTrans__axis_l : vec;
  _Elas_IsotTrans__axis_t : vec
}.

Definition with_elas (e : _Elas.attrs) (self : instance) : instance :=
  {| elas := e;
     _Elas_IsotTrans__dim := _Elas_IsotTrans__dim self;
     _Elas_IsotTrans__El := _Elas_IsotTrans__El self;
     _Elas_IsotTrans__Et := _Elas_IsotTrans__Et self;
     _Elas_IsotTrans__Gl := _Elas_IsotTrans__Gl self;
     _Elas_IsotTrans__vl := _Elas_IsotTrans__vl self;
     _Elas_IsotTrans__vt := _Elas_IsotTrans__vt self;
     _Elas_IsotTrans__axis_l := _Elas_IsotTrans__axis_l self;
     _Elas_IsotTrans__axis_t := _Elas_IsotTrans__axis_t self |}.

#[global] Instance is_elas : _Elas.Instance instance :=
  {| _Elas.base := elas; _Elas.with_base := with_elas |}.

Definition __init__ (dim : Z) (El Et Gl vl vt : value) (axis_l axis_t : vec)
  (planeStress : bool) (thickness : R) : result instance :=
  assert ((dim =? 2) || (dim =? 3))%Z ;;;
  _Test_Sup0 El ;;;
  _Test_Sup0 Et ;;;
  _Test_Sup0 Gl ;;;
  _Test_In vl (-1) 1 ;;;
  _Test_In vt bInf_default bSup_default ;;;
  let axis_l := As_Coordinates axis_l in
  let axis_t := As_Coordinates axis_t in
  assert (length axis_l =? 3)%nat ;;;
  assert (length axis_t =? 3)%nat ;;;
  assert (axes_test axis_l axis_t) ;;;
  axis_l' <- Normalize_vect axis_l ;;
  axis_t' <- Normalize_vect axis_t ;;
  e <- _Elas.__init__ dim thickness planeStress ;;
  Ok {| elas := e;
        _Elas_IsotTrans__dim := dim;
        _Elas_IsotTrans__El := El;
        _Elas_IsotTrans__Et := Et;
        _Elas_IsotTrans__Gl := Gl;
        _Elas_IsotTrans__vl := vl;
        _Elas_IsotTrans__vt := vt;
        _Elas_IsotTrans__axis_l := axis_l';
        _Elas_IsotTrans__axis_t := axis_t' |}.

Definition El := _Elas_IsotTrans__El.
Definition Et := _Elas_IsotTrans__Et.
Definition Gl := _Elas_IsotTrans__Gl.
Definition vl := _Elas_IsotTrans__vl.
Definition vt := _Elas_IsotTrans__vt.
Definition axis_l := _Elas_IsotTrans__axis_l.
Definition axis_t := _Elas_IsotTrans__axis_t.

Definition Gt (self : instance) : result value :=
  let Et := Et self in
  let vt := vt self in
  !Et /' (#2 *' (#1 +' !vt)).

Definition kt (self : instance) : result value :=
  let El := El self in
  let Et := Et self in
  let vtt := vt self in
  let vtl := vl self in
  !El *' !Et /' ((#2 *' (#1 -' !vtt) *' !El) -' (#4 *' !vtl **' 2 *' !Et)).

Definition _useSameAxis (self : instance) : result bool :=
  dl <- vec_sub (axis_l self) [1; 0; 0] ;;
  let testAxis_l := Rleb (vnorm dl) 1e-12 in
  dt <- vec_sub (axis_t self) [0; 1; 0] ;;
  let testAxis_t := Rleb (vnorm dt) 1e-12 in
  Ok (testAxis_l && testAxis_t).

(** The compliance matrix in the material frame.  [dtype] is [object] if
    [kt] is an array and [float] otherwise. *)
Definition material_sM (self : instance) (Gt kt : value) : result ndarray :=
  let El := El self in
  let Et := Et self in
  let vt := vt self in
  let vl := vl self in
  let Gl := Gl self in
  let dtype_is_object := is_array kt in
  let O := Scalar 0 in
  a <- #1 /' !El ;;
  b <- -' !vl /' !El ;;
  c <- #1 /' !Et ;;
  d <- -' !vt /' !Et ;;
  e <- #1 /' (#2 *' !Gt) ;;
  f <- #1 /' (#2 *' !Gl) ;;
  entries <- np_array dtype_is_object
    [[a; b; b; O; O; O];
     [b; c; d; O; O; O];
     [b; d; c; O; O; O];
     [O; O; O; e; O; O];
     [O; O; O; O; f; O];
     [O; O; O; O; O; f]] ;;
  Heterogeneous_Array entries.

(** The stiffness matrix in the material frame, with the same [dtype]. *)
Definition material_cM (self : instance) (Gt kt : value) : result ndarray :=
  let El := El self in
  let vl := vl self in
  let Gl := Gl self in
  let dtype_is_object := is_array kt in
  let O := Scalar 0 in
  a <- !El +' #4 *' !vl **' 2 *' !kt ;;
  b <- #2 *' !kt *' !vl ;;
  c <- !kt +' !Gt ;;
  d <- !kt -' !Gt ;;
  e <- #2 *' !Gt ;;
  f <- #2 *' !Gl ;;
  entries <- np_array dtype_is_object
    [[a; b; b; O; O; O];
     [b; c; d; O; O; O];
     [b; d; c; O; O; O];
     [O; O; O; e; O; O];
     [O; O; O; O; f; O];
     [O; O; O; O; O; f]] ;;
  Heterogeneous_Array entries.

Section External.

(** The base change of [_utils], outside of the two modules: [Get_Pmat]
    builds the operator from the two axes and [Apply_Pmat] applies it to a
    matrix or to a batch of matrices. *)
Variable Get_Pmat : vec -> vec -> result matrix.
Variable Apply_Pmat : matrix -> ndarray -> result ndarray.

(** The two matrices in the global frame, after the checks on the material
    frame: the first part of [_Behavior]. *)
Definition global_matrices (self : instance) (P : option matrix)
  : result (ndarray * ndarray) :=
  P <- match P with
       | Some P => Ok P
       | None => Get_Pmat (_Elas_IsotTrans__axis_l self) (_Elas_IsotTrans__axis_t self)
       end ;;
  useSameAxis <- _useSameAxis self ;;
  Gt <- Gt self ;;
  kt <- kt self ;;
  material_sM <- material_sM self Gt kt ;;
  material_cM <- material_cM self Gt kt ;;
  (if (ndim material_cM =? 2)%Z then
     inv_c <- np_linalg_inv material_cM ;;
     assert_close material_sM inv_c material_sM 1e-12 ;;;
     inv_s <- np_linalg_inv material_sM ;;
     assert_close material_cM inv_s material_cM 1e-12
   else Ok tt) ;;;
  global_sM <- Apply_Pmat P material_sM ;;
  global_cM <- Apply_Pmat P material_cM ;;
  (if useSameAxis then
     assert_close global_cM material_cM material_cM 1e-12 ;;;
     assert_close global_sM material_sM material_sM 1e-12
   else Ok tt) ;;;
  Ok (global_cM, global_sM).

Definition _Behavior (self : instance) (dim : option Z) (P : option matrix)
  : result (ndarray * ndarray) :=
  let dim := match dim with
             | None => _Elas_IsotTrans__dim self
             | Some d => d
             end in
  '(global_cM, global_sM) <- global_matrices self P ;;
  if (dim =? 2)%Z then
    let x := [0; 1; 5]%nat in
    let shape := ndim global_cM in
    if _Elas.planeStress self then
      s <- reduce_2d shape x global_sM ;;
      c <- np_linalg_inv s ;;
      Ok (c, s)
    else
      c <- reduce_2d shape x global_cM ;;
      s <- np_linalg_inv c ;;
      Ok (c, s)
  else Ok (global_cM, global_sM).

Definition _Update : M instance unit :=
  fun self =>
    match _Behavior self (Some (_Elas.dim self)) None with
    | Ok (c, s) => (_Elas.C_setter c ;;~ _Elas.S_setter s) self
    | Raise e => (Raise e, self)
    end.

End External.

Definition is_law (Get_Pmat : vec -> vec -> result matrix)
  (Apply_Pmat : matrix -> ndarray -> result ndarray) : _Elas.Law instance :=
  {| _Elas._Update := _Update Get_Pmat Apply_Pmat |}.

End Elas_IsotTrans.

(** *** Anisotropic law *)

(** [m.T] *)
Definition transpose (m : matrix) : matrix :=
  map (fun j => col j m) (seq 0 (length (hd [] m))).

(** The position of [k] in a list of indices. *)
Fixpoint position (k : nat) (idx : list nat) : option nat :=
  match idx with
  | [] => None
  | i :: rest => if (i =? k)%nat then Some 0%nat
                 else option_map Datatypes.S (position k rest)
  end.

(** [np.zeros((6,6))] with [g[I, J] = m[i, j]] for [I = idx[i]], [J = idx[j]]. *)
Definition embed (idx : list nat) (m : matrix) : matrix :=
  map (fun I => map (fun J => match position I idx, position J idx with
                              | Some i, Some j => nth j (nth i m []) 0
                              | _, _ => 0
                              end) (seq 0 6)) (seq 0 6).

Module Elas_Anisot.

Record instance : Type := {
  elas : _Elas.attrs;
  _Elas_Anisot__dim : Z;
  _Elas_Anisot__axis1 : vec;
  _Elas_Anisot__axis2 : vec
}.

Definition with_elas (e : _Elas.attrs) (self : instance) : instance :=
  {| elas := e;
     _Elas_Anisot__dim := _Elas_Anisot__dim self;
     _Elas_Anisot__axis1 := _Elas_Anisot__axis1 self;
     _Elas_Anisot__axis2 := _Elas_Anisot__axis2 self |}.

#[global] Instance is_elas : _Elas.Instance instance :=
  {| _Elas.base := elas; _Elas.with_base := with_elas |}.

(** The checks of the constructor up to the call of [_Elas.__init__]. *)
Definition check_axes (dim : Z) (axis1 axis2 : vec) : result (vec * vec) :=
  assert ((dim =? 2) || (dim =? 3))%Z ;;;
  let axis1 := As_Coordinates axis1 in
  let axis2 := As_Coordinates axis2 in
  assert (length axis1 =? 3)%nat ;;;
  assert (length axis2 =? 3)%nat ;;;
  assert (axes_test axis1 axis2) ;;;
  axis1' <- Normalize_vect axis1 ;;
  axis2' <- Normalize_vect axis2 ;;
  Ok (axis1', axis2').

Section External.

Variable Get_Pmat : vec -> vec -> result matrix.
Variable Apply_Pmat : matrix -> ndarray -> result ndarray.

(** [_Behavior] for a stiffness matrix [C] of two dimensions. *)
Definition _Behavior (self : instance) (C : matrix) (useVoigtNotation : bool)
  : result ndarray :=
  assert (is_shape 3 C || is_shape 6 C) ;;;
  let dim := if (length (hd [] C) =? 6)%nat then 3%Z else 2%Z in
  d <- mat_sub (transpose C) C ;;
  assert (ratio_le (norm d) (norm C) 1e-12) ;;;
  let C_mandel := if useVoigtNotation then kelvin_matrix dim C else C in
  let idx := [0; 1; 5]%nat in
  let C_mandel_global := if (dim =? 2)%Z then embed idx C_mandel else C in
  P <- Get_Pmat (_Elas_Anisot__axis1 self) (_Elas_Anisot__axis2 self) ;;
  C_mandelP_global <- Apply_Pmat P (Mat C_mandel_global) ;;
  if (_Elas_Anisot__dim self =? 2)%Z
  then index2 idx C_mandelP_global
  else Ok C_mandelP_global.

Definition Set_C (C : matrix) (useVoigtNotation update_S : bool) : M instance unit :=
  _Elas.Need_Update true ;;~
  C_mandelP <~ reads (fun self => _Behavior self C useVoigtNotation) ;;
  _Elas.C_setter C_mandelP ;;~
  if update_S then
    S_mandelP <~ reads (fun _ => np_linalg_inv C_mandelP) ;;
    _Elas.S_setter S_mandelP
  else ret tt.

Definition __init__ (dim : Z) (C : matrix) (useVoigtNotation : bool)
  (axis1 axis2 : vec) (thickness : R) : result instance :=
  '(axis1', axis2') <- check_axes dim axis1 axis2 ;;
  e <- _Elas.__init__ dim thickness false ;;
  let self := {| elas := e; _Elas_Anisot__dim := dim;
                 _Elas_Anisot__axis1 := axis1'; _Elas_Anisot__axis2 := axis2' |} in
  match Set_C C useVoigtNotation true self with
  | (Ok _, self') => Ok self'
  | (Raise e, _) => Raise e
  end.

End External.

(** [_Update] does nothing for this law, which is updated by [Set_C]. *)
Definition _Update : M instance unit := ret tt.

#[global] Instance is_law : _Elas.Law instance :=
  {| _Elas._Update := _Update |}.

End Elas_Anisot.

(** ** Closed forms used in the statements *)

(** The Kelvin-Mandel stiffness of the isotropic law in terms of the Lame
    parameter [l] and the shear modulus [mu], and its inverse. *)
Definition isot_C2d (l mu : R) : matrix :=
  [[l + 2*mu; l; 0];
   [l; l + 2*mu; 0];
   [0; 0; 2*mu]].

Definition isot_S2d (l mu : R) : matrix :=
  let d := 4*mu*(l + mu) in
  [[(l + 2*mu)/d; -l/d; 0];
   [-l/d; (l + 2*mu)/d; 0];
   [0; 0; 1/(2*mu)]].

Definition isot_C3d (l mu : R) : matrix :=
  [[l + 2*mu; l; l; 0; 0; 0];
   [l; l + 2*mu; l; 0; 0; 0];
   [l; l; l + 2*mu; 0; 0; 0];
   [0; 0; 0; 2*mu; 0; 0];
   [0; 0; 0; 0; 2*mu; 0];
   [0; 0; 0; 0; 0; 2*mu]].

Definition isot_S3d (l mu : R) : matrix :=
  let d := 2*mu*(3*l + 2*mu) in
  [[2*(l + mu)/d; -l/d; -l/d; 0; 0; 0];
   [-l/d; 2*(l + mu)/d; -l/d; 0; 0; 0];
   [-l/d; -l/d; 2*(l + mu)/d; 0; 0; 0];
   [0; 0; 0; 1/(2*mu); 0; 0];
   [0; 0; 0; 0; 1/(2*mu); 0];
   [0; 0; 0; 0; 0; 1/(2*mu)]].

(** A scalar is admissible for [E], or for a Poisson ratio, when the test of
    its setter passes. *)
Definition admissible_E (E : R) : Prop := _Test_Sup0 (Scalar E) = Ok tt.
Definition admissible_v (v : R) : Prop :=
  _Test_In (Scalar v) bInf_default bSup_default = Ok tt.

(** The Lame parameter and the shear modulus the code computes from scalar
    [E] and [v]. *)
Definition lambda_of (dim : Z) (planeStress : bool) (E v : R) : R :=
  if (dim =? 2)%Z && planeStress
  then E * v / (1 - v ^ 2)
  else E * v / ((1 + v) * (1 - 2 * v)).

Definition mu_of (E v : R) : R := E / (2 * (1 + v)).

(** The instance [Elas_Isot(dim)] built with the default arguments
    E=210000.0, v=0.3, planeStress=True, thickness=1.0, once constructed. *)
Definition steel (dim : Z) : Elas_Isot.instance :=
  {| Elas_Isot.elas :=
       {| _Elas._Elas__dim := dim;
          _Elas._Elas__thickness := if (dim =? 2)%Z then Some 1 else None;
          _Elas._Elas__planeStress := if (dim =? 2)%Z then true else false;
          _Elas.useNumba := false;
          _Elas._IModel__needUpdate := true;
          _Elas._Elas__C := None;
          _Elas._Elas__S := None |};
     Elas_Isot._Elas_Isot__dim := dim;
     Elas_Isot._Elas_Isot__E := Scalar 210000;
     Elas_Isot._Elas_Isot__v := Scalar 0.3 |}.

(** The state of an isotropic law after an update that computed [c] and
    [s]. *)
Definition refreshed (c s : ndarray) (self : Elas_Isot.instance) : Elas_Isot.instance :=
  Elas_Isot.with_elas
    (_Elas.set_needUpdate false (_Elas.set_S s (_Elas.set_C c (Elas_Isot.elas self))))
    self.

(** The cache of a law is coherent when the law is stale or when the cached
    matrices are the ones [_Update] would compute. *)
Definition cache_coherent (self : Elas_Isot.instance) : Prop :=
  _Elas.needUpdate self = true \/
  exists c s,
    Elas_Isot._Behavior self (Some (_Elas.dim self)) = Ok (c, s) /\
    _Elas._Elas__C (Elas_Isot.elas self) = Some c /\
    _Elas._Elas__S (Elas_Isot.elas self) = Some s.

(** The two projectors of the Walpole decomposition of the isotropic law. *)
Definition walpole_E1 : matrix :=
  mat_scale (1/3) (Tensor_Product [1; 1; 1; 0; 0; 0] [1; 1; 1; 0; 0; 0]).
Definition walpole_E2 : matrix :=
  map (fun i => map (fun j => nth j (nth i (eye 6) []) 0 - nth j (nth i walpole_E1 []) 0)
                    (seq 0 6)) (seq 0 6).

(** A heterogeneous law of dimension 3: one Young modulus per point. *)
Definition two_phase : Elas_Isot.instance :=
  Elas_Isot.set_E (Array [210000; 70000]) (steel 3).

(** A law of dimension 3 with default parameters whose cache was assigned
    [a] through the setters of [C] and [S] after a first read. *)
Definition tampered (a : ndarray) : Elas_Isot.instance := refreshed a a (steel 3).

(** The restriction of a matrix to the rows and columns listed in [x]. *)
Definition restriction (x : list nat) (g : matrix) : matrix :=
  map (fun i => map (fun j => nth j (nth i g []) 0) x) x.

(** Two batches of 3x3 matrices that are inverse of each other, point by
    point. *)
Definition inverse_batches (cs ss : list matrix) : Prop :=
  Forall2 (fun c3 s3 => matmul c3 s3 = eye 3 /\ matmul s3 c3 = eye 3) cs ss.

(** A transversely isotropic law of dimension 2 under plane stress, with
    El = Et = 1, Gl = 1/2, vl = vt = 0 and the default axes, once
    constructed. *)
Definition unit_fibre : Elas_IsotTrans.instance :=
  {| Elas_IsotTrans.elas :=
       {| _Elas._Elas__dim := 2;
          _Elas._Elas__thickness := Some 1;
          _Elas._Elas__planeStress := true;
          _Elas.useNumba := false;
          _Elas._IModel__needUpdate := true;
          _Elas._Elas__C := None;
          _Elas._Elas__S := None |};
     Elas_IsotTrans._Elas_IsotTrans__dim := 2;
     Elas_IsotTrans._Elas_IsotTrans__El := Scalar 1;
     Elas_IsotTrans._Elas_IsotTrans__Et := Scalar 1;
     Elas_IsotTrans._Elas_IsotTrans__Gl := Scalar (1/2);
     Elas_IsotTrans._Elas_IsotTrans__vl := Scalar 0;
     Elas_IsotTrans._Elas_IsotTrans__vt := Scalar 0;
     Elas_IsotTrans._Elas_IsotTrans__axis_l := [1; 0; 0];
     Elas_IsotTrans._Elas_IsotTrans__axis_t := [0; 1; 0] |}.

(** The base change for the default axes: the operator is the identity and
    leaves a matrix as it is. *)
Definition default_Pmat (axis_1 axis_2 : vec) : result matrix := Ok (eye 6).
Definition default_Apply (P : matrix) (a : ndarray) : result ndarray := Ok a.

(** A transversely isotropic law of dimension 2 with the default axes and
    thickness 1, as the constructor leaves it. *)
Definition plane_fibre (planeStress : bool) (El Et Gl vl vt : value)
  : Elas_IsotTrans.instance :=
  {| Elas_IsotTrans.elas :=
       {| _Elas._Elas__dim := 2;
          _Elas._Elas__thickness := Some 1;
          _Elas._Elas__planeStress := planeStress;
          _Elas.useNumba := false;
          _Elas._IModel__needUpdate := true;
          _Elas._Elas__C := None;
          _Elas._Elas__S := None |};
     Elas_IsotTrans._Elas_IsotTrans__dim := 2;
     Elas_IsotTrans._Elas_IsotTrans__El := El;
     Elas_IsotTrans._Elas_IsotTrans__Et := Et;
     Elas_IsotTrans._Elas_IsotTrans__Gl := Gl;
     Elas_IsotTrans._Elas_IsotTrans__vl := vl;
     Elas_IsotTrans._Elas_IsotTrans__vt := vt;
     Elas_IsotTrans._Elas_IsotTrans__axis_l := [1; 0; 0];
     Elas_IsotTrans._Elas_IsotTrans__axis_t := [0; 1; 0] |}.

(** A law whose longitudinal and transverse directions are coupled:
    El = 2, Et = 1, Gl = 1, vl = 1/2, vt = 0. *)
Definition coupled_fibre (planeStress : bool) : Elas_IsotTrans.instance :=
  plane_fibre planeStress (Scalar 2) (Scalar 1) (Scalar 1) (Scalar (1/2)) (Scalar 0).

(** A heterogeneous law: the same parameters with one longitudinal modulus
    per point, El = 2 and El = 4. *)
Definition graded_fibre (planeStress : bool) : Elas_IsotTrans.instance :=
  plane_fibre planeStress (Array [2; 4]) (Scalar 1) (Scalar 1) (Scalar (1/2)) (Scalar 0).

(** The compliance and the stiffness of the material frame for Et = 1,
    Gl = 1, vl = 1/2, vt = 0 (so Gt = 1/2), as functions of El and kt: the
    ones of [coupled_fibre] with El = 2, kt = 2/3, and of the two points of
    [graded_fibre] with El = 2, kt = 2/3 and El = 4, kt = 4/7. *)
Definition coupled_sM (El : R) : matrix :=
  [[1 / El; - (1/2) / El; - (1/2) / El; 0; 0; 0];
   [- (1/2) / El; 1; 0; 0; 0; 0];
   [- (1/2) / El; 0; 1; 0; 0; 0];
   [0; 0; 0; 1; 0; 0];
   [0; 0; 0; 0; 1/2; 0];
   [0; 0; 0; 0; 0; 1/2]].
Definition coupled_cM (El kt : R) : matrix :=
  [[El + kt; kt; kt; 0; 0; 0];
   [kt; kt + 1/2; kt - 1/2; 0; 0; 0];
   [kt; kt - 1/2; kt + 1/2; 0; 0; 0];
   [0; 0; 0; 1; 0; 0];
   [0; 0; 0; 0; 2; 0];
   [0; 0; 0; 0; 0; 2]].

(** The difference between the combination [3*c1*E1 + 2*c2*E2] and the
    stiffness [C], as [Walpole_Decomposition] computes it for its check. *)
Definition walpole_residual (c1 c2 : value) (C : ndarray) : result ndarray :=
  c1' <- #3 *' !c1 ;;
  a <- value_times_matrix c1' walpole_E1 ;;
  c2' <- #2 *' !c2 ;;
  b <- value_times_matrix c2' walpole_E2 ;;
  ab <- mat_add a b ;;
  matrix_minus ab C.

(** An anisotropic law with the default axes as its constructor leaves it
    before the call of [Set_C]. *)
Definition blank_anisot (dim : Z) : Elas_Anisot.instance :=
  {| Elas_Anisot.elas :=
       {| _Elas._Elas__dim := dim;
          _Elas._Elas__thickness := if (dim =? 2)%Z then Some 1 else None;
          _Elas._Elas__planeStress := false;
          _Elas.useNumba := false;
          _Elas._IModel__needUpdate := true;
          _Elas._Elas__C := None;
          _Elas._Elas__S := None |};
     Elas_Anisot._Elas_Anisot__dim := dim;
     Elas_Anisot._Elas_Anisot__axis1 := [1; 0; 0];
     Elas_Anisot._Elas_Anisot__axis2 := [0; 1; 0] |}.

(** ** Reference nodes and topology of the prisms *)

(** A point of the reference element. *)
Definition point : Type := (R * R * R)%type.

(** The reference coordinates (r, s, t) of the six vertices, read off the
    diagrams of [PRISM6] and [PRISM15]: node 0 at [origin], nodes 1 and 2
    one unit along u and v, and the triangle 3, 4, 5 above the triangle
    0, 1, 2, at t = 1. *)
Definition prism_vertices : list point :=
  [(0, 0, -1); (1, 0, -1); (0, 1, -1); (0, 0, 1); (1, 0, 1); (0, 1, 1)].

Definition midpoint (p q : point) : point :=
  let '(r1, s1, t1) := p in
  let '(r2, s2, t2) := q in
  ((r1 + r2) / 2, (s1 + s2) / 2, (t1 + t2) / 2).

(** The two vertices between which the nodes 6 to 14 of [PRISM15] sit, as
    drawn in its diagram. *)
Definition PRISM15_edge_of_node : list (nat * nat) :=
  [(0, 1); (0, 2); (0, 3); (1, 2); (1, 4); (2, 5); (3, 4); (3, 5); (4, 5)]%nat.

Definition vertex (a : nat) : point := nth a prism_vertices (0, 0, 0).

Definition PRISM6_nodes : list point := prism_vertices.

Definition PRISM15_nodes : list point :=
  prism_vertices
  ++ map (fun e => midpoint (vertex (fst e)) (vertex (snd e))) PRISM15_edge_of_node.

(** The values of a column of functions at a point. *)
Definition evaluate_at (N : list (list shape_fun)) (p : point) : list R :=
  let '(r, s, t) := p in evaluate N r s t.

(** The field interpolated from the nodal values [u]. *)
Definition interpolate (N : list (list shape_fun)) (u : list R) (p : point) : R :=
  dot u (evaluate_at N p).

(** The column [k] of a table of derivatives, at a point. *)
Definition column_at (dN : list (list shape_fun)) (k : nat) (r s t : R) : list R :=
  map (fun row => nth k row no_fun r s t) dN.

(** The loops of [k] nodes of a table of faces. *)
Fixpoint loops (k : nat) (count : nat) (faces : list nat) : list (list nat) :=
  match count with
  | O => []
  | S c => firstn k faces :: loops k c (skipn k faces)
  end.

(** The steps around a loop, the last node being joined to the first. *)
Definition steps (loop : list nat) : list (nat * nat) :=
  combine loop (skipn 1 loop ++ firstn 1 loop).

(** The steps around a loop of [PRISM15]: a vertex, the node met next, and
    the vertex after it. *)
Fixpoint every_other (l : list nat) : list nat :=
  match l with
  | a :: _ :: rest => a :: every_other rest
  | _ => l
  end.
Definition mid_steps (loop : list nat) : list (nat * nat * nat) :=
  combine (steps (every_other loop)) (every_other (skipn 1 loop)).

(** [a] and [b] are the ends of one of the segments. *)
Definition joined (segments : list (list nat)) (a b : nat) : Prop :=
  In [a; b] segments \/ In [b; a] segments.

(** The number of loops in which the segment from [a] to [b] is a step. *)
Definition faces_on (fs : list (list nat)) (a b : nat) : nat :=
  length (filter (fun loop =>
                    existsb (fun st => ((fst st =? a) && (snd st =? b)
                                        || (fst st =? b) && (snd st =? a))%nat)
                            (steps loop)) fs).

(** ** Closed forms of the isotropic law in terms of E and v *)

(** The Voigt stiffness of the plane-stress law, as in the commented-out
    lines of [Elas_Isot._Behavior]:
    [[1, v, 0], [v, 1, 0], [0, 0, (1-v)/2]] * E/(1-v**2). *)
Definition plane_stress_voigt (E v : R) : matrix :=
  mat_scale (E / (1 - v ^ 2))
    [[1; v; 0];
     [v; 1; 0];
     [0; 0; (1 - v) / 2]].

(** The Voigt stiffness of the plane-strain law, as in the commented-out
    lines of [Elas_Isot._Behavior]:
    [[1, v/(1-v), 0], [v/(1-v), 1, 0], [0, 0, (1-2*v)/(2*(1-v))]]
    * E*(1-v)/((1+v)*(1-2*v)). *)
Definition plane_strain_voigt (E v : R) : matrix :=
  mat_scale (E * (1 - v) / ((1 + v) * (1 - 2 * v)))
    [[1; v / (1 - v); 0];
     [v / (1 - v); 1; 0];
     [0; 0; (1 - 2 * v) / (2 * (1 - v))]].

(** Hooke's law in Kelvin-Mandel form: the compliance of a material of
    Young modulus [E] and Poisson ratio [v], in 3D, under plane stress and
    under plane strain. *)
Definition hooke_S3d (E v : R) : matrix :=
  [[1 / E; - v / E; - v / E; 0; 0; 0];
   [- v / E; 1 / E; - v / E; 0; 0; 0];
   [- v / E; - v / E; 1 / E; 0; 0; 0];
   [0; 0; 0; (1 + v) / E; 0; 0];
   [0; 0; 0; 0; (1 + v) / E; 0];
   [0; 0; 0; 0; 0; (1 + v) / E]].

Definition hooke_S_plane_stress (E v : R) : matrix :=
  [[1 / E; - v / E; 0];
   [- v / E; 1 / E; 0];
   [0; 0; (1 + v) / E]].

Definition hooke_S_plane_strain (E v : R) : matrix :=
  [[(1 - v ^ 2) / E; - v * (1 + v) / E; 0];
   [- v * (1 + v) / E; (1 - v ^ 2) / E; 0];
   [0; 0; (1 + v) / E]].

(* ================================================================== *)
(** * Part II.  Properties                                            *)
(* ================================================================== *)

(** ** Shape functions *)

(** A function that agrees with the parabola through its values at -1, 0
    and 1 has that parabola's slope. *)
Lemma derivable_pt_lim_quadratic (f : R -> R) (x l : R) :
  (forall y, f y = (f 1 + f (-1) - 2 * f 0) / 2 * (y * y)
                   + (f 1 - f (-1)) / 2 * y + f 0) ->
  l = (f 1 + f (-1) - 2 * f 0) * x + (f 1 - f (-1)) / 2 ->
  derivable_pt_lim f x l.
Proof.
  intros Hf Hl eps Heps.
  set (a := (f 1 + f (-1) - 2 * f 0) / 2) in *.
  set (b := (f 1 - f (-1)) / 2) in *.
  assert (Hpos : 0 < eps / (Rabs a + 1)).
  { apply Rdiv_lt_0_compat; [assumption|]. pose proof (Rabs_pos a). lra. }
  exists (mkposreal _ Hpos). simpl. intros h Hh Hlt.
  rewrite (Hf (x + h)), (Hf x). fold a b.
  replace ((a * ((x + h) * (x + h)) + b * (x + h) + f 0
            - (a * (x * x) + b * x + f 0)) / h - l)
    with (a * h).
  2:{ subst l. replace (f 1 + f (-1) - 2 * f 0) with (2 * a) by (unfold a; field).
      field. assumption. }
  rewrite Rabs_mult.
  pose proof (Rabs_pos a) as Ha. pose proof (Rabs_pos h) as Hh'.
  apply Rle_lt_trans with (Rabs a * (eps / (Rabs a + 1))).
  - apply Rmult_le_compat_l; lra.
  - assert (Rabs a * (eps / (Rabs a + 1)) = eps * (Rabs a / (Rabs a + 1))) as ->
        by (field; lra).
    assert (Rabs a / (Rabs a + 1) < 1).
    { apply Rmult_lt_reg_r with (Rabs a + 1); [lra|].
      unfold Rdiv. rewrite Rmult_assoc, Rinv_l; lra. }
    nra.
Qed.

(** Every function of the two tables is at most quadratic in each variable. *)
Ltac quadratic_entry :=
  apply derivable_pt_lim_quadratic; [intro; field | field].

(** Unfolds the tables and leaves the arithmetic of [R] folded. *)
Ltac table_entry :=
  cbv - [Rplus Rmult Rminus Ropp Rdiv Rinv IZR derivable_pt_lim].

Lemma PRISM6_gradient (r s t : R) (i k : nat) :
  (i < 6)%nat -> (k < 3)%nat ->
  partial_derivative k (basis PRISM6._N i) r s t (entry PRISM6._dN i k r s t).
Proof.
  intros Hi Hk.
  do 6 (destruct i as [|i]; [ do 3 (destruct k as [|k]; [ table_entry; quadratic_entry | ]); lia | ]).
  lia.
Qed.

Lemma PRISM15_gradient (r s t : R) (i k : nat) :
  (i < 15)%nat -> (k < 3)%nat ->
  partial_derivative k (basis PRISM15._N i) r s t (entry PRISM15._dN i k r s t).
Proof.
  intros Hi Hk.
  do 15 (destruct i as [|i]; [ do 3 (destruct k as [|k]; [ table_entry; quadratic_entry | ]); lia | ]).
  lia.
Qed.

(** C1.  At every reference coordinate, entry (i, k) of the table of
    [PRISM6._dN] (6 nodes) and of [PRISM15._dN] (15 nodes) is the partial
    derivative of the i-th basis function of [_N] with respect to the k-th
    reference coordinate, in the order r, s, t. *)
Theorem prism_dN_is_gradient (r s t : R) (i k : nat) :
  (k < 3)%nat ->
  ((i < 6)%nat ->
   partial_derivative k (basis PRISM6._N i) r s t (entry PRISM6._dN i k r s t)) /\
  ((i < 15)%nat ->
   partial_derivative k (basis PRISM15._N i) r s t (entry PRISM15._dN i k r s t)).
Proof.
  intros Hk. split; intros Hi.
  - apply PRISM6_gradient; assumption.
  - apply PRISM15_gradient; assumption.
Qed.

Lemma prism_dN_is_gradient_witness :
  partial_derivative 2 (basis PRISM6._N 3) 0 0 0 (entry PRISM6._dN 3 2 0 0 0) /\
  partial_derivative 2 (basis PRISM15._N 8) 0 0 0 (entry PRISM15._dN 8 2 0 0 0).
Proof.
  assert (H2 : (2 < 3)%nat) by lia.
  destruct (prism_dN_is_gradient 0 0 0 3 2 H2) as [H6 _].
  destruct (prism_dN_is_gradient 0 0 0 8 2 H2) as [_ H15].
  split; [apply H6 | apply H15]; lia.
Defined.

(** C8.  At every reference coordinate the 6 basis functions of
    [PRISM6._N] sum to 1, and so do the 15 basis functions of
    [PRISM15._N]. *)
Theorem prism_partition_of_unity (r s t : R) :
  vsum (evaluate PRISM6._N r s t) = 1 /\
  vsum (evaluate PRISM15._N r s t) = 1.
Proof.
  split.
  - cbv [vsum evaluate PRISM6._N reshape_col map nth fold_right
         PRISM6.N1 PRISM6.N2 PRISM6.N3 PRISM6.N4 PRISM6.N5 PRISM6.N6].
    field.
  - cbv [vsum evaluate PRISM15._N reshape_col map nth fold_right
         PRISM15.N1 PRISM15.N2 PRISM15.N3 PRISM15.N4 PRISM15.N5 PRISM15.N6
         PRISM15.N7 PRISM15.N8 PRISM15.N9 PRISM15.N10 PRISM15.N11 PRISM15.N12
         PRISM15.N13 PRISM15.N14 PRISM15.N15].
    field.
Qed.

(** C9.  At the reference coordinate of node 0, (r, s, t) = (0, 0, -1), the
    basis functions of [PRISM6._N] take the values [1, 0, 0, 0, 0, 0]. *)
Theorem PRISM6_node0_one_hot :
  evaluate PRISM6._N 0 0 (-1) = [1; 0; 0; 0; 0; 0].
Proof.
  cbv [evaluate PRISM6._N reshape_col map nth
       PRISM6.N1 PRISM6.N2 PRISM6.N3 PRISM6.N4 PRISM6.N5 PRISM6.N6].
  repeat (apply f_equal2; [field | ]). reflexivity.
Qed.

(** ** Comparisons and divisions *)

(** Splits a successful sequence into its first step and the rest. *)
Tactic Notation "bind_inv" hyp(H) "as" ident(x) :=
  match type of H with
  | bind ?c _ = Ok _ =>
      let E := fresh "H" x in
      destruct c as [x|] eqn:E; [cbn [bind] in H | discriminate H]
  end.

Lemma Rltb_true x y : x < y -> Rltb x y = true.
Proof. intros; unfold Rltb; destruct (Rlt_dec x y); [reflexivity|contradiction]. Qed.

Lemma Rltb_false x y : ~ x < y -> Rltb x y = false.
Proof. intros; unfold Rltb; destruct (Rlt_dec x y); [contradiction|reflexivity]. Qed.

Lemma Rltb_spec x y : Rltb x y = true <-> x < y.
Proof. unfold Rltb; destruct (Rlt_dec x y); split; intros; congruence. Qed.

Lemma Rleb_true x y : x <= y -> Rleb x y = true.
Proof. intros; unfold Rleb; destruct (Rle_dec x y); [reflexivity|contradiction]. Qed.

Lemma Rleb_false x y : ~ x <= y -> Rleb x y = false.
Proof. intros; unfold Rleb; destruct (Rle_dec x y); [contradiction|reflexivity]. Qed.

Lemma py_div_ok x y : y <> 0 -> py_div x y = Ok (x / y).
Proof. intros; unfold py_div; destruct (Req_dec_T y 0); [contradiction|reflexivity]. Qed.

Lemma py_div_zero x : py_div x 0 = Raise ZeroDivisionError.
Proof. unfold py_div; destruct (Req_dec_T 0 0); [reflexivity|congruence]. Qed.

Lemma np_div_ok x y : y <> 0 -> np_div x y = Ok (x / y).
Proof. intros; unfold np_div; destruct (Req_dec_T y 0); [contradiction|reflexivity]. Qed.

Lemma vdiv_scalar x y : y <> 0 -> #x /' #y = #(x / y).
Proof.
  intros Hy. unfold vdiv, lift2, binop. simpl.
  rewrite py_div_ok by assumption. reflexivity.
Qed.

Lemma ratio_le_zero den tol : den <> 0 -> 0 <= tol -> ratio_le 0 den tol = true.
Proof.
  intros Hden Htol. unfold ratio_le.
  destruct (Req_dec_T den 0); [contradiction|].
  apply Rleb_true. unfold Rdiv. rewrite Rmult_0_l. assumption.
Qed.

Lemma admissible_E_pos E : admissible_E E <-> 0 < E.
Proof.
  unfold admissible_E, _Test_Sup0, assert. split.
  - destruct (Rltb 0 E) eqn:H; [intros _; apply Rltb_spec; assumption | discriminate].
  - intros H. rewrite Rltb_true by assumption. reflexivity.
Qed.

Lemma admissible_v_range v : admissible_v v <-> -1 < v < 0.5.
Proof.
  unfold admissible_v, _Test_In, assert, bInf_default, bSup_default. split.
  - destruct (Rltb (-1) v) eqn:H1, (Rltb v 0.5) eqn:H2; simpl; try discriminate.
    intros _. split; apply Rltb_spec; assumption.
  - intros [H1 H2]. rewrite !Rltb_true by assumption. reflexivity.
Qed.

(** ** Linear algebra of the isotropic matrices *)

Ltac list_eq :=
  repeat match goal with
         | |- @cons _ _ _ = @cons _ _ _ => apply f_equal2
         | |- @nil _ = @nil _ => reflexivity
         end.

Ltac unfold_linalg :=
  cbv [det alt_sum nth map drop_nth drop_row minor adjugate seq sign Nat.even
       Nat.add Nat.sub length matmul dot col hd eye Nat.eqb].

Ltac unfold_kelvin :=
  cbv [kelvin_matrix mapi mapi_from kelvin_coef Z.of_nat Z.ltb Z.compare
       Pos.of_succ_nat Pos.succ Pos.compare Pos.compare_cont].

Lemma sqrt2_sqr : sqrt 2 * sqrt 2 = 2.
Proof. apply sqrt_sqrt. lra. Qed.

Lemma kelvin_2d l mu d :
  d = l + 2*mu ->
  kelvin_matrix 2 [[d; l; 0]; [l; d; 0]; [0; 0; mu]] = isot_C2d l mu.
Proof.
  intros ->. unfold_kelvin. unfold isot_C2d.
  list_eq; try ring. rewrite sqrt2_sqr. ring.
Qed.

Lemma kelvin_3d l mu d :
  d = l + 2*mu ->
  kelvin_matrix 3
    [[d; l; l; 0; 0; 0]; [l; d; l; 0; 0; 0]; [l; l; d; 0; 0; 0];
     [0; 0; 0; mu; 0; 0]; [0; 0; 0; 0; mu; 0]; [0; 0; 0; 0; 0; mu]]
  = isot_C3d l mu.
Proof.
  intros ->. unfold_kelvin. unfold isot_C3d.
  list_eq; try ring; rewrite sqrt2_sqr; ring.
Qed.

Lemma det_isot_C2d l mu : det 3 (isot_C2d l mu) = 8 * mu^2 * (l + mu).
Proof. unfold isot_C2d. unfold_linalg. ring. Qed.

Lemma det_isot_C3d l mu : det 6 (isot_C3d l mu) = 32 * mu^5 * (3*l + 2*mu).
Proof. unfold isot_C3d. unfold_linalg. ring. Qed.

Lemma det_isot_C2d_nonzero l mu : mu <> 0 -> l + mu <> 0 -> det 3 (isot_C2d l mu) <> 0.
Proof.
  intros Hmu Hk. rewrite det_isot_C2d.
  assert (mu ^ 2 <> 0) by (apply pow_nonzero; assumption).
  repeat apply Rmult_integral_contrapositive_currified; try assumption; lra.
Qed.

Lemma det_isot_C3d_nonzero l mu :
  mu <> 0 -> 3*l + 2*mu <> 0 -> det 6 (isot_C3d l mu) <> 0.
Proof.
  intros Hmu Hk. rewrite det_isot_C3d.
  assert (mu ^ 5 <> 0) by (apply pow_nonzero; assumption).
  repeat apply Rmult_integral_contrapositive_currified; try assumption; lra.
Qed.

Lemma inv_isot_C2d l mu :
  mu <> 0 -> l + mu <> 0 -> inv (isot_C2d l mu) = Ok (isot_S2d l mu).
Proof.
  intros Hmu Hk. unfold inv.
  change (length (isot_C2d l mu)) with 3%nat.
  change (negb (is_shape 3 (isot_C2d l mu))) with false. cbv iota.
  destruct (Req_dec_T (det 3 (isot_C2d l mu)) 0) as [H0|H0].
  - exfalso. revert H0. apply det_isot_C2d_nonzero; assumption.
  - apply f_equal. rewrite det_isot_C2d. unfold isot_C2d, isot_S2d. unfold_linalg.
    list_eq; field; repeat split; assumption.
Qed.

Lemma inv_isot_C3d l mu :
  mu <> 0 -> 3*l + 2*mu <> 0 -> inv (isot_C3d l mu) = Ok (isot_S3d l mu).
Proof.
  intros Hmu Hk. unfold inv.
  change (length (isot_C3d l mu)) with 6%nat.
  change (negb (is_shape 6 (isot_C3d l mu))) with false. cbv iota.
  destruct (Req_dec_T (det 6 (isot_C3d l mu)) 0) as [H0|H0].
  - exfalso. revert H0. apply det_isot_C3d_nonzero; assumption.
  - apply f_equal. rewrite det_isot_C3d. unfold isot_C3d, isot_S3d. unfold_linalg.
    list_eq; field; repeat split; assumption.
Qed.

Lemma isot_2d_inverse l mu :
  mu <> 0 -> l + mu <> 0 ->
  matmul (isot_S2d l mu) (isot_C2d l mu) = eye 3 /\
  matmul (isot_C2d l mu) (isot_S2d l mu) = eye 3.
Proof.
  intros Hmu Hk. unfold isot_C2d, isot_S2d. unfold_linalg.
  split; list_eq; field; repeat split; assumption.
Qed.

Lemma isot_3d_inverse l mu :
  mu <> 0 -> 3*l + 2*mu <> 0 ->
  matmul (isot_S3d l mu) (isot_C3d l mu) = eye 6 /\
  matmul (isot_C3d l mu) (isot_S3d l mu) = eye 6.
Proof.
  intros Hmu Hk. unfold isot_C3d, isot_S3d. unfold_linalg.
  split; list_eq; field; repeat split; assumption.
Qed.

(** ** Isotropic law with scalar parameters *)

Section Isot_scalar.

Variables (self : Elas_Isot.instance) (E v : R).
Hypothesis HE : Elas_Isot._Elas_Isot__E self = Scalar E.
Hypothesis Hv : Elas_Isot._Elas_Isot__v self = Scalar v.
Hypothesis E_pos : 0 < E.
Hypothesis v_in : -1 < v < 0.5.

Let l := lambda_of (Elas_Isot._Elas_Isot__dim self) (_Elas.planeStress self) E v.
Let mu := mu_of E v.

Lemma get_mu_scalar : Elas_Isot.get_mu self = #mu.
Proof.
  unfold Elas_Isot.get_mu, Elas_Isot.E, Elas_Isot.v. rewrite HE, Hv.
  cbn [vmul vadd lift2 binop bind total].
  apply vdiv_scalar. lra.
Qed.

Lemma get_lambda_scalar : Elas_Isot.get_lambda self = #l.
Proof.
  unfold Elas_Isot.get_lambda, Elas_Isot.E, Elas_Isot.v, l, lambda_of. rewrite HE, Hv.
  cbn [vmul vadd vsub vpow lift2 binop bind total].
  rewrite vdiv_scalar by nra. cbn [bind].
  destruct (_ && _); [|reflexivity].
  apply vdiv_scalar. nra.
Qed.

Lemma get_bulk_scalar :
  _Elas.dim self <> 0%Z ->
  Elas_Isot.get_bulk self = #(l + 2 * mu / IZR (_Elas.dim self)).
Proof.
  intros Hdim. unfold Elas_Isot.get_bulk.
  rewrite get_mu_scalar, get_lambda_scalar. cbn [bind vmul lift2 binop total].
  rewrite vdiv_scalar; [reflexivity|].
  intros H0. apply Hdim. apply eq_IZR. exact H0.
Qed.

Lemma mu_pos : 0 < mu.
Proof. unfold mu, mu_of. apply Rdiv_lt_0_compat; lra. Qed.

Lemma mu_nonzero : mu <> 0.
Proof. pose proof mu_pos. lra. Qed.

(** In dimension 3 the law uses the Lame parameter of the 3D formula and
    [3 l + 2 mu = E / (1 - 2 v)]. *)
Lemma stiffness_3d_regular :
  Elas_Isot._Elas_Isot__dim self = 3%Z -> 3 * l + 2 * mu <> 0.
Proof.
  intros Hd. unfold l, mu, lambda_of, mu_of. rewrite Hd. simpl.
  replace (3 * (E * v / ((1 + v) * (1 - 2 * v))) + 2 * (E / (2 * (1 + v))))
    with (E / (1 - 2 * v)) by (field; lra).
  assert (0 < E / (1 - 2 * v)) by (apply Rdiv_lt_0_compat; lra). lra.
Qed.

(** In the plane, [l + mu] is [E / (2 (1 - v))] under plane stress and
    [E / (2 (1 + v) (1 - 2 v))] under plane strain. *)
Lemma stiffness_2d_regular : l + mu <> 0.
Proof.
  unfold l, mu, lambda_of, mu_of.
  destruct (_ && _).
  - replace (E * v / (1 - v ^ 2) + E / (2 * (1 + v)))
      with (E / (2 * (1 - v))) by (field; repeat split; nra).
    assert (0 < E / (2 * (1 - v))) by (apply Rdiv_lt_0_compat; lra). lra.
  - replace (E * v / ((1 + v) * (1 - 2 * v)) + E / (2 * (1 + v)))
      with (E / (2 * (1 + v) * (1 - 2 * v))) by (field; lra).
    assert (0 < E / (2 * (1 + v) * (1 - 2 * v)))
      by (apply Rdiv_lt_0_compat; [lra | apply Rmult_lt_0_compat; lra]).
    lra.
Qed.

Lemma _Behavior_scalar_2d (arg : option Z) :
  arg = Some 2%Z \/ (arg = None /\ Elas_Isot._Elas_Isot__dim self = 2%Z) ->
  Elas_Isot._Behavior self arg = Ok (Mat (isot_C2d l mu), Mat (isot_S2d l mu)).
Proof.
  intros Harg. unfold Elas_Isot._Behavior.
  assert (Hdim : match arg with
                 | None => Ok (Elas_Isot._Elas_Isot__dim self)
                 | Some d => assert ((d =? 2) || (d =? 3))%Z ;;; Ok d
                 end = Ok 2%Z).
  { destruct Harg as [-> | [-> ->]]; reflexivity. }
  rewrite Hdim. cbn [bind].
  rewrite get_mu_scalar, get_lambda_scalar. cbn [bind vadd vmul lift2 binop total].
  change (2 =? 2)%Z with true. cbv iota.
  cbn [Heterogeneous_Array concat app first_array map as_number bind KelvinMandel_Matrix].
  rewrite (kelvin_2d l mu) by reflexivity.
  cbn [np_linalg_inv]. rewrite inv_isot_C2d by (apply mu_nonzero || apply stiffness_2d_regular).
  reflexivity.
Qed.

Lemma _Behavior_scalar_3d (arg : option Z) :
  Elas_Isot._Elas_Isot__dim self = 3%Z ->
  arg = Some 3%Z \/ arg = None ->
  Elas_Isot._Behavior self arg = Ok (Mat (isot_C3d l mu), Mat (isot_S3d l mu)).
Proof.
  intros Hd Harg. unfold Elas_Isot._Behavior.
  assert (Hdim : match arg with
                 | None => Ok (Elas_Isot._Elas_Isot__dim self)
                 | Some d => assert ((d =? 2) || (d =? 3))%Z ;;; Ok d
                 end = Ok 3%Z).
  { destruct Harg as [-> | ->]; [reflexivity | rewrite Hd; reflexivity]. }
  rewrite Hdim. cbn [bind].
  rewrite get_mu_scalar, get_lambda_scalar. cbn [bind vadd vmul lift2 binop total].
  change (3 =? 2)%Z with false. change (3 =? 3)%Z with true. cbv iota.
  cbn [Heterogeneous_Array concat app first_array map as_number bind KelvinMandel_Matrix].
  rewrite (kelvin_3d l mu) by reflexivity.
  cbn [np_linalg_inv].
  rewrite inv_isot_C3d by (apply mu_nonzero || apply stiffness_3d_regular; assumption).
  reflexivity.
Qed.

End Isot_scalar.

Lemma steel_constructed (dim : Z) :
  dim = 2%Z \/ dim = 3%Z ->
  Elas_Isot.__init__ dim (Scalar 210000) (Scalar 0.3) true 1 = Ok (steel dim).
Proof.
  intros [-> | ->]; unfold Elas_Isot.__init__, _Elas.__init__, _Test_Sup0, _Test_In,
    bInf_default, bSup_default, steel; simpl;
  rewrite !Rltb_true by lra; reflexivity.
Qed.

(** ** The cache of the isotropic law *)

Lemma C_of_stale (self : Elas_Isot.instance) (c s : ndarray) :
  _Elas.needUpdate self = true ->
  Elas_Isot._Behavior self (Some (_Elas.dim self)) = Ok (c, s) ->
  last_shape_is (_Elas.expected_size self) c = true ->
  last_shape_is (_Elas.expected_size self) s = true ->
  _Elas.C self = (Ok c, refreshed c s self).
Proof.
  intros Hstale Hb Hc Hs.
  unfold _Elas.C, _Elas.refresh, mbind. rewrite Hstale.
  cbn [_Elas._Update Elas_Isot.is_law]. unfold Elas_Isot._Update at 1. rewrite Hb.
  unfold _Elas.C_setter, _Elas.S_setter, mbind, modify. rewrite Hc. cbn [assert].
  change (_Elas.expected_size (_Elas.with_base _ self)) with (_Elas.expected_size self).
  rewrite Hs. cbn [assert]. reflexivity.
Qed.

Lemma C_of_fresh (self : Elas_Isot.instance) (c : ndarray) :
  _Elas.needUpdate self = false ->
  _Elas._Elas__C (Elas_Isot.elas self) = Some c ->
  _Elas.C self = (Ok c, self).
Proof.
  intros Hfresh Hc.
  unfold _Elas.C, _Elas.refresh, mbind, ret, reads. rewrite Hfresh.
  cbn [_Elas.base Elas_Isot.is_elas]. rewrite Hc. reflexivity.
Qed.

Lemma C_of_refreshed (self : Elas_Isot.instance) (c s : ndarray) :
  _Elas.C (refreshed c s self) = (Ok c, refreshed c s self).
Proof. apply C_of_fresh; reflexivity. Qed.

(** C2.  For a law of dimension 2 or 3 with scalar admissible parameters
    (E > 0, v in the admissible range of the Poisson ratio), [_Behavior]
    returns a stiffness [c] and a compliance [s] with [s @ c] the identity
    (and [c @ s] as well), in exact arithmetic. *)
Theorem isot_compliance_times_stiffness (self : Elas_Isot.instance)
  (E v : R) (dim : Z) (arg : option Z) :
  dim = 2%Z \/ dim = 3%Z ->
  Elas_Isot._Elas_Isot__dim self = dim ->
  Elas_Isot.E self = Scalar E ->
  Elas_Isot.v self = Scalar v ->
  admissible_E E ->
  admissible_v v ->
  arg = None \/ arg = Some dim ->
  exists c s : matrix,
    Elas_Isot._Behavior self arg = Ok (Mat c, Mat s) /\
    matmul s c = eye (if (dim =? 2)%Z then 3 else 6) /\
    matmul c s = eye (if (dim =? 2)%Z then 3 else 6).
Proof.
  intros Hdim Hself HE Hv HEa Hva Harg.
  apply admissible_E_pos in HEa. apply admissible_v_range in Hva.
  assert (Hmu : mu_of E v <> 0) by (apply mu_nonzero; assumption).
  destruct Hdim as [-> | ->].
  - eexists. eexists. split; [| apply isot_2d_inverse;
      [exact Hmu | apply (stiffness_2d_regular self E v); assumption]].
    apply _Behavior_scalar_2d; try assumption.
    destruct Harg as [-> | ->]; [right; split; [reflexivity | assumption] | left; reflexivity].
  - eexists. eexists. split; [| apply isot_3d_inverse;
      [exact Hmu | apply (stiffness_3d_regular self E v); assumption]].
    apply _Behavior_scalar_3d; try assumption.
    destruct Harg as [-> | ->]; [right | left]; reflexivity.
Qed.

Lemma admissible_E_steel : admissible_E 210000.
Proof. apply admissible_E_pos. lra. Qed.

Lemma admissible_v_steel : admissible_v 0.3.
Proof. apply admissible_v_range. lra. Qed.

Lemma isot_compliance_times_stiffness_witness :
  exists c s : matrix,
    Elas_Isot._Behavior (steel 3) None = Ok (Mat c, Mat s) /\
    matmul s c = eye 6 /\ matmul c s = eye 6.
Proof.
  exact (isot_compliance_times_stiffness (steel 3) 210000 0.3 3 None
           (or_intror eq_refl) eq_refl eq_refl eq_refl
           admissible_E_steel admissible_v_steel (or_introl eq_refl)).
Defined.

(** At the right end of the range the Lame parameter cannot be computed:
    [(1 + v) * (1 - 2 v)] is zero at v = 0.5. *)
Lemma get_lambda_incompressible (self : Elas_Isot.instance) (E : R) :
  Elas_Isot.E self = Scalar E ->
  Elas_Isot.v self = Scalar 0.5 ->
  Elas_Isot.get_lambda self = Raise ZeroDivisionError.
Proof.
  unfold Elas_Isot.get_lambda. intros -> ->.
  cbn [vmul vadd vsub lift2 binop bind total].
  replace ((1 + 0.5) * (1 - 2 * 0.5)) with 0 by lra.
  unfold vdiv, lift2. cbn [bind binop]. rewrite py_div_zero. reflexivity.
Qed.

(** C3.  With scalar admissible parameters [get_mu] returns E/(2(1+v)),
    [get_lambda] returns Ev/((1+v)(1-2v)), or Ev/(1-v^2) when the dimension
    is 2 and planeStress is true, and [get_bulk] returns lambda + 2 mu/dim.
    For dim=3, E=210000, v=0.3: mu = 80769.23 and lambda = 121153.85 within
    0.01, and C[0][0] = lambda + 2 mu = 282692.3 within 0.1. *)
Theorem isot_moduli (self : Elas_Isot.instance) (E v : R) :
  Elas_Isot.E self = Scalar E ->
  Elas_Isot.v self = Scalar v ->
  admissible_E E ->
  admissible_v v ->
  _Elas.dim self = 2%Z \/ _Elas.dim self = 3%Z ->
  let mu := E / (2 * (1 + v)) in
  let lambda :=
    if (Elas_Isot._Elas_Isot__dim self =? 2)%Z && _Elas.planeStress self
    then E * v / (1 - v ^ 2)
    else E * v / ((1 + v) * (1 - 2 * v)) in
  (Elas_Isot.get_mu self = Ok (Scalar mu) /\
   Elas_Isot.get_lambda self = Ok (Scalar lambda) /\
   Elas_Isot.get_bulk self = Ok (Scalar (lambda + 2 * mu / IZR (_Elas.dim self)))) /\
  (exists (steel3 : Elas_Isot.instance) (mu3 lambda3 : R) (c : matrix)
          (steel3' : Elas_Isot.instance),
     Elas_Isot.__init__ 3 (Scalar 210000) (Scalar 0.3) true 1 = Ok steel3 /\
     Elas_Isot.get_mu steel3 = Ok (Scalar mu3) /\
     Rabs (mu3 - 80769.23) <= 0.01 /\
     Elas_Isot.get_lambda steel3 = Ok (Scalar lambda3) /\
     Rabs (lambda3 - 121153.85) <= 0.01 /\
     _Elas.C steel3 = (Ok (Mat c), steel3') /\
     nth 0 (nth 0 c []) 0 = lambda3 + 2 * mu3 /\
     Rabs (nth 0 (nth 0 c []) 0 - 282692.3) <= 0.1).
Proof.
  intros HE Hv HEa Hva Hdim mu lambda.
  apply admissible_E_pos in HEa. apply admissible_v_range in Hva.
  split.
  - split; [| split].
    + apply (get_mu_scalar self E v); assumption.
    + apply (get_lambda_scalar self E v); assumption.
    + apply (get_bulk_scalar self E v); try assumption. lia.
  - assert (H0 : 0 < 210000) by lra.
    assert (H1 : -1 < 0.3 < 0.5) by lra.
    exists (steel 3), (mu_of 210000 0.3), (lambda_of 3 false 210000 0.3).
    eexists. eexists.
    split; [apply steel_constructed; right; reflexivity|].
    split; [apply (get_mu_scalar (steel 3) 210000 0.3); solve [reflexivity | assumption]|].
    split; [unfold mu_of; apply Rabs_le; lra|].
    split; [apply (get_lambda_scalar (steel 3) 210000 0.3); solve [reflexivity | assumption]|].
    split; [unfold lambda_of; simpl; apply Rabs_le; lra|].
    split; [apply C_of_stale;
            [reflexivity
            |apply (_Behavior_scalar_3d (steel 3) 210000 0.3);
             solve [reflexivity | assumption | left; reflexivity]
            |reflexivity|reflexivity]|].
    split; [reflexivity|].
    cbn [nth isot_C3d Elas_Isot._Elas_Isot__dim steel _Elas.planeStress _Elas.base
         Elas_Isot.is_elas Elas_Isot.elas _Elas._Elas__planeStress].
    unfold lambda_of, mu_of. simpl. apply Rabs_le. lra.
Qed.

Lemma isot_moduli_witness :
  Elas_Isot.get_mu (steel 2) = Ok (Scalar (210000 / (2 * (1 + 0.3)))) /\
  Elas_Isot.get_lambda (steel 2) = Ok (Scalar (210000 * 0.3 / (1 - 0.3 ^ 2))) /\
  Elas_Isot.get_bulk (steel 2) =
    Ok (Scalar (210000 * 0.3 / (1 - 0.3 ^ 2) + 2 * (210000 / (2 * (1 + 0.3))) / 2)).
Proof.
  exact (proj1 (isot_moduli (steel 2) 210000 0.3 eq_refl eq_refl
                  admissible_E_steel admissible_v_steel (or_introl eq_refl))).
Defined.

(** ** Walpole decomposition of the isotropic law *)

Ltac unfold_matrix_ops :=
  cbv [mat_add mat_sub zip_rows zip_with sequence mapM bind mat_scale map
       walpole_E1 walpole_E2 Tensor_Product eye seq nth Nat.eqb matrix_minus
       value_times_matrix isot_C3d isot_C2d].

Lemma walpole_E2_is_complement : mat_sub (eye 6) walpole_E1 = Ok walpole_E2.
Proof. unfold_matrix_ops. reflexivity. Qed.

Lemma walpole_reconstructs_3d (l mu : R) :
  mat_add (mat_scale (l + 2 * mu / 3) (mat_scale 3 walpole_E1))
          (mat_scale mu (mat_scale 2 walpole_E2)) = Ok (isot_C3d l mu).
Proof. unfold_matrix_ops. apply f_equal. list_eq; field. Qed.

Lemma sqrt_sum_zero x : x = 0 -> sqrt x = 0.
Proof. intros ->. apply sqrt_0. Qed.

Lemma norm_isot_C3d_nonzero (l mu : R) : mu <> 0 -> norm (isot_C3d l mu) <> 0.
Proof.
  intros Hmu. unfold norm.
  assert (0 < sumsq (isot_C3d l mu)).
  { cbv [sumsq isot_C3d map dot fold_right].
    assert (0 < mu * mu) by nra. nra. }
  pose proof (sqrt_lt_R0 _ H). lra.
Qed.

(** The verification of [Walpole_Decomposition] on the stiffness of a law
    of dimension 3. *)
Lemma walpole_check_3d (l mu : R) :
  mu <> 0 ->
  (c1' <- #3 *' #(l + 2 * mu / 3) ;;
   a <- value_times_matrix c1' walpole_E1 ;;
   c2' <- #2 *' #mu ;;
   b <- value_times_matrix c2' walpole_E2 ;;
   ab <- mat_add a b ;;
   diff <- matrix_minus ab (Mat (isot_C3d l mu)) ;;
   assert (ratio_le (nd_norm diff) (nd_norm (Mat (isot_C3d l mu))) 1e-12)) = Ok tt.
Proof.
  intros Hmu.
  cbn [vmul lift2 binop bind total].
  unfold_matrix_ops. cbn [nd_norm].
  match goal with |- assert (ratio_le (norm ?d) ?n _) = _ =>
    replace (norm d) with 0; [fold (isot_C3d l mu) |]
  end.
  - rewrite ratio_le_zero; [reflexivity | apply norm_isot_C3d_nonzero; assumption | lra].
  - symmetry. apply sqrt_sum_zero. cbv [sumsq map dot fold_right]. field.
Qed.

Section Walpole_scalar.

Variables (self : Elas_Isot.instance) (E v : R).
Hypothesis HE : Elas_Isot.E self = Scalar E.
Hypothesis Hv : Elas_Isot.v self = Scalar v.
Hypothesis E_pos : 0 < E.
Hypothesis v_in : -1 < v < 0.5.
Hypothesis Hdim : Elas_Isot._Elas_Isot__dim self = 3%Z.
Hypothesis Hdim' : _Elas.dim self = 3%Z.
Hypothesis Hcache : cache_coherent self.

Let l := lambda_of 3 (_Elas.planeStress self) E v.
Let mu := mu_of E v.

(** Reading [C] gives the stiffness of the current parameters and leaves a
    law whose cache holds it. *)
Lemma C_of_coherent_3d :
  exists self',
    _Elas.C self = (Ok (Mat (isot_C3d l mu)), self') /\
    _Elas.C self' = (Ok (Mat (isot_C3d l mu)), self').
Proof.
  assert (Hb : Elas_Isot._Behavior self (Some (_Elas.dim self))
               = Ok (Mat (isot_C3d l mu), Mat (isot_S3d l mu))).
  { unfold l, mu. rewrite <- Hdim. rewrite Hdim'.
    apply _Behavior_scalar_3d; try assumption. left. reflexivity. }
  destruct (_Elas.needUpdate self) eqn:Hstale.
  - exists (refreshed (Mat (isot_C3d l mu)) (Mat (isot_S3d l mu)) self). split.
    + apply C_of_stale; try assumption;
        unfold _Elas.expected_size; rewrite Hdim'; reflexivity.
    + apply C_of_refreshed.
  - destruct Hcache as [Habs | (c & s & Hb' & Hc & Hs)]; [congruence|].
    rewrite Hb in Hb'. injection Hb' as <- <-.
    exists self. split; apply C_of_fresh; assumption.
Qed.

Lemma Walpole_scalar_3d :
  exists self',
    Elas_Isot.Walpole_Decomposition self
    = (Ok ([Scalar (l + 2 * mu / 3); Scalar mu],
           [mat_scale 3 walpole_E1; mat_scale 2 walpole_E2]), self') /\
    _Elas.C self' = (Ok (Mat (isot_C3d l mu)), self').
Proof.
  destruct C_of_coherent_3d as (self' & HC & HC').
  exists self'. split; [| exact HC'].
  unfold Elas_Isot.Walpole_Decomposition, mbind, reads, ret.
  rewrite (get_bulk_scalar self E v) by (try assumption; rewrite Hdim'; lia).
  rewrite (get_mu_scalar self E v) by assumption.
  rewrite Hdim, Hdim'. fold l mu.
  change (mat_scale (1/3) (Tensor_Product [1; 1; 1; 0; 0; 0] [1; 1; 1; 0; 0; 0]))
    with walpole_E1.
  rewrite walpole_E2_is_complement.
  unfold _Elas.isHeterogeneous, mbind, ret. rewrite HC.
  cbv beta iota delta [ndim]. change (2 <? 2)%Z with false. cbv beta iota delta [negb].
  rewrite HC'.
  change (IZR 3) with 3.
  rewrite walpole_check_3d by (apply mu_nonzero; assumption).
  reflexivity.
Qed.

End Walpole_scalar.

Lemma C_of_coherent (self : Elas_Isot.instance) (c s : ndarray) :
  cache_coherent self ->
  Elas_Isot._Behavior self (Some (_Elas.dim self)) = Ok (c, s) ->
  last_shape_is (_Elas.expected_size self) c = true ->
  last_shape_is (_Elas.expected_size self) s = true ->
  exists self', _Elas.C self = (Ok c, self') /\ _Elas.C self' = (Ok c, self').
Proof.
  intros Hcache Hb Hc Hs.
  destruct (_Elas.needUpdate self) eqn:Hstale.
  - exists (refreshed c s self). split.
    + apply C_of_stale; assumption.
    + apply C_of_refreshed.
  - destruct Hcache as [Habs | (c' & s' & Hb' & Hc' & Hs')]; [congruence|].
    rewrite Hb in Hb'. injection Hb' as <- <-.
    exists self. split; apply C_of_fresh; assumption.
Qed.

(** *** The cache stays coherent *)

(** A law is coherent after its construction, after an assignment to [E] or
    [v], and after a read of [C]. *)
Lemma constructed_coherent (dim : Z) (E v : value) (planeStress : bool) (thickness : R)
  (self : Elas_Isot.instance) :
  Elas_Isot.__init__ dim E v planeStress thickness = Ok self -> cache_coherent self.
Proof.
  unfold Elas_Isot.__init__, _Elas.__init__. intros H.
  bind_inv H as dim_ok. bind_inv H as E_ok. bind_inv H as v_ok.
  bind_inv H as e. injection H as <-.
  bind_inv He as th. injection He as <-.
  left. reflexivity.
Qed.

Lemma E_setter_coherent (value : value) (self self' : Elas_Isot.instance) :
  Elas_Isot.E_setter value self = (Ok tt, self') -> cache_coherent self'.
Proof.
  unfold Elas_Isot.E_setter, mbind, reads, modify, _Elas.Need_Update.
  destruct (_Test_Sup0 value); [|discriminate].
  intros H. injection H as <-. left. reflexivity.
Qed.

Lemma v_setter_coherent (value : value) (self self' : Elas_Isot.instance) :
  Elas_Isot.v_setter value self = (Ok tt, self') -> cache_coherent self'.
Proof.
  unfold Elas_Isot.v_setter, mbind, reads, modify, _Elas.Need_Update.
  destruct (_Test_In value bInf_default bSup_default); [|discriminate].
  intros H. injection H as <-. left. reflexivity.
Qed.

Lemma C_read_coherent (self self' : Elas_Isot.instance) (c : ndarray) :
  cache_coherent self ->
  _Elas.C self = (Ok c, self') ->
  cache_coherent self'.
Proof.
  intros Hcoh. unfold _Elas.C, _Elas.refresh, mbind, reads, ret.
  destruct (_Elas.needUpdate self) eqn:Hstale.
  - cbn [_Elas._Update Elas_Isot.is_law]. unfold Elas_Isot._Update at 1.
    destruct (Elas_Isot._Behavior self (Some (_Elas.dim self))) as [[c0 s0]|] eqn:Hb;
      [|discriminate].
    unfold _Elas.C_setter, _Elas.S_setter, mbind, modify, _Elas.Need_Update.
    destruct (assert (last_shape_is (_Elas.expected_size self) c0)); [|discriminate].
    change (_Elas.expected_size (_Elas.with_base _ self)) with (_Elas.expected_size self).
    destruct (assert (last_shape_is (_Elas.expected_size self) s0)); [|discriminate].
    cbn. intros H. injection H as <- <-.
    right. exists c0, s0. split; [exact Hb|]. split; reflexivity.
  - destruct (_Elas._Elas__C (_Elas.base self)); [|discriminate].
    intros H. injection H as <- <-. exact Hcoh.
Qed.

(** A scalar law of dimension 2: its stiffness is a 3x3 matrix and the
    verification subtracts it from a 6x6 one. *)
Lemma Walpole_scalar_2d_raises (self : Elas_Isot.instance) (E v : R) :
  Elas_Isot.E self = Scalar E ->
  Elas_Isot.v self = Scalar v ->
  0 < E -> -1 < v < 0.5 ->
  _Elas.dim self = 2%Z ->
  cache_coherent self ->
  exists self', Elas_Isot.Walpole_Decomposition self = (Raise ValueError, self').
Proof.
  intros HE Hv E_pos v_in Hdim' Hcache.
  destruct (C_of_coherent self _ _ Hcache
              (_Behavior_scalar_2d self E v HE Hv E_pos v_in (Some (_Elas.dim self))
                 (or_introl (f_equal Some Hdim'))))
    as (self' & HC & HC');
    try (unfold _Elas.expected_size; rewrite Hdim'; reflexivity).
  exists self'.
  unfold Elas_Isot.Walpole_Decomposition, mbind, reads, ret.
  rewrite (get_bulk_scalar self E v) by (try assumption; rewrite Hdim'; lia).
  rewrite (get_mu_scalar self E v) by assumption.
  change (mat_scale (1/3) (Tensor_Product [1; 1; 1; 0; 0; 0] [1; 1; 1; 0; 0; 0]))
    with walpole_E1.
  rewrite walpole_E2_is_complement.
  unfold _Elas.isHeterogeneous, mbind, ret. rewrite HC.
  cbv beta iota delta [ndim]. change (2 <? 2)%Z with false. cbv beta iota delta [negb].
  rewrite HC'.
  cbn [vmul lift2 binop bind total].
  unfold_matrix_ops. reflexivity.
Qed.

Lemma Walpole_heterogeneous (self self' : Elas_Isot.instance) (c1 c2 : value) :
  Elas_Isot.get_bulk self = Ok c1 ->
  Elas_Isot.get_mu self = Ok c2 ->
  _Elas.isHeterogeneous self = (Ok true, self') ->
  Elas_Isot.Walpole_Decomposition self
  = (Ok ([c1; c2], [mat_scale 3 walpole_E1; mat_scale 2 walpole_E2]), self').
Proof.
  intros Hbulk Hmu Hhet.
  unfold Elas_Isot.Walpole_Decomposition, mbind, reads, ret.
  rewrite Hbulk, Hmu.
  change (mat_scale (1/3) (Tensor_Product [1; 1; 1; 0; 0; 0] [1; 1; 1; 0; 0; 0]))
    with walpole_E1.
  rewrite walpole_E2_is_complement, Hhet. reflexivity.
Qed.

(** *** A heterogeneous law *)

Lemma two_phase_mu :
  Elas_Isot.get_mu two_phase = Ok (Array [mu_of 210000 0.3; mu_of 70000 0.3]).
Proof.
  unfold Elas_Isot.get_mu. cbn [two_phase Elas_Isot.E Elas_Isot.v Elas_Isot.set_E steel
    Elas_Isot._Elas_Isot__E Elas_Isot._Elas_Isot__v].
  cbn [vmul vadd lift2 binop bind total].
  unfold vdiv, lift2. cbn [bind binop mapM].
  rewrite !np_div_ok by lra. reflexivity.
Qed.

Lemma two_phase_lambda :
  Elas_Isot.get_lambda two_phase
  = Ok (Array [lambda_of 3 false 210000 0.3; lambda_of 3 false 70000 0.3]).
Proof.
  unfold Elas_Isot.get_lambda. cbn [two_phase Elas_Isot.E Elas_Isot.v Elas_Isot.set_E steel
    Elas_Isot._Elas_Isot__E Elas_Isot._Elas_Isot__v Elas_Isot._Elas_Isot__dim].
  cbn [vmul vadd vsub lift2 binop bind total mapM].
  unfold vdiv, lift2. cbn [bind binop mapM].
  rewrite !np_div_ok by lra. reflexivity.
Qed.

Lemma two_phase_bulk :
  Elas_Isot.get_bulk two_phase
  = Ok (Array [lambda_of 3 false 210000 0.3 + 2 * mu_of 210000 0.3 / 3;
               lambda_of 3 false 70000 0.3 + 2 * mu_of 70000 0.3 / 3]).
Proof.
  unfold Elas_Isot.get_bulk. rewrite two_phase_mu, two_phase_lambda.
  cbn [vmul vadd lift2 binop bind total mapM].
  unfold vdiv, lift2. cbn [bind binop mapM].
  change (IZR (_Elas.dim two_phase)) with 3.
  rewrite !np_div_ok by lra.
  reflexivity.
Qed.

Lemma two_phase_Behavior :
  Elas_Isot._Behavior two_phase (Some 3%Z)
  = Ok (Batch [isot_C3d (lambda_of 3 false 210000 0.3) (mu_of 210000 0.3);
               isot_C3d (lambda_of 3 false 70000 0.3) (mu_of 70000 0.3)],
        Batch [isot_S3d (lambda_of 3 false 210000 0.3) (mu_of 210000 0.3);
               isot_S3d (lambda_of 3 false 70000 0.3) (mu_of 70000 0.3)]).
Proof.
  unfold Elas_Isot._Behavior. cbn [assert Z.eqb orb bind Pos.eqb].
  rewrite two_phase_mu, two_phase_lambda.
  cbn [vmul vadd lift2 binop bind total mapM broadcast_lists zip_with sequence].
  change (3 =? 2)%Z with false. change (3 =? 3)%Z with true. cbv iota.
  cbn [Heterogeneous_Array concat app first_array length seq mapM at_point Nat.eqb nth
       bind KelvinMandel_Matrix map].
  rewrite !kelvin_3d by reflexivity.
  cbn [np_linalg_inv mapM].
  assert (H1 : -1 < 0.3 < 0.5) by lra.
  rewrite !inv_isot_C3d; try reflexivity;
    try (apply mu_nonzero; lra);
    try (apply (stiffness_3d_regular (steel 3) _ 0.3); solve [lra | reflexivity]).
Qed.

Lemma two_phase_heterogeneous :
  exists self', _Elas.isHeterogeneous two_phase = (Ok true, self').
Proof.
  eexists. unfold _Elas.isHeterogeneous, mbind, ret.
  rewrite (C_of_stale two_phase _ _ eq_refl two_phase_Behavior eq_refl eq_refl).
  reflexivity.
Qed.

(** *** The verification is performed on a matrix and skipped on a batch *)

Lemma Walpole_rejects_wrong_matrix :
  Elas_Isot.Walpole_Decomposition (tampered (Mat (eye 6)))
  = (Raise AssertionError, tampered (Mat (eye 6))).
Proof.
  assert (H0 : 0 < 210000) by lra.
  assert (H1 : -1 < 0.3 < 0.5) by lra.
  unfold Elas_Isot.Walpole_Decomposition, mbind, reads, ret.
  rewrite (get_bulk_scalar (tampered (Mat (eye 6))) 210000 0.3);
    try solve [reflexivity | assumption | discriminate].
  rewrite (get_mu_scalar (tampered (Mat (eye 6))) 210000 0.3);
    try solve [reflexivity | assumption].
  change (mat_scale (1/3) (Tensor_Product [1; 1; 1; 0; 0; 0] [1; 1; 1; 0; 0; 0]))
    with walpole_E1.
  rewrite walpole_E2_is_complement.
  unfold _Elas.isHeterogeneous, mbind, ret. unfold tampered at 1. rewrite C_of_refreshed.
  cbv beta iota delta [ndim]. change (2 <? 2)%Z with false. cbv beta iota delta [negb].
  fold (tampered (Mat (eye 6))). unfold tampered at 1. rewrite C_of_refreshed.
  change (Elas_Isot._Elas_Isot__dim (tampered _)) with 3%Z.
  change (_Elas.planeStress (tampered _)) with false.
  change (_Elas.dim (tampered _)) with 3%Z.
  cbn [vmul lift2 binop bind total].
  unfold_matrix_ops. cbn [nd_norm]. unfold ratio_le, norm.
  match goal with |- context [Req_dec_T ?x 0] => destruct (Req_dec_T x 0) as [Hz|Hz] end;
    [reflexivity|].
  rewrite Rleb_false; [reflexivity|].
  match goal with |- ~ sqrt ?x / sqrt ?y <= _ => set (X := x); set (Y := y) end.
  assert (Hy : Y = 6) by (unfold Y; cbv [sumsq map dot fold_right]; ring).
  assert (Hx : 6 <= X).
  { unfold X. cbv [sumsq map dot fold_right lambda_of mu_of Z.eqb andb Pos.eqb]. lra. }
  clearbody X Y. clear Hz. subst Y. intros Hle.
  assert (Hs6 : 0 < sqrt 6) by (apply sqrt_lt_R0; lra).
  pose proof (sqrt_le_1_alt _ _ Hx) as Hmono.
  assert (1 <= sqrt X / sqrt 6).
  { apply Rmult_le_reg_r with (sqrt 6); [assumption|].
    unfold Rdiv. rewrite Rmult_assoc, Rinv_l; lra. }
  lra.
Qed.

Lemma Walpole_skips_wrong_batch :
  Elas_Isot.Walpole_Decomposition (tampered (Batch [eye 6]))
  = (Ok ([Scalar (lambda_of 3 false 210000 0.3 + 2 * mu_of 210000 0.3 / 3);
          Scalar (mu_of 210000 0.3)],
         [mat_scale 3 walpole_E1; mat_scale 2 walpole_E2]),
     tampered (Batch [eye 6])).
Proof.
  assert (H0 : 0 < 210000) by lra.
  assert (H1 : -1 < 0.3 < 0.5) by lra.
  apply Walpole_heterogeneous.
  - rewrite (get_bulk_scalar (tampered (Batch [eye 6])) 210000 0.3);
      solve [reflexivity | assumption | discriminate].
  - apply (get_mu_scalar (tampered (Batch [eye 6])) 210000 0.3);
      solve [reflexivity | assumption].
  - unfold _Elas.isHeterogeneous, mbind, ret, tampered. rewrite C_of_refreshed.
    reflexivity.
Qed.

(** *** The verification, in general *)

(** The check of [Walpole_Decomposition], written with [walpole_residual]. *)
Lemma walpole_check_residual (c1 c2 : value) (C : ndarray) :
  (c1' <- #3 *' !c1 ;;
   a <- value_times_matrix c1' walpole_E1 ;;
   c2' <- #2 *' !c2 ;;
   b <- value_times_matrix c2' walpole_E2 ;;
   ab <- mat_add a b ;;
   diff <- matrix_minus ab C ;;
   assert (ratio_le (nd_norm diff) (nd_norm C) 1e-12))
  = (diff <- walpole_residual c1 c2 C ;;
     assert (ratio_le (nd_norm diff) (nd_norm C) 1e-12)).
Proof.
  unfold walpole_residual.
  destruct (#3 *' !c1) as [c1'|]; [cbn [bind] | reflexivity].
  destruct (value_times_matrix c1' walpole_E1) as [a|]; [cbn [bind] | reflexivity].
  destruct (#2 *' !c2) as [c2'|]; [cbn [bind] | reflexivity].
  destruct (value_times_matrix c2' walpole_E2) as [b|]; [cbn [bind] | reflexivity].
  destruct (mat_add a b) as [ab|]; [cbn [bind] | reflexivity].
  reflexivity.
Qed.

Lemma ratio_le_spec (num den tol : R) :
  ratio_le num den tol = true <-> den <> 0 /\ num / den <= tol.
Proof.
  unfold ratio_le. destruct (Req_dec_T den 0) as [H|H].
  - split; [discriminate | intros [Hden _]; contradiction].
  - unfold Rleb. destruct (Rle_dec (num / den) tol) as [Hle|Hle].
    + split; [intros _; split; assumption | reflexivity].
    + split; [discriminate | intros [_ Habs]; contradiction].
Qed.

(** What [Walpole_Decomposition] does, step by step, in terms of the reads
    it makes. *)
Lemma Walpole_Decomposition_steps (self : Elas_Isot.instance) (c1 c2 : value) :
  Elas_Isot.get_bulk self = Ok c1 ->
  Elas_Isot.get_mu self = Ok c2 ->
  Elas_Isot.Walpole_Decomposition self
  = match _Elas.isHeterogeneous self with
    | (Ok true, s1) =>
        (Ok ([c1; c2], [mat_scale 3 walpole_E1; mat_scale 2 walpole_E2]), s1)
    | (Ok false, s1) =>
        match _Elas.C s1 with
        | (Ok C, s2) =>
            match (diff <- walpole_residual c1 c2 C ;;
                   assert (ratio_le (nd_norm diff) (nd_norm C) 1e-12)) with
            | Ok _ => (Ok ([c1; c2], [mat_scale 3 walpole_E1; mat_scale 2 walpole_E2]), s2)
            | Raise e => (Raise e, s2)
            end
        | (Raise e, s2) => (Raise e, s2)
        end
    | (Raise e, s1) => (Raise e, s1)
    end.
Proof.
  intros Hbulk Hmu.
  unfold Elas_Isot.Walpole_Decomposition, mbind, reads, ret.
  rewrite Hbulk, Hmu.
  change (mat_scale (1/3) (Tensor_Product [1; 1; 1; 0; 0; 0] [1; 1; 1; 0; 0; 0]))
    with walpole_E1.
  rewrite walpole_E2_is_complement.
  destruct (_Elas.isHeterogeneous self) as [[[|]|e] s1]; cbv beta iota delta [negb];
    try reflexivity.
  destruct (_Elas.C s1) as [[C|e] s2]; [|reflexivity].
  rewrite walpole_check_residual. reflexivity.
Qed.

Lemma Walpole_returns_checked (self self' : Elas_Isot.instance)
  (ci : list value) (Ei : list matrix) :
  Elas_Isot.Walpole_Decomposition self = (Ok (ci, Ei), self') ->
  exists (c1 c2 : value) (heterogeneous : bool) (s1 : Elas_Isot.instance),
    Elas_Isot.get_bulk self = Ok c1 /\
    Elas_Isot.get_mu self = Ok c2 /\
    ci = [c1; c2] /\
    Ei = [mat_scale 3 walpole_E1; mat_scale 2 walpole_E2] /\
    _Elas.isHeterogeneous self = (Ok heterogeneous, s1) /\
    (heterogeneous = true -> self' = s1) /\
    (heterogeneous = false ->
     exists C diff : ndarray,
       _Elas.C s1 = (Ok C, self') /\
       walpole_residual c1 c2 C = Ok diff /\
       nd_norm C <> 0 /\
       nd_norm diff / nd_norm C <= 1e-12).
Proof.
  intros H.
  destruct (Elas_Isot.get_bulk self) as [c1|e] eqn:Hbulk.
  2:{ unfold Elas_Isot.Walpole_Decomposition, mbind, reads in H.
      rewrite Hbulk in H. discriminate. }
  destruct (Elas_Isot.get_mu self) as [c2|e] eqn:Hmu.
  2:{ unfold Elas_Isot.Walpole_Decomposition, mbind, reads in H.
      rewrite Hbulk, Hmu in H. discriminate. }
  rewrite (Walpole_Decomposition_steps self c1 c2 Hbulk Hmu) in H.
  destruct (_Elas.isHeterogeneous self) as [[h|e] s1]; [|discriminate].
  exists c1, c2, h, s1.
  split; [reflexivity|]. split; [reflexivity|].
  destruct h.
  - injection H as <- <- <-.
    repeat split; try reflexivity. discriminate.
  - destruct (_Elas.C s1) as [[C|e] s2]; [|discriminate].
    destruct (walpole_residual c1 c2 C) as [diff|e] eqn:Hdiff; [|discriminate].
    cbn [bind] in H.
    destruct (ratio_le (nd_norm diff) (nd_norm C) 1e-12) eqn:Hratio; [|discriminate].
    cbn [assert] in H. injection H as <- <- <-.
    apply ratio_le_spec in Hratio. destruct Hratio as [Hden Hle].
    repeat split; try reflexivity; try discriminate.
    intros _. exists C, diff. repeat split; assumption.
Qed.

Lemma Walpole_check_fails (self s1 s2 : Elas_Isot.instance) (c1 c2 : value)
  (C diff : ndarray) :
  Elas_Isot.get_bulk self = Ok c1 ->
  Elas_Isot.get_mu self = Ok c2 ->
  _Elas.isHeterogeneous self = (Ok false, s1) ->
  _Elas.C s1 = (Ok C, s2) ->
  walpole_residual c1 c2 C = Ok diff ->
  ~ (nd_norm C <> 0 /\ nd_norm diff / nd_norm C <= 1e-12) ->
  Elas_Isot.Walpole_Decomposition self = (Raise AssertionError, s2).
Proof.
  intros Hbulk Hmu Hhet HC Hdiff Hfail.
  rewrite (Walpole_Decomposition_steps self c1 c2 Hbulk Hmu), Hhet, HC, Hdiff.
  cbn [bind].
  destruct (ratio_le (nd_norm diff) (nd_norm C) 1e-12) eqn:Hratio; [|reflexivity].
  apply ratio_le_spec in Hratio. contradiction.
Qed.

(** The check on a law of dimension 3 whose cache holds the identity. *)
Lemma tampered_reads :
  Elas_Isot.get_bulk (tampered (Mat (eye 6)))
  = Ok (Scalar (lambda_of 3 false 210000 0.3 + 2 * mu_of 210000 0.3 / 3)) /\
  Elas_Isot.get_mu (tampered (Mat (eye 6))) = Ok (Scalar (mu_of 210000 0.3)) /\
  _Elas.isHeterogeneous (tampered (Mat (eye 6))) = (Ok false, tampered (Mat (eye 6))) /\
  _Elas.C (tampered (Mat (eye 6))) = (Ok (Mat (eye 6)), tampered (Mat (eye 6))).
Proof.
  assert (H0 : 0 < 210000) by lra.
  assert (H1 : -1 < 0.3 < 0.5) by lra.
  split; [|split; [|split]].
  - rewrite (get_bulk_scalar (tampered (Mat (eye 6))) 210000 0.3);
      solve [reflexivity | assumption | discriminate].
  - apply (get_mu_scalar (tampered (Mat (eye 6))) 210000 0.3);
      solve [reflexivity | assumption].
  - unfold _Elas.isHeterogeneous, mbind, ret, tampered. rewrite C_of_refreshed.
    reflexivity.
  - apply C_of_refreshed.
Qed.

Lemma tampered_residual :
  exists diff : ndarray,
    walpole_residual
      (Scalar (lambda_of 3 false 210000 0.3 + 2 * mu_of 210000 0.3 / 3))
      (Scalar (mu_of 210000 0.3)) (Mat (eye 6)) = Ok diff /\
    ~ (nd_norm (Mat (eye 6)) <> 0 /\ nd_norm diff / nd_norm (Mat (eye 6)) <= 1e-12).
Proof.
  eexists. split.
  - unfold walpole_residual. cbn [vmul lift2 binop bind total].
    unfold_matrix_ops. reflexivity.
  - cbn [nd_norm]. unfold norm. intros [_ Hle]. revert Hle.
    match goal with |- sqrt ?x / sqrt ?y <= _ -> _ => set (X := x); set (Y := y) end.
    assert (Hy : Y = 6) by (unfold Y; cbv [sumsq map dot fold_right eye seq Nat.eqb]; ring).
    assert (Hx : 6 <= X).
    { unfold X. cbv [sumsq map dot fold_right lambda_of mu_of Z.eqb andb Pos.eqb]. lra. }
    clearbody X Y. subst Y. intros Hle.
    assert (Hs6 : 0 < sqrt 6) by (apply sqrt_lt_R0; lra).
    pose proof (sqrt_le_1_alt _ _ Hx) as Hmono.
    assert (1 <= sqrt X / sqrt 6).
    { apply Rmult_le_reg_r with (sqrt 6); [assumption|].
      unfold Rdiv. rewrite Rmult_assoc, Rinv_l; lra. }
    lra.
Qed.

(** C5, as the code has it.  For a law of dimension 3 with scalar admissible
    parameters and a coherent cache, [Walpole_Decomposition] returns
    ci = (bulk, mu) and Ei = (3 E1, 2 E2), with E1 = 1/3 (I (x) I) on the
    trace part and E2 = Identity(6) - E1, and bulk * (3 E1) + mu * (2 E2) is
    the stiffness C that the law then holds, exactly.  For a heterogeneous
    law (the array read from [C] is a batch) the decomposition is returned
    without any check.  The identity is verified before returning: whatever
    the law, a decomposition that is returned for a stiffness that is not a
    batch has passed the test, the norm of 3 c1 E1 + 2 c2 E2 - C being at
    most 1e-12 times the norm of C, which is not zero; and when that test
    fails nothing is returned, AssertionError is raised. *)
Theorem isot_walpole_decomposition :
  (forall (self : Elas_Isot.instance) (E v : R),
     Elas_Isot.E self = Scalar E ->
     Elas_Isot.v self = Scalar v ->
     admissible_E E ->
     admissible_v v ->
     Elas_Isot._Elas_Isot__dim self = 3%Z ->
     _Elas.dim self = 3%Z ->
     cache_coherent self ->
     let mu := E / (2 * (1 + v)) in
     let bulk := E * v / ((1 + v) * (1 - 2 * v)) + 2 * mu / 3 in
     exists (self' : Elas_Isot.instance) (c : matrix),
       Elas_Isot.Walpole_Decomposition self
       = (Ok ([Scalar bulk; Scalar mu],
              [mat_scale 3 walpole_E1; mat_scale 2 walpole_E2]), self') /\
       mat_sub (eye 6) walpole_E1 = Ok walpole_E2 /\
       _Elas.C self' = (Ok (Mat c), self') /\
       mat_add (mat_scale bulk (mat_scale 3 walpole_E1))
               (mat_scale mu (mat_scale 2 walpole_E2)) = Ok c) /\
  (forall (self self' : Elas_Isot.instance) (c1 c2 : value),
     Elas_Isot.get_bulk self = Ok c1 ->
     Elas_Isot.get_mu self = Ok c2 ->
     _Elas.isHeterogeneous self = (Ok true, self') ->
     Elas_Isot.Walpole_Decomposition self
     = (Ok ([c1; c2], [mat_scale 3 walpole_E1; mat_scale 2 walpole_E2]), self')) /\
  (forall (self self' : Elas_Isot.instance) (ci : list value) (Ei : list matrix),
     Elas_Isot.Walpole_Decomposition self = (Ok (ci, Ei), self') ->
     exists (c1 c2 : value) (heterogeneous : bool) (s1 : Elas_Isot.instance),
       Elas_Isot.get_bulk self = Ok c1 /\
       Elas_Isot.get_mu self = Ok c2 /\
       ci = [c1; c2] /\
       Ei = [mat_scale 3 walpole_E1; mat_scale 2 walpole_E2] /\
       _Elas.isHeterogeneous self = (Ok heterogeneous, s1) /\
       (heterogeneous = true -> self' = s1) /\
       (heterogeneous = false ->
        exists C diff : ndarray,
          _Elas.C s1 = (Ok C, self') /\
          walpole_residual c1 c2 C = Ok diff /\
          nd_norm C <> 0 /\
          nd_norm diff / nd_norm C <= 1e-12)) /\
  (forall (self s1 s2 : Elas_Isot.instance) (c1 c2 : value) (C diff : ndarray),
     Elas_Isot.get_bulk self = Ok c1 ->
     Elas_Isot.get_mu self = Ok c2 ->
     _Elas.isHeterogeneous self = (Ok false, s1) ->
     _Elas.C s1 = (Ok C, s2) ->
     walpole_residual c1 c2 C = Ok diff ->
     ~ (nd_norm C <> 0 /\ nd_norm diff / nd_norm C <= 1e-12) ->
     Elas_Isot.Walpole_Decomposition self = (Raise AssertionError, s2)).
Proof.
  split; [|split; [|split]].
  - intros self E v HE Hv HEa Hva Hdim Hdim' Hcache mu bulk.
    apply admissible_E_pos in HEa. apply admissible_v_range in Hva.
    destruct (Walpole_scalar_3d self E v HE Hv HEa Hva Hdim Hdim' Hcache)
      as (self' & HW & HC).
    exists self'. eexists.
    split; [exact HW|]. split; [apply walpole_E2_is_complement|].
    split; [exact HC|]. apply walpole_reconstructs_3d.
  - apply Walpole_heterogeneous.
  - apply Walpole_returns_checked.
  - apply Walpole_check_fails.
Qed.

Lemma isot_walpole_decomposition_witness :
  (exists (self' : Elas_Isot.instance) (c : matrix),
     Elas_Isot.Walpole_Decomposition (steel 3)
     = (Ok ([Scalar (210000 * 0.3 / ((1 + 0.3) * (1 - 2 * 0.3))
                     + 2 * (210000 / (2 * (1 + 0.3))) / 3);
             Scalar (210000 / (2 * (1 + 0.3)))],
            [mat_scale 3 walpole_E1; mat_scale 2 walpole_E2]), self') /\
     mat_sub (eye 6) walpole_E1 = Ok walpole_E2 /\
     _Elas.C self' = (Ok (Mat c), self') /\
     mat_add (mat_scale (210000 * 0.3 / ((1 + 0.3) * (1 - 2 * 0.3))
                         + 2 * (210000 / (2 * (1 + 0.3))) / 3)
                        (mat_scale 3 walpole_E1))
             (mat_scale (210000 / (2 * (1 + 0.3))) (mat_scale 2 walpole_E2)) = Ok c) /\
  (exists (self' : Elas_Isot.instance) (c1 c2 : value),
     Elas_Isot.Walpole_Decomposition two_phase
     = (Ok ([c1; c2], [mat_scale 3 walpole_E1; mat_scale 2 walpole_E2]), self')) /\
  (exists (c1 c2 : value) (s1 self' : Elas_Isot.instance) (C diff : ndarray),
     Elas_Isot.get_bulk (steel 3) = Ok c1 /\
     Elas_Isot.get_mu (steel 3) = Ok c2 /\
     _Elas.isHeterogeneous (steel 3) = (Ok false, s1) /\
     _Elas.C s1 = (Ok C, self') /\
     walpole_residual c1 c2 C = Ok diff /\
     nd_norm C <> 0 /\
     nd_norm diff / nd_norm C <= 1e-12) /\
  Elas_Isot.Walpole_Decomposition (tampered (Mat (eye 6)))
  = (Raise AssertionError, tampered (Mat (eye 6))).
Proof.
  assert (Hsteel : exists (self' : Elas_Isot.instance) (c : matrix),
     Elas_Isot.Walpole_Decomposition (steel 3)
     = (Ok ([Scalar (210000 * 0.3 / ((1 + 0.3) * (1 - 2 * 0.3))
                     + 2 * (210000 / (2 * (1 + 0.3))) / 3);
             Scalar (210000 / (2 * (1 + 0.3)))],
            [mat_scale 3 walpole_E1; mat_scale 2 walpole_E2]), self') /\
     mat_sub (eye 6) walpole_E1 = Ok walpole_E2 /\
     _Elas.C self' = (Ok (Mat c), self') /\
     mat_add (mat_scale (210000 * 0.3 / ((1 + 0.3) * (1 - 2 * 0.3))
                         + 2 * (210000 / (2 * (1 + 0.3))) / 3)
                        (mat_scale 3 walpole_E1))
             (mat_scale (210000 / (2 * (1 + 0.3))) (mat_scale 2 walpole_E2)) = Ok c).
  { exact (proj1 isot_walpole_decomposition (steel 3) 210000 0.3 eq_refl eq_refl
             admissible_E_steel admissible_v_steel eq_refl eq_refl (or_introl eq_refl)). }
  split; [exact Hsteel|]. split; [|split].
  - destruct two_phase_heterogeneous as (self' & Hhet).
    exists self'. eexists. eexists.
    exact (proj1 (proj2 isot_walpole_decomposition) two_phase self' _ _
             two_phase_bulk two_phase_mu Hhet).
  - destruct Hsteel as (self' & c & HW & _).
    destruct (proj1 (proj2 (proj2 isot_walpole_decomposition)) (steel 3) self' _ _ HW)
      as (c1 & c2 & h & s1 & Hbulk & Hmu & _ & _ & Hhet & _ & Hchecked).
    assert (Hh : h = false).
    { assert (H0 : 0 < 210000) by lra.
      assert (H1 : -1 < 0.3 < 0.5) by lra.
      pose proof (_Behavior_scalar_3d (steel 3) 210000 0.3 eq_refl eq_refl H0 H1
                    (Some 3%Z) eq_refl (or_introl eq_refl)) as Hb.
      pose proof (C_of_stale (steel 3) _ _ eq_refl Hb eq_refl eq_refl) as HC.
      unfold _Elas.isHeterogeneous, mbind, ret in Hhet. rewrite HC in Hhet.
      injection Hhet as <- _. reflexivity. }
    subst h. destruct (Hchecked eq_refl) as (C & diff & HC & Hdiff & Hden & Hle).
    exists c1, c2, s1, self', C, diff. repeat split; assumption.
  - destruct tampered_reads as (Hbulk & Hmu & Hhet & HC).
    destruct tampered_residual as (diff & Hdiff & Hfail).
    exact (proj2 (proj2 (proj2 isot_walpole_decomposition)) _ _ _ _ _ _ _
             Hbulk Hmu Hhet HC Hdiff Hfail).
Defined.

(** C5 as stated fails in dimension 2: the default law of dimension 2 has
    scalar admissible parameters, and its decomposition raises when the 6x6
    combination meets the 3x3 stiffness. *)
Lemma isot_walpole_2d_raises :
  exists self self' : Elas_Isot.instance,
    Elas_Isot.__init__ 2 (Scalar 210000) (Scalar 0.3) true 1 = Ok self /\
    admissible_E 210000 /\ admissible_v 0.3 /\
    Elas_Isot.E self = Scalar 210000 /\ Elas_Isot.v self = Scalar 0.3 /\
    Elas_Isot.Walpole_Decomposition self = (Raise ValueError, self').
Proof.
  destruct (Walpole_scalar_2d_raises (steel 2) 210000 0.3) as (self' & HW);
    try solve [reflexivity | lra | left; reflexivity].
  exists (steel 2), self'.
  split; [apply steel_constructed; left; reflexivity|].
  split; [apply admissible_E_steel|]. split; [apply admissible_v_steel|].
  split; [reflexivity|]. split; [reflexivity|]. exact HW.
Qed.

(** ** Setters *)

(** C7.  Assigning a value <= 0 to [E], or a value outside of the admissible
    range to [v], raises the assertion error of the domain test and leaves
    the law as it was: the stored E and v and the cached C and S are the
    ones of before. *)
Theorem isot_setters_reject_out_of_domain (self : Elas_Isot.instance) (x y : R) :
  x <= 0 ->
  y <= -1 \/ 0.5 <= y ->
  Elas_Isot.E_setter (Scalar x) self = (Raise AssertionError, self) /\
  Elas_Isot.v_setter (Scalar y) self = (Raise AssertionError, self).
Proof.
  intros Hx Hy. split.
  - unfold Elas_Isot.E_setter, mbind, reads, _Test_Sup0.
    rewrite Rltb_false by lra. reflexivity.
  - unfold Elas_Isot.v_setter, mbind, reads, _Test_In, bInf_default, bSup_default.
    destruct Hy as [Hy | Hy].
    + rewrite (Rltb_false (-1) y) by lra. reflexivity.
    + rewrite (Rltb_false y 0.5) by lra. rewrite andb_false_r. reflexivity.
Qed.

Lemma isot_setters_reject_out_of_domain_witness :
  Elas_Isot.E_setter (Scalar 0) (steel 3) = (Raise AssertionError, steel 3) /\
  Elas_Isot.v_setter (Scalar 0.5) (steel 3) = (Raise AssertionError, steel 3).
Proof.
  apply (isot_setters_reject_out_of_domain (steel 3) 0 0.5); [lra | right; lra].
Defined.

(** C10.  For a law of any of the three classes, assigning to [planeStress]
    a value that is not a [bool] raises nothing and leaves the law as it
    was: the flag is unchanged and the cache is not marked stale. *)
Theorem planeStress_setter_ignores_non_bool {T : Type} `{_Elas.Instance T}
  (self : T) (value : pyobj) :
  is_bool value = false ->
  _Elas.planeStress_setter value self = (Ok tt, self).
Proof.
  intros Hb. destruct value; try discriminate; reflexivity.
Qed.

Lemma planeStress_setter_ignores_non_bool_witness :
  _Elas.planeStress_setter (PyInt 1) (steel 2) = (Ok tt, steel 2).
Proof.
  apply (planeStress_setter_ignores_non_bool (steel 2) (PyInt 1)). reflexivity.
Defined.

(** ** Indexing and the inverse of a 3x3 matrix *)

Lemma mapM_ok_map {A B : Type} (f : A -> result B) (g : A -> B) (xs : list A) (ys : list B) :
  (forall a b, In a xs -> f a = Ok b -> b = g a) ->
  mapM f xs = Ok ys -> ys = map g xs.
Proof.
  revert ys. induction xs as [|a xs IH]; intros ys Hfg H.
  - injection H as <-. reflexivity.
  - cbn [mapM bind] in H.
    destruct (f a) as [b|] eqn:Hb; [|discriminate].
    cbn [bind] in H.
    destruct (mapM f xs) as [bs|] eqn:Hbs; [|discriminate].
    injection H as <-. cbn [map]. f_equal.
    + apply Hfg; [left; reflexivity | assumption].
    + apply IH; [|reflexivity]. intros a' b' Hin. apply Hfg. right. assumption.
Qed.

Lemma nth_of_nth_error {A : Type} (xs : list A) (i : nat) (a d : A) :
  nth_error xs i = Some a -> nth i xs d = a.
Proof. intros H. apply nth_error_nth. assumption. Qed.

Lemma take_rows_ok (x : list nat) (m rows : matrix) :
  take_rows x m = Ok rows -> rows = map (fun i => nth i m []) x.
Proof.
  apply mapM_ok_map. intros i row _ H.
  destruct (nth_error m i) eqn:Hn; [|discriminate].
  injection H as <-. symmetry. apply nth_of_nth_error. assumption.
Qed.

Lemma take_cols_ok (x : list nat) (m r : matrix) :
  take_cols x m = Ok r -> r = map (fun row => map (fun j => nth j row 0) x) m.
Proof.
  apply mapM_ok_map. intros row out _. apply mapM_ok_map. intros j a _ H.
  destruct (nth_error row j) eqn:Hn; [|discriminate].
  injection H as <-. symmetry. apply nth_of_nth_error. assumption.
Qed.

(** What the indexing [g[x, :][:, x]] returns is the restriction of [g] to
    [x]. *)
Lemma submatrix_restriction (x : list nat) (g r : matrix) :
  submatrix x g = Ok r -> r = restriction x g.
Proof.
  unfold submatrix. intros H.
  destruct (take_rows x g) as [rows|] eqn:Hrows; [|discriminate].
  cbn [bind] in H. apply take_cols_ok in H. apply take_rows_ok in Hrows.
  subst. unfold restriction. rewrite map_map. reflexivity.
Qed.

(** The inverse of a 3x3 matrix, when [inv] returns one, is a two-sided
    inverse. *)
Lemma inv_3x3_inverse (a b c d e f g h i : R) (m' : matrix) :
  inv [[a; b; c]; [d; e; f]; [g; h; i]] = Ok m' ->
  matmul m' [[a; b; c]; [d; e; f]; [g; h; i]] = eye 3 /\
  matmul [[a; b; c]; [d; e; f]; [g; h; i]] m' = eye 3.
Proof.
  unfold inv. cbn [length is_shape forallb Nat.eqb andb negb].
  destruct (Req_dec_T _ 0) as [H0|H0]; [discriminate|].
  intros H. injection H as <-.
  revert H0. unfold_linalg. intros H0.
  split; list_eq; field; intros Hc; apply H0;
    (etransitivity; [|exact Hc]); ring.
Qed.

Lemma restriction_3x3_inverse (x0 x1 x2 : nat) (g m' : matrix) :
  inv (restriction [x0; x1; x2] g) = Ok m' ->
  matmul m' (restriction [x0; x1; x2] g) = eye 3 /\
  matmul (restriction [x0; x1; x2] g) m' = eye 3.
Proof. unfold restriction. cbn [map]. apply inv_3x3_inverse. Qed.

(** ** Transversely isotropic law: the reduction to the plane *)

Lemma reduce_2d_matrix (x : list nat) (g : matrix) (r : ndarray) :
  reduce_2d 2 x (Mat g) = Ok r -> r = Mat (restriction x g).
Proof.
  unfold reduce_2d. change (2 =? 2)%Z with true. cbn [index2]. intros H.
  bind_inv H as r'. injection H as <-. f_equal. apply submatrix_restriction. assumption.
Qed.

(** On a batch the indexing [g[:, x, :][:, :, x]] restricts every matrix. *)
Lemma reduce_2d_batch (x : list nat) (gs : list matrix) (r : ndarray) :
  reduce_2d 3 x (Batch gs) = Ok r -> r = Batch (map (restriction x) gs).
Proof.
  unfold reduce_2d. change (3 =? 2)%Z with false. change (3 =? 3)%Z with true.
  cbn [index3]. intros H.
  bind_inv H as rs. injection H as <-. f_equal.
  apply (mapM_ok_map (submatrix x) (restriction x) gs rs); [|assumption].
  intros g r _. apply submatrix_restriction.
Qed.

Lemma np_linalg_inv_matrix (m : matrix) (r : ndarray) :
  np_linalg_inv (Mat m) = Ok r -> exists m', r = Mat m' /\ inv m = Ok m'.
Proof.
  cbn [np_linalg_inv]. intros H. bind_inv H as m'. injection H as <-.
  eexists. split; reflexivity.
Qed.

Lemma np_linalg_inv_batch (ms : list matrix) (r : ndarray) :
  np_linalg_inv (Batch ms) = Ok r -> exists ms', r = Batch ms' /\ mapM inv ms = Ok ms'.
Proof.
  cbn [np_linalg_inv]. intros H. bind_inv H as ms'. injection H as <-.
  eexists. split; reflexivity.
Qed.

Lemma inverse_batches_sym (cs ss : list matrix) :
  inverse_batches cs ss -> inverse_batches ss cs.
Proof.
  unfold inverse_batches. induction 1 as [|c3 s3 cs ss [H1 H2] _ IH]; constructor.
  - split; assumption.
  - exact IH.
Qed.

(** The inverses of a batch of restrictions are two-sided inverses, point
    by point. *)
Lemma restrictions_inverse (x0 x1 x2 : nat) (gs ms' : list matrix) :
  mapM inv (map (restriction [x0; x1; x2]) gs) = Ok ms' ->
  inverse_batches ms' (map (restriction [x0; x1; x2]) gs).
Proof.
  unfold inverse_batches.
  revert ms'. induction gs as [|g gs IH]; intros ms' H.
  - injection H as <-. constructor.
  - cbn [map mapM] in H. bind_inv H as m'. bind_inv H as rest. injection H as <-.
    cbn [map]. constructor.
    + exact (restriction_3x3_inverse x0 x1 x2 g m' Hm').
    + apply IH. reflexivity.
Qed.

Section IsotTrans_reduction.

Variable Get_Pmat : vec -> vec -> result matrix.
Variable Apply_Pmat : matrix -> ndarray -> result ndarray.

Lemma global_matrices_inv (self : Elas_IsotTrans.instance) (P : option matrix)
  (global_cM global_sM : ndarray) :
  Elas_IsotTrans.global_matrices Get_Pmat Apply_Pmat self P = Ok (global_cM, global_sM) ->
  exists (P' : matrix) (Gt kt : value) (material_s material_c : ndarray),
    match P with
    | Some p => p = P'
    | None => Get_Pmat (Elas_IsotTrans.axis_l self) (Elas_IsotTrans.axis_t self) = Ok P'
    end /\
    Elas_IsotTrans.Gt self = Ok Gt /\
    Elas_IsotTrans.kt self = Ok kt /\
    Elas_IsotTrans.material_sM self Gt kt = Ok material_s /\
    Elas_IsotTrans.material_cM self Gt kt = Ok material_c /\
    Apply_Pmat P' material_s = Ok global_sM /\
    Apply_Pmat P' material_c = Ok global_cM.
Proof.
  unfold Elas_IsotTrans.global_matrices. intros H.
  bind_inv H as P'. bind_inv H as same. bind_inv H as Gt. bind_inv H as kt.
  bind_inv H as ms. bind_inv H as mc. bind_inv H as checked.
  bind_inv H as gs. bind_inv H as gc. bind_inv H as checked'.
  injection H as <- <-.
  exists P', Gt, kt, ms, mc.
  repeat split; try assumption.
  destruct P as [p|]; [congruence | assumption].
Qed.

End IsotTrans_reduction.


(** *** The two matrices of the material frame have the same number of
    dimensions *)

Lemma binop_is_array (f g : R -> R -> result R) (a b z : value) :
  binop f g a b = Ok z -> is_array z = is_array a || is_array b.
Proof.
  destruct a as [x|xs], b as [y|ys]; cbn [binop is_array orb]; intros H.
  - bind_inv H as r. injection H as <-. reflexivity.
  - bind_inv H as rs. injection H as <-. reflexivity.
  - bind_inv H as rs. injection H as <-. reflexivity.
  - bind_inv H as cs. bind_inv H as rs. injection H as <-. reflexivity.
Qed.

Lemma ok_is_array (x z : value) : Ok x = Ok z -> is_array z = is_array x.
Proof. intros H. injection H as <-. reflexivity. Qed.

Lemma lift2_is_array (f g : R -> R -> result R) (a b : result value) (ba bb : bool) :
  (forall x, a = Ok x -> is_array x = ba) ->
  (forall y, b = Ok y -> is_array y = bb) ->
  forall z, lift2 (binop f g) a b = Ok z -> is_array z = ba || bb.
Proof.
  intros Ha Hb z H. unfold lift2 in H.
  bind_inv H as x. bind_inv H as y.
  rewrite (binop_is_array _ _ _ _ _ H), (Ha x eq_refl), (Hb y eq_refl). reflexivity.
Qed.

Lemma vneg_is_array (a : result value) (ba : bool) :
  (forall x, a = Ok x -> is_array x = ba) ->
  forall z, -' a = Ok z -> is_array z = ba.
Proof.
  intros Ha z H. unfold vneg in H. bind_inv H as x.
  rewrite <- (Ha x eq_refl). destruct x; injection H as <-; reflexivity.
Qed.

Lemma vpow_is_array (a : result value) (n : nat) (ba : bool) :
  (forall x, a = Ok x -> is_array x = ba) ->
  forall z, a **' n = Ok z -> is_array z = ba.
Proof.
  intros Ha z H. unfold vpow in H. bind_inv H as x.
  rewrite <- (Ha x eq_refl). destruct x; injection H as <-; reflexivity.
Qed.

(** Whether the value of an expression over parameter values is an array. *)
Ltac is_array_of H :=
  match type of H with
  | _ = Ok ?z =>
      let F := fresh "A" in
      eassert (F : is_array z = _);
      [ revert H; generalize z;
        repeat first [ apply ok_is_array
                     | apply vneg_is_array
                     | apply vpow_is_array
                     | apply lift2_is_array ]
      | rewrite ?F in *; clear H ]
  end.

Lemma first_array_none (xs : list value) :
  first_array xs = None <-> existsb is_array xs = false.
Proof.
  induction xs as [|[x|ys] xs IH]; cbn [first_array existsb is_array orb].
  - split; reflexivity.
  - exact IH.
  - split; discriminate.
Qed.

Lemma Heterogeneous_Array_ndim (m : list (list value)) (r : ndarray) :
  Heterogeneous_Array m = Ok r ->
  ndim r = if existsb is_array (concat m) then 3%Z else 2%Z.
Proof.
  unfold Heterogeneous_Array.
  destruct (first_array (concat m)) as [n|] eqn:Hfirst.
  - intros H. bind_inv H as ms. injection H as <-.
    destruct (existsb is_array (concat m)) eqn:Hex; [reflexivity|].
    apply first_array_none in Hex. congruence.
  - intros H. injection H as <-.
    apply first_array_none in Hfirst. rewrite Hfirst. reflexivity.
Qed.

Lemma np_array_ok (dtype_is_object : bool) (rows rows' : list (list value)) :
  np_array dtype_is_object rows = Ok rows' -> rows' = rows.
Proof.
  unfold np_array. destruct (_ || _); [|discriminate].
  intros H. injection H as <-. reflexivity.
Qed.

Lemma material_matrices_same_ndim (self : Elas_IsotTrans.instance) (Gt kt : value)
  (material_s material_c : ndarray) :
  Elas_IsotTrans.Gt self = Ok Gt ->
  Elas_IsotTrans.kt self = Ok kt ->
  Elas_IsotTrans.material_sM self Gt kt = Ok material_s ->
  Elas_IsotTrans.material_cM self Gt kt = Ok material_c ->
  ndim material_s = ndim material_c.
Proof.
  intros HGt Hkt Hs Hc.
  unfold Elas_IsotTrans.Gt in HGt. unfold Elas_IsotTrans.kt in Hkt.
  unfold Elas_IsotTrans.material_sM in Hs. unfold Elas_IsotTrans.material_cM in Hc.
  cbv zeta in HGt, Hkt, Hs, Hc.
  bind_inv Hs as a. bind_inv Hs as b. bind_inv Hs as c. bind_inv Hs as d.
  bind_inv Hs as e. bind_inv Hs as f. bind_inv Hs as rows.
  apply np_array_ok in Hrows. subst rows.
  bind_inv Hc as a'. bind_inv Hc as b'. bind_inv Hc as c'. bind_inv Hc as d'.
  bind_inv Hc as e'. bind_inv Hc as f'. bind_inv Hc as rows.
  apply np_array_ok in Hrows. subst rows.
  apply Heterogeneous_Array_ndim in Hs. apply Heterogeneous_Array_ndim in Hc.
  rewrite Hs, Hc. cbn [concat app existsb is_array orb].
  is_array_of He. is_array_of He'. is_array_of Hf. is_array_of Hf'.
  is_array_of Ha. is_array_of Hb. is_array_of Hc0. is_array_of Hd.
  is_array_of Ha'. is_array_of Hb'. is_array_of Hc'. is_array_of Hd'.
  is_array_of HGt. is_array_of Hkt.
  destruct (is_array (Elas_IsotTrans.El self)), (is_array (Elas_IsotTrans.Et self)),
    (is_array (Elas_IsotTrans.vl self)), (is_array (Elas_IsotTrans.vt self)),
    (is_array (Elas_IsotTrans.Gl self)); reflexivity.
Qed.


Section IsotTrans_plane.

Variable Get_Pmat : vec -> vec -> result matrix.
Variable Apply_Pmat : matrix -> ndarray -> result ndarray.

(** C4.  For a law of dimension 2, with the matrices of the material frame
    rotated by [Apply_Pmat] into [global_sM] and [global_cM]: under plane
    stress the returned S is the restriction of the rotated compliance to
    the indices 0, 1, 5 and the returned C is its inverse; under plane
    strain the returned C is the restriction of the rotated stiffness to
    the indices 0, 1, 5 and the returned S is its inverse.  This holds for
    a law with scalar parameters (two 6x6 matrices) and for a heterogeneous
    law (two batches of 6x6 matrices, restricted and inverted point by
    point); the two matrices of the material frame always have the same
    number of dimensions.  In both cases the 3x3 matrices returned are
    inverse of each other. *)
Theorem isotTrans_plane_reduction (self : Elas_IsotTrans.instance)
  (arg : option Z) (P : option matrix) (c s : ndarray) :
  arg = Some 2%Z \/ (arg = None /\ Elas_IsotTrans._Elas_IsotTrans__dim self = 2%Z) ->
  Elas_IsotTrans._Behavior Get_Pmat Apply_Pmat self arg P = Ok (c, s) ->
  exists (P' : matrix) (Gt kt : value) (material_s material_c global_cM global_sM : ndarray),
    match P with
    | Some p => p = P'
    | None => Get_Pmat (Elas_IsotTrans.axis_l self) (Elas_IsotTrans.axis_t self) = Ok P'
    end /\
    Elas_IsotTrans.Gt self = Ok Gt /\
    Elas_IsotTrans.kt self = Ok kt /\
    Elas_IsotTrans.material_sM self Gt kt = Ok material_s /\
    Elas_IsotTrans.material_cM self Gt kt = Ok material_c /\
    ndim material_s = ndim material_c /\
    Apply_Pmat P' material_s = Ok global_sM /\
    Apply_Pmat P' material_c = Ok global_cM /\
    (forall gc gs : matrix,
       global_cM = Mat gc -> global_sM = Mat gs ->
       exists c3 s3 : matrix,
         c = Mat c3 /\ s = Mat s3 /\
         (if _Elas.planeStress self
          then s3 = restriction [0; 1; 5]%nat gs /\ inv s3 = Ok c3
          else c3 = restriction [0; 1; 5]%nat gc /\ inv c3 = Ok s3) /\
         matmul c3 s3 = eye 3 /\ matmul s3 c3 = eye 3) /\
    (forall gcs gss : list matrix,
       global_cM = Batch gcs -> global_sM = Batch gss ->
       exists cs ss : list matrix,
         c = Batch cs /\ s = Batch ss /\
         (if _Elas.planeStress self
          then ss = map (restriction [0; 1; 5]%nat) gss /\ mapM inv ss = Ok cs
          else cs = map (restriction [0; 1; 5]%nat) gcs /\ mapM inv cs = Ok ss) /\
         inverse_batches cs ss).
Proof.
  intros Harg H. unfold Elas_IsotTrans._Behavior in H.
  assert (Hdim : match arg with
                 | None => Elas_IsotTrans._Elas_IsotTrans__dim self
                 | Some d => d
                 end = 2%Z).
  { destruct Harg as [-> | [-> ->]]; reflexivity. }
  rewrite Hdim in H. clear Hdim.
  bind_inv H as globals. destruct globals as [global_cM global_sM].
  change (2 =? 2)%Z with true in H. cbv iota in H.
  destruct (global_matrices_inv _ _ _ _ _ _ Hglobals)
    as (P' & Gt & kt & ms & mc & HP & HGt & Hkt & Hms & Hmc & Hgs & Hgc).
  exists P', Gt, kt, ms, mc, global_cM, global_sM.
  split; [exact HP|]. split; [exact HGt|]. split; [exact Hkt|]. split; [exact Hms|].
  split; [exact Hmc|].
  split; [exact (material_matrices_same_ndim self Gt kt ms mc HGt Hkt Hms Hmc)|].
  split; [exact Hgs|]. split; [exact Hgc|].
  revert H. destruct (_Elas.planeStress self); intros H.
  - bind_inv H as s'. bind_inv H as c'. injection H as <- <-. split.
    + intros gc gs -> ->. cbn [ndim] in Hs'.
      apply reduce_2d_matrix in Hs'. subst s'.
      apply np_linalg_inv_matrix in Hc'. destruct Hc' as (c3 & -> & Hinv).
      exists c3, (restriction [0; 1; 5]%nat gs).
      repeat split; try assumption;
        apply (restriction_3x3_inverse 0 1 5 gs c3 Hinv).
    + intros gcs gss -> ->. cbn [ndim] in Hs'.
      apply reduce_2d_batch in Hs'. subst s'.
      apply np_linalg_inv_batch in Hc'. destruct Hc' as (cs & -> & Hinv).
      exists cs, (map (restriction [0; 1; 5]%nat) gss).
      repeat split; try assumption.
      apply (restrictions_inverse 0 1 5 gss cs Hinv).
  - bind_inv H as c'. bind_inv H as s'. injection H as <- <-. split.
    + intros gc gs -> ->. cbn [ndim] in Hc'.
      apply reduce_2d_matrix in Hc'. subst c'.
      apply np_linalg_inv_matrix in Hs'. destruct Hs' as (s3 & -> & Hinv).
      exists (restriction [0; 1; 5]%nat gc), s3.
      repeat split; try assumption;
        apply (restriction_3x3_inverse 0 1 5 gc s3 Hinv).
    + intros gcs gss -> ->. cbn [ndim] in Hc'.
      apply reduce_2d_batch in Hc'. subst c'.
      apply np_linalg_inv_batch in Hs'. destruct Hs' as (ss & -> & Hinv).
      exists (map (restriction [0; 1; 5]%nat) gcs), ss.
      repeat split; try assumption.
      apply inverse_batches_sym. apply (restrictions_inverse 0 1 5 gcs ss Hinv).
Qed.

End IsotTrans_plane.

(** *** The material frame of a law with scalar parameters *)

Section IsotTrans_scalar.

Variables (self : Elas_IsotTrans.instance) (El Et Gl vl vt : R).
Hypothesis HEl : Elas_IsotTrans.El self = Scalar El.
Hypothesis HEt : Elas_IsotTrans.Et self = Scalar Et.
Hypothesis HGl : Elas_IsotTrans.Gl self = Scalar Gl.
Hypothesis Hvl : Elas_IsotTrans.vl self = Scalar vl.
Hypothesis Hvt : Elas_IsotTrans.vt self = Scalar vt.

Lemma Gt_scalar : 1 + vt <> 0 -> Elas_IsotTrans.Gt self = #(Et / (2 * (1 + vt))).
Proof.
  intros H. unfold Elas_IsotTrans.Gt. rewrite HEt, Hvt.
  cbn [vmul vadd lift2 binop bind total]. apply vdiv_scalar. lra.
Qed.

Lemma kt_scalar :
  2 * (1 - vt) * El - 4 * vl ^ 2 * Et <> 0 ->
  Elas_IsotTrans.kt self = #(El * Et / (2 * (1 - vt) * El - 4 * vl ^ 2 * Et)).
Proof.
  intros H. unfold Elas_IsotTrans.kt. rewrite HEl, HEt, Hvl, Hvt.
  cbn [vmul vadd vsub vpow lift2 binop bind total]. apply vdiv_scalar. assumption.
Qed.

Lemma kt_division_by_zero :
  2 * (1 - vt) * El - 4 * vl ^ 2 * Et = 0 ->
  Elas_IsotTrans.kt self = Raise ZeroDivisionError.
Proof.
  intros H. unfold Elas_IsotTrans.kt. rewrite HEl, HEt, Hvl, Hvt.
  cbn [vmul vadd vsub vpow lift2 binop bind total]. rewrite H.
  unfold vdiv, lift2. cbn [bind binop]. rewrite py_div_zero. reflexivity.
Qed.

Lemma material_sM_scalar (Gt kt : R) :
  El <> 0 -> Et <> 0 -> Gl <> 0 -> Gt <> 0 ->
  Elas_IsotTrans.material_sM self (Scalar Gt) (Scalar kt)
  = Ok (Mat [[1 / El; - vl / El; - vl / El; 0; 0; 0];
             [- vl / El; 1 / Et; - vt / Et; 0; 0; 0];
             [- vl / El; - vt / Et; 1 / Et; 0; 0; 0];
             [0; 0; 0; 1 / (2 * Gt); 0; 0];
             [0; 0; 0; 0; 1 / (2 * Gl); 0];
             [0; 0; 0; 0; 0; 1 / (2 * Gl)]]).
Proof.
  intros H1 H2 H3 H4. unfold Elas_IsotTrans.material_sM.
  rewrite HEl, HEt, HGl, Hvl, Hvt.
  cbn [vmul vneg lift2 binop bind total].
  rewrite !vdiv_scalar by lra. cbn [bind]. reflexivity.
Qed.

Lemma material_cM_scalar (Gt kt : R) :
  Elas_IsotTrans.material_cM self (Scalar Gt) (Scalar kt)
  = Ok (Mat [[El + 4 * vl ^ 2 * kt; 2 * kt * vl; 2 * kt * vl; 0; 0; 0];
             [2 * kt * vl; kt + Gt; kt - Gt; 0; 0; 0];
             [2 * kt * vl; kt - Gt; kt + Gt; 0; 0; 0];
             [0; 0; 0; 2 * Gt; 0; 0];
             [0; 0; 0; 0; 2 * Gl; 0];
             [0; 0; 0; 0; 0; 2 * Gl]]).
Proof.
  unfold Elas_IsotTrans.material_cM. rewrite HEl, HGl, Hvl.
  cbn [vmul vadd vsub vpow lift2 binop bind total]. reflexivity.
Qed.

End IsotTrans_scalar.

(** *** Two runs of the reduction *)

Lemma zip_with_same {A B : Type} (f : A -> A -> B) (xs : list A) :
  zip_with f xs xs = Ok (map (fun x => f x x) xs).
Proof.
  induction xs as [|x xs IH]; [reflexivity|].
  cbn [zip_with map]. rewrite IH. reflexivity.
Qed.

Lemma mat_sub_same (m : matrix) :
  mat_sub m m = Ok (map (map (fun x => x - x)) m).
Proof.
  unfold mat_sub, zip_rows. rewrite zip_with_same. cbn [bind]. unfold sequence.
  induction m as [|row m IH]; [reflexivity|].
  cbn [map mapM]. rewrite zip_with_same. cbn [bind]. rewrite IH. reflexivity.
Qed.

Lemma norm_sub_same (m : matrix) : norm (map (map (fun x => x - x)) m) = 0.
Proof.
  unfold norm. apply sqrt_sum_zero. unfold sumsq.
  induction m as [|row m IH]; [reflexivity|].
  cbn [map fold_right]. rewrite IH.
  assert (Hrow : dot (map (fun x => x - x) row) (map (fun x => x - x) row) = 0).
  { induction row as [|x row IHr]; [reflexivity|].
    cbn [map dot]. rewrite IHr. ring. }
  rewrite Hrow. ring.
Qed.

Lemma norm_nonzero (m : matrix) : 0 < sumsq m -> norm m <> 0.
Proof.
  intros H. unfold norm. pose proof (sqrt_lt_R0 _ H). lra.
Qed.

(** A matrix, or a batch of two matrices, compared with itself passes the
    test of [assert_close]. *)
Lemma assert_close_same (m : matrix) (tol : R) :
  norm m <> 0 -> 0 < tol ->
  assert_close (Mat m) (Mat m) (Mat m) tol = Ok tt.
Proof.
  intros Hm Htol. unfold assert_close. cbn [nd_sub]. rewrite mat_sub_same.
  cbn [bind norms ratios]. rewrite norm_sub_same.
  unfold np_ratio. destruct (Req_dec_T (norm m) 0) as [H|_]; [contradiction|].
  cbn [bind max_lt forallb]. unfold Rdiv. rewrite Rmult_0_l.
  rewrite Rltb_true by assumption. reflexivity.
Qed.

Lemma assert_close_same_batch (a b : matrix) (tol : R) :
  norm a <> 0 -> norm b <> 0 -> 0 < tol ->
  assert_close (Batch [a; b]) (Batch [a; b]) (Batch [a; b]) tol = Ok tt.
Proof.
  intros Ha Hb Htol. unfold assert_close. cbn [nd_sub zip_with].
  rewrite !mat_sub_same.
  cbn [bind sequence mapM norms map ratios broadcast_lists zip_with].
  rewrite !norm_sub_same.
  unfold np_ratio.
  destruct (Req_dec_T (norm a) 0) as [H|_]; [contradiction|].
  destruct (Req_dec_T (norm b) 0) as [H|_]; [contradiction|].
  cbn [bind sequence mapM max_lt forallb]. unfold Rdiv. rewrite !Rmult_0_l.
  rewrite !Rltb_true by assumption. reflexivity.
Qed.

Lemma plane_fibre_same_axis (planeStress : bool) (El Et Gl vl vt : value) :
  Elas_IsotTrans._useSameAxis (plane_fibre planeStress El Et Gl vl vt) = Ok true.
Proof.
  unfold Elas_IsotTrans._useSameAxis.
  cbv [Elas_IsotTrans.axis_l Elas_IsotTrans.axis_t plane_fibre vec_sub broadcast_lists
       Elas_IsotTrans._Elas_IsotTrans__axis_l Elas_IsotTrans._Elas_IsotTrans__axis_t
       zip_with bind vnorm dot].
  replace (sqrt ((1 - 1) * (1 - 1) + ((0 - 0) * (0 - 0) + ((0 - 0) * (0 - 0) + 0))))
    with 0 by (symmetry; apply sqrt_sum_zero; ring).
  replace (sqrt ((0 - 0) * (0 - 0) + ((1 - 1) * (1 - 1) + ((0 - 0) * (0 - 0) + 0))))
    with 0 by (symmetry; apply sqrt_sum_zero; ring).
  rewrite Rleb_true by lra. reflexivity.
Qed.

(** **** A law with scalar parameters *)

Lemma coupled_Gt (planeStress : bool) :
  Elas_IsotTrans.Gt (coupled_fibre planeStress) = Ok (Scalar (1 / (2 * (1 + 0)))).
Proof. apply (Gt_scalar _ 1 0); [reflexivity | reflexivity | lra]. Qed.

Lemma coupled_kt (planeStress : bool) :
  Elas_IsotTrans.kt (coupled_fibre planeStress)
  = Ok (Scalar (2 * 1 / (2 * (1 - 0) * 2 - 4 * (1/2) ^ 2 * 1))).
Proof. apply (kt_scalar _ 2 1 (1/2) 0); try reflexivity. lra. Qed.

Lemma coupled_material_sM (planeStress : bool) (Gt kt : R) :
  Gt = 1/2 ->
  Elas_IsotTrans.material_sM (coupled_fibre planeStress) (Scalar Gt) (Scalar kt)
  = Ok (Mat (coupled_sM 2)).
Proof.
  intros ->.
  rewrite (material_sM_scalar _ 2 1 1 (1/2) 0) by (reflexivity || lra).
  do 2 apply f_equal. unfold coupled_sM. list_eq; field.
Qed.

Lemma coupled_material_cM (planeStress : bool) (Gt kt : R) :
  Gt = 1/2 ->
  Elas_IsotTrans.material_cM (coupled_fibre planeStress) (Scalar Gt) (Scalar kt)
  = Ok (Mat (coupled_cM 2 kt)).
Proof.
  intros ->.
  rewrite (material_cM_scalar _ 2 1 (1/2)) by reflexivity.
  do 2 apply f_equal. unfold coupled_cM. list_eq; field.
Qed.

Lemma inv_coupled_cM : inv (coupled_cM 2 (2/3)) = Ok (coupled_sM 2).
Proof.
  unfold inv. change (length (coupled_cM 2 (2/3))) with 6%nat.
  change (negb (is_shape 6 (coupled_cM 2 (2/3)))) with false. cbv iota.
  assert (Hdet : det 6 (coupled_cM 2 (2/3)) = 32 / 3).
  { unfold coupled_cM. unfold_linalg. field. }
  rewrite Hdet. destruct (Req_dec_T (32 / 3) 0) as [H|_]; [lra|].
  apply f_equal. unfold coupled_cM, coupled_sM. unfold_linalg. list_eq; field.
Qed.

Lemma inv_coupled_sM : inv (coupled_sM 2) = Ok (coupled_cM 2 (2/3)).
Proof.
  unfold inv. change (length (coupled_sM 2)) with 6%nat.
  change (negb (is_shape 6 (coupled_sM 2))) with false. cbv iota.
  assert (Hdet : det 6 (coupled_sM 2) = 3 / 32).
  { unfold coupled_sM. unfold_linalg. field. }
  rewrite Hdet. destruct (Req_dec_T (3 / 32) 0) as [H|_]; [lra|].
  apply f_equal. unfold coupled_cM, coupled_sM. unfold_linalg. list_eq; field.
Qed.

Lemma norm_coupled_sM (El : R) : norm (coupled_sM El) <> 0.
Proof.
  apply norm_nonzero. cbv [sumsq coupled_sM map dot fold_right].
  generalize (1 / El) (- (1 / 2) / El). intros x y. nra.
Qed.

Lemma norm_coupled_cM (El kt : R) : norm (coupled_cM El kt) <> 0.
Proof.
  apply norm_nonzero. cbv [sumsq coupled_cM map dot fold_right].
  generalize (El + kt) (kt + 1 / 2) (kt - 1 / 2). intros x y z. nra.
Qed.

(** The two matrices in the global frame: the checks of the material frame
    pass and the base change leaves them as they are. *)
Lemma coupled_global_matrices (planeStress : bool) :
  Elas_IsotTrans.global_matrices default_Pmat default_Apply
    (coupled_fibre planeStress) None
  = Ok (Mat (coupled_cM 2 (2/3)), Mat (coupled_sM 2)).
Proof.
  unfold Elas_IsotTrans.global_matrices, default_Pmat. cbn [bind].
  unfold coupled_fibre at 1. rewrite plane_fibre_same_axis. cbn [bind].
  rewrite coupled_Gt, coupled_kt. cbn [bind].
  rewrite coupled_material_sM by field. cbn [bind].
  rewrite coupled_material_cM by field. cbn [bind ndim].
  replace (2 * 1 / (2 * (1 - 0) * 2 - 4 * (1 / 2) ^ 2 * 1)) with (2 / 3) by field.
  change (2 =? 2)%Z with true. cbv iota.
  cbn [np_linalg_inv]. rewrite inv_coupled_cM, inv_coupled_sM. cbn [bind].
  rewrite !assert_close_same by (try apply norm_coupled_sM; try apply norm_coupled_cM; lra).
  cbn [bind default_Apply]. 
  rewrite !assert_close_same by (try apply norm_coupled_sM; try apply norm_coupled_cM; lra).
  reflexivity.
Qed.

Lemma inv_eye6 : inv (eye 6) = Ok (eye 6).
Proof.
  unfold inv. change (length (eye 6)) with 6%nat.
  change (negb (is_shape 6 (eye 6))) with false. cbv iota.
  assert (Hdet : det 6 (eye 6) = 1) by (unfold_linalg; ring).
  rewrite Hdet. destruct (Req_dec_T 1 0) as [H|_]; [lra|].
  apply f_equal. unfold_linalg. list_eq; field.
Qed.

(** The inverse of an explicit 3x3 matrix whose determinant is [d]. *)
Ltac inverse_3x3 d :=
  unfold inv; cbv [restriction coupled_sM coupled_cM map nth];
  cbn [length is_shape forallb Nat.eqb andb negb];
  match goal with
  | |- context [Req_dec_T ?x 0] =>
      replace x with d by (unfold_linalg; field);
      destruct (Req_dec_T d 0) as [H|_]; [lra|]
  end;
  apply f_equal; unfold_linalg; list_eq; field.

Lemma coupled_plane_stress_inverse :
  inv (restriction [0; 1; 5]%nat (coupled_sM 2))
  = Ok [[16/7; 4/7; 0]; [4/7; 8/7; 0]; [0; 0; 2]].
Proof. inverse_3x3 (7/32). Qed.

Lemma coupled_plane_strain_inverse :
  inv (restriction [0; 1; 5]%nat (coupled_cM 2 (2/3)))
  = Ok [[7/16; -1/4; 0]; [-1/4; 1; 0]; [0; 0; 1/2]].
Proof. inverse_3x3 (16/3). Qed.

Lemma coupled_Behavior_plane_stress :
  Elas_IsotTrans._Behavior default_Pmat default_Apply (coupled_fibre true) (Some 2%Z) None
  = Ok (Mat [[16/7; 4/7; 0]; [4/7; 8/7; 0]; [0; 0; 2]],
        Mat (restriction [0; 1; 5]%nat (coupled_sM 2))).
Proof.
  unfold Elas_IsotTrans._Behavior. rewrite coupled_global_matrices.
  cbn [bind ndim]. change (2 =? 2)%Z with true. cbv iota.
  change (_Elas.planeStress (coupled_fibre true)) with true. cbv iota.
  change (reduce_2d 2 [0; 1; 5]%nat (Mat (coupled_sM 2)))
    with (Ok (Mat (restriction [0; 1; 5]%nat (coupled_sM 2)))).
  cbn [bind np_linalg_inv]. rewrite coupled_plane_stress_inverse. reflexivity.
Qed.

Lemma coupled_Behavior_plane_strain :
  Elas_IsotTrans._Behavior default_Pmat default_Apply (coupled_fibre false) (Some 2%Z) None
  = Ok (Mat (restriction [0; 1; 5]%nat (coupled_cM 2 (2/3))),
        Mat [[7/16; -1/4; 0]; [-1/4; 1; 0]; [0; 0; 1/2]]).
Proof.
  unfold Elas_IsotTrans._Behavior. rewrite coupled_global_matrices.
  cbn [bind ndim]. change (2 =? 2)%Z with true. cbv iota.
  change (_Elas.planeStress (coupled_fibre false)) with false. cbv iota.
  change (reduce_2d 2 [0; 1; 5]%nat (Mat (coupled_cM 2 (2/3))))
    with (Ok (Mat (restriction [0; 1; 5]%nat (coupled_cM 2 (2/3))))).
  cbn [bind np_linalg_inv]. rewrite coupled_plane_strain_inverse. reflexivity.
Qed.

(** **** A heterogeneous law *)

Lemma graded_Gt (planeStress : bool) :
  Elas_IsotTrans.Gt (graded_fibre planeStress) = Ok (Scalar (1 / (2 * (1 + 0)))).
Proof.
  unfold Elas_IsotTrans.Gt.
  cbn [Elas_IsotTrans.Et Elas_IsotTrans.vt graded_fibre plane_fibre
       Elas_IsotTrans._Elas_IsotTrans__Et Elas_IsotTrans._Elas_IsotTrans__vt
       vmul vadd lift2 binop bind total].
  apply vdiv_scalar. lra.
Qed.

Lemma graded_kt (planeStress : bool) :
  Elas_IsotTrans.kt (graded_fibre planeStress)
  = Ok (Array [2 * 1 / (2 * (1 - 0) * 2 - 4 * (1/2) ^ 2 * 1);
               4 * 1 / (2 * (1 - 0) * 4 - 4 * (1/2) ^ 2 * 1)]).
Proof.
  unfold Elas_IsotTrans.kt.
  cbn [Elas_IsotTrans.El Elas_IsotTrans.Et Elas_IsotTrans.vt Elas_IsotTrans.vl
       graded_fibre plane_fibre
       Elas_IsotTrans._Elas_IsotTrans__El Elas_IsotTrans._Elas_IsotTrans__Et
       Elas_IsotTrans._Elas_IsotTrans__vt Elas_IsotTrans._Elas_IsotTrans__vl
       vmul vadd vsub vpow lift2 binop bind total mapM].
  unfold vdiv, lift2. cbn [bind binop mapM broadcast_lists zip_with sequence].
  rewrite !np_div_ok by lra. reflexivity.
Qed.

Lemma graded_material_sM (planeStress : bool) (Gt : R) (kt : list R) :
  Gt = 1/2 ->
  Elas_IsotTrans.material_sM (graded_fibre planeStress) (Scalar Gt) (Array kt)
  = Ok (Batch [coupled_sM 2; coupled_sM 4]).
Proof.
  intros ->. unfold Elas_IsotTrans.material_sM.
  cbn [Elas_IsotTrans.El Elas_IsotTrans.Et Elas_IsotTrans.vt Elas_IsotTrans.vl
       Elas_IsotTrans.Gl graded_fibre plane_fibre
       Elas_IsotTrans._Elas_IsotTrans__El Elas_IsotTrans._Elas_IsotTrans__Et
       Elas_IsotTrans._Elas_IsotTrans__vt Elas_IsotTrans._Elas_IsotTrans__vl
       Elas_IsotTrans._Elas_IsotTrans__Gl
       vmul vneg lift2 binop bind total].
  unfold vdiv, lift2. cbn [bind binop mapM].
  rewrite !np_div_ok, !py_div_ok by lra.
  cbn [bind is_array np_array orb].
  cbn [Heterogeneous_Array concat app first_array length seq mapM at_point Nat.eqb nth
       bind].
  do 2 apply f_equal. unfold coupled_sM. list_eq; field.
Qed.

Lemma graded_material_cM (planeStress : bool) (Gt k1 k2 : R) :
  Gt = 1/2 ->
  Elas_IsotTrans.material_cM (graded_fibre planeStress) (Scalar Gt) (Array [k1; k2])
  = Ok (Batch [coupled_cM 2 k1; coupled_cM 4 k2]).
Proof.
  intros ->. unfold Elas_IsotTrans.material_cM.
  cbn [Elas_IsotTrans.El Elas_IsotTrans.vl Elas_IsotTrans.Gl graded_fibre plane_fibre
       Elas_IsotTrans._Elas_IsotTrans__El Elas_IsotTrans._Elas_IsotTrans__vl
       Elas_IsotTrans._Elas_IsotTrans__Gl
       vmul vadd vsub vpow lift2 binop bind total mapM broadcast_lists zip_with sequence].
  cbn [bind is_array np_array orb].
  cbn [Heterogeneous_Array concat app first_array length seq mapM at_point Nat.eqb nth
       bind].
  do 2 apply f_equal. unfold coupled_cM. list_eq; field.
Qed.

Lemma graded_global_matrices (planeStress : bool) :
  Elas_IsotTrans.global_matrices default_Pmat default_Apply
    (graded_fibre planeStress) None
  = Ok (Batch [coupled_cM 2 (2/3); coupled_cM 4 (4/7)],
        Batch [coupled_sM 2; coupled_sM 4]).
Proof.
  unfold Elas_IsotTrans.global_matrices, default_Pmat. cbn [bind].
  unfold graded_fibre at 1. rewrite plane_fibre_same_axis. cbn [bind].
  rewrite graded_Gt, graded_kt. cbn [bind].
  rewrite graded_material_sM by field. cbn [bind].
  rewrite graded_material_cM by field. cbn [bind ndim].
  replace (2 * 1 / (2 * (1 - 0) * 2 - 4 * (1 / 2) ^ 2 * 1)) with (2 / 3) by field.
  replace (4 * 1 / (2 * (1 - 0) * 4 - 4 * (1 / 2) ^ 2 * 1)) with (4 / 7) by field.
  change (3 =? 2)%Z with false. cbv iota.
  cbn [bind default_Apply].
  rewrite !assert_close_same_batch
    by (try apply norm_coupled_sM; try apply norm_coupled_cM; lra).
  reflexivity.
Qed.

Lemma graded_plane_stress_inverse :
  inv (restriction [0; 1; 5]%nat (coupled_sM 4))
  = Ok [[64/15; 8/15; 0]; [8/15; 16/15; 0]; [0; 0; 2]].
Proof. inverse_3x3 (15/128). Qed.

Lemma graded_plane_strain_inverse :
  inv (restriction [0; 1; 5]%nat (coupled_cM 4 (4/7)))
  = Ok [[15/64; -1/8; 0]; [-1/8; 1; 0]; [0; 0; 1/2]].
Proof. inverse_3x3 (64/7). Qed.

Lemma graded_Behavior_plane_stress :
  Elas_IsotTrans._Behavior default_Pmat default_Apply (graded_fibre true) (Some 2%Z) None
  = Ok (Batch [[[16/7; 4/7; 0]; [4/7; 8/7; 0]; [0; 0; 2]];
               [[64/15; 8/15; 0]; [8/15; 16/15; 0]; [0; 0; 2]]],
        Batch (map (restriction [0; 1; 5]%nat) [coupled_sM 2; coupled_sM 4])).
Proof.
  unfold Elas_IsotTrans._Behavior. rewrite graded_global_matrices.
  cbn [bind ndim]. change (2 =? 2)%Z with true. cbv iota.
  change (_Elas.planeStress (graded_fibre true)) with true. cbv iota.
  change (reduce_2d 3 [0; 1; 5]%nat (Batch [coupled_sM 2; coupled_sM 4]))
    with (Ok (Batch (map (restriction [0; 1; 5]%nat) [coupled_sM 2; coupled_sM 4]))).
  cbn [bind np_linalg_inv map mapM].
  rewrite coupled_plane_stress_inverse, graded_plane_stress_inverse. reflexivity.
Qed.

Lemma graded_Behavior_plane_strain :
  Elas_IsotTrans._Behavior default_Pmat default_Apply (graded_fibre false) (Some 2%Z) None
  = Ok (Batch (map (restriction [0; 1; 5]%nat) [coupled_cM 2 (2/3); coupled_cM 4 (4/7)]),
        Batch [[[7/16; -1/4; 0]; [-1/4; 1; 0]; [0; 0; 1/2]];
               [[15/64; -1/8; 0]; [-1/8; 1; 0]; [0; 0; 1/2]]]).
Proof.
  unfold Elas_IsotTrans._Behavior. rewrite graded_global_matrices.
  cbn [bind ndim]. change (2 =? 2)%Z with true. cbv iota.
  change (_Elas.planeStress (graded_fibre false)) with false. cbv iota.
  change (reduce_2d 3 [0; 1; 5]%nat (Batch [coupled_cM 2 (2/3); coupled_cM 4 (4/7)]))
    with (Ok (Batch (map (restriction [0; 1; 5]%nat)
                       [coupled_cM 2 (2/3); coupled_cM 4 (4/7)]))).
  cbn [bind np_linalg_inv map mapM].
  rewrite coupled_plane_strain_inverse, graded_plane_strain_inverse. reflexivity.
Qed.

Lemma isotTrans_plane_reduction_witness :
  (exists c3 s3 : matrix,
     Elas_IsotTrans._Behavior default_Pmat default_Apply (coupled_fibre true)
       (Some 2%Z) None = Ok (Mat c3, Mat s3) /\
     s3 = restriction [0; 1; 5]%nat (coupled_sM 2) /\ inv s3 = Ok c3 /\
     matmul c3 s3 = eye 3 /\ matmul s3 c3 = eye 3) /\
  (exists c3 s3 : matrix,
     Elas_IsotTrans._Behavior default_Pmat default_Apply (coupled_fibre false)
       (Some 2%Z) None = Ok (Mat c3, Mat s3) /\
     c3 = restriction [0; 1; 5]%nat (coupled_cM 2 (2/3)) /\ inv c3 = Ok s3 /\
     matmul c3 s3 = eye 3 /\ matmul s3 c3 = eye 3) /\
  (exists cs ss : list matrix,
     Elas_IsotTrans._Behavior default_Pmat default_Apply (graded_fibre true)
       (Some 2%Z) None = Ok (Batch cs, Batch ss) /\
     ss = map (restriction [0; 1; 5]%nat) [coupled_sM 2; coupled_sM 4] /\
     mapM inv ss = Ok cs /\ inverse_batches cs ss) /\
  (exists cs ss : list matrix,
     Elas_IsotTrans._Behavior default_Pmat default_Apply (graded_fibre false)
       (Some 2%Z) None = Ok (Batch cs, Batch ss) /\
     cs = map (restriction [0; 1; 5]%nat) [coupled_cM 2 (2/3); coupled_cM 4 (4/7)] /\
     mapM inv cs = Ok ss /\ inverse_batches cs ss).
Proof.
  split; [|split; [|split]].
  - destruct (isotTrans_plane_reduction default_Pmat default_Apply (coupled_fibre true)
                (Some 2%Z) None _ _ (or_introl eq_refl) coupled_Behavior_plane_stress)
      as (P' & Gt & kt & ms & mc & gc & gs
          & HP & HGt & Hkt & Hms & Hmc & _ & Hgs & Hgc & Hmat & _).
    rewrite coupled_Gt in HGt. injection HGt as <-.
    rewrite coupled_kt in Hkt. injection Hkt as <-.
    rewrite coupled_material_sM in Hms by field. injection Hms as <-.
    rewrite coupled_material_cM in Hmc by field. injection Hmc as <-.
    injection Hgs as <-. injection Hgc as <-.
    destruct (Hmat _ _ eq_refl eq_refl) as (c3 & s3 & Hc & Hs & [Hr Hi] & H1 & H2).
    exists c3, s3. rewrite coupled_Behavior_plane_stress, Hc, Hs.
    repeat split; first [assumption | reflexivity | congruence].
  - destruct (isotTrans_plane_reduction default_Pmat default_Apply (coupled_fibre false)
                (Some 2%Z) None _ _ (or_introl eq_refl) coupled_Behavior_plane_strain)
      as (P' & Gt & kt & ms & mc & gc & gs
          & HP & HGt & Hkt & Hms & Hmc & _ & Hgs & Hgc & Hmat & _).
    rewrite coupled_Gt in HGt. injection HGt as <-.
    rewrite coupled_kt in Hkt. injection Hkt as <-.
    rewrite coupled_material_sM in Hms by field. injection Hms as <-.
    rewrite coupled_material_cM in Hmc by field. injection Hmc as <-.
    injection Hgs as <-. injection Hgc as <-.
    destruct (Hmat _ _ eq_refl eq_refl) as (c3 & s3 & Hc & Hs & [Hr Hi] & H1 & H2).
    exists c3, s3. rewrite coupled_Behavior_plane_strain, Hc, Hs.
    repeat split; first [assumption | reflexivity | congruence].
  - destruct (isotTrans_plane_reduction default_Pmat default_Apply (graded_fibre true)
                (Some 2%Z) None _ _ (or_introl eq_refl) graded_Behavior_plane_stress)
      as (P' & Gt & kt & ms & mc & gc & gs
          & HP & HGt & Hkt & Hms & Hmc & _ & Hgs & Hgc & _ & Hbatch).
    rewrite graded_Gt in HGt. injection HGt as <-.
    rewrite graded_kt in Hkt. injection Hkt as <-.
    rewrite graded_material_sM in Hms by field. injection Hms as <-.
    rewrite graded_material_cM in Hmc by field. injection Hmc as <-.
    injection Hgs as <-. injection Hgc as <-.
    destruct (Hbatch _ _ eq_refl eq_refl) as (cs & ss & Hc & Hs & [Hr Hi] & Hinv).
    exists cs, ss. rewrite graded_Behavior_plane_stress, Hc, Hs.
    repeat split; first [assumption | reflexivity | congruence].
  - destruct (isotTrans_plane_reduction default_Pmat default_Apply (graded_fibre false)
                (Some 2%Z) None _ _ (or_introl eq_refl) graded_Behavior_plane_strain)
      as (P' & Gt & kt & ms & mc & gc & gs
          & HP & HGt & Hkt & Hms & Hmc & _ & Hgs & Hgc & _ & Hbatch).
    rewrite graded_Gt in HGt. injection HGt as <-.
    rewrite graded_kt in Hkt. injection Hkt as <-.
    rewrite graded_material_sM in Hms by field. injection Hms as <-.
    rewrite graded_material_cM in Hmc by field. injection Hmc as <-.
    injection Hgs as <-. injection Hgc as <-.
    destruct (Hbatch _ _ eq_refl eq_refl) as (cs & ss & Hc & Hs & [Hr Hi] & Hinv).
    exists cs, ss. rewrite graded_Behavior_plane_strain, Hc, Hs.
    repeat split; first [assumption | reflexivity | congruence].
Defined.

(** With [dtype=float], that is with a [kt] that is a number, the matrix of
    the material frame is only built from numbers: an array-valued [Gl]
    next to scalar El, Et, vl and vt makes [np.array] raise. *)
Lemma float_dtype_needs_numbers (self : Elas_IsotTrans.instance) (Gt : value) (kt : R)
  (material_s : ndarray) :
  Elas_IsotTrans.material_sM self Gt (Scalar kt) = Ok material_s ->
  is_array (Elas_IsotTrans.Gl self) = false /\ ndim material_s = 2%Z.
Proof.
  unfold Elas_IsotTrans.material_sM. cbv zeta. intros H.
  bind_inv H as a. bind_inv H as b. bind_inv H as c. bind_inv H as d.
  bind_inv H as e. bind_inv H as f. bind_inv H as rows.
  unfold np_array in Hrows. cbn [is_array orb forallb andb] in Hrows.
  destruct (negb (is_array a)) eqn:Aa; [|discriminate].
  destruct (negb (is_array b)) eqn:Ab; [|discriminate].
  destruct (negb (is_array c)) eqn:Ac; [|discriminate].
  destruct (negb (is_array d)) eqn:Ad; [|discriminate].
  destruct (negb (is_array e)) eqn:Ae; [|discriminate].
  destruct (negb (is_array f)) eqn:Af; [|discriminate].
  cbn [andb] in Hrows. injection Hrows as <-.
  apply Heterogeneous_Array_ndim in H.
  cbn [concat app existsb is_array orb] in H.
  apply negb_true_iff in Aa, Ab, Ac, Ad, Ae, Af.
  rewrite Aa, Ab, Ac, Ad, Ae, Af in H. cbn [orb] in H.
  split; [|exact H].
  is_array_of Hf. cbn [orb is_array] in Af. exact Af.
Qed.

Lemma float_dtype_rejects_array_Gl (planeStress : bool) :
  Elas_IsotTrans._Behavior default_Pmat default_Apply
    (plane_fibre planeStress (Scalar 2) (Scalar 1) (Array [1; 2]) (Scalar (1/2)) (Scalar 0))
    (Some 2%Z) None
  = Raise ValueError.
Proof.
  unfold Elas_IsotTrans._Behavior, Elas_IsotTrans.global_matrices, default_Pmat.
  cbn [bind]. rewrite plane_fibre_same_axis. cbn [bind].
  rewrite (Gt_scalar _ 1 0) by (reflexivity || lra).
  rewrite (kt_scalar _ 2 1 (1/2) 0) by (reflexivity || lra).
  cbn [bind]. unfold Elas_IsotTrans.material_sM.
  cbn [Elas_IsotTrans.El Elas_IsotTrans.Et Elas_IsotTrans.vt Elas_IsotTrans.vl
       Elas_IsotTrans.Gl plane_fibre
       Elas_IsotTrans._Elas_IsotTrans__El Elas_IsotTrans._Elas_IsotTrans__Et
       Elas_IsotTrans._Elas_IsotTrans__vt Elas_IsotTrans._Elas_IsotTrans__vl
       Elas_IsotTrans._Elas_IsotTrans__Gl
       vmul vneg lift2 binop bind total mapM].
  unfold vdiv, lift2. cbn [bind binop mapM].
  rewrite !np_div_ok, !py_div_ok by lra.
  reflexivity.
Qed.

(** ** The orthogonality test of the constructors *)

Lemma assert_raises (b : bool) (e : exn) : assert b = Raise e -> e = AssertionError.
Proof. destruct b; [discriminate | intros H; injection H as <-; reflexivity]. Qed.

Lemma _Test_Sup0_raises (x : value) (e : exn) : _Test_Sup0 x = Raise e -> e = AssertionError.
Proof. destruct x; apply assert_raises. Qed.

Lemma _Test_In_raises (x : value) (a b : R) (e : exn) :
  _Test_In x a b = Raise e -> e = AssertionError.
Proof. destruct x; apply assert_raises. Qed.

Lemma axes_test_positive (axis1 axis2 : vec) :
  1e-12 < dot axis1 axis2 -> axes_test axis1 axis2 = false.
Proof. intros H. unfold axes_test. apply Rleb_false. lra. Qed.

Lemma axes_test_negative (axis1 axis2 : vec) :
  dot axis1 axis2 <= 1e-12 -> axes_test axis1 axis2 = true.
Proof. intros H. unfold axes_test. apply Rleb_true. assumption. Qed.

(** Axes whose dot product exceeds 1e-12 are rejected by both
    constructors. *)
Lemma isotTrans_rejects_positive_dot (dim : Z) (El Et Gl vl vt : value)
  (axis_l axis_t : vec) (planeStress : bool) (thickness : R) :
  1e-12 < dot axis_l axis_t ->
  Elas_IsotTrans.__init__ dim El Et Gl vl vt axis_l axis_t planeStress thickness
  = Raise AssertionError.
Proof.
  intros Hdot. unfold Elas_IsotTrans.__init__, As_Coordinates.
  rewrite (axes_test_positive _ _ Hdot).
  repeat match goal with
         | |- bind ?c _ = _ =>
             let E := fresh in
             destruct c as [[]|e] eqn:E;
             [first [discriminate E | cbn [bind]]
             |cbn [bind]; f_equal;
              first [apply (assert_raises _ _ E)
                    |apply (_Test_Sup0_raises _ _ E)
                    |apply (_Test_In_raises _ _ _ _ E)]]
         end.
Qed.

Lemma anisot_rejects_positive_dot (dim : Z) (axis1 axis2 : vec) :
  1e-12 < dot axis1 axis2 ->
  Elas_Anisot.check_axes dim axis1 axis2 = Raise AssertionError.
Proof.
  intros Hdot. unfold Elas_Anisot.check_axes, As_Coordinates.
  rewrite (axes_test_positive _ _ Hdot).
  repeat match goal with
         | |- bind ?c _ = _ =>
             let E := fresh in
             destruct c as [[]|e] eqn:E;
             [first [discriminate E | cbn [bind]]
             |cbn [bind]; f_equal; apply (assert_raises _ _ E)]
         end.
Qed.

Lemma mapM_np_div (n : R) (xs : vec) :
  n <> 0 -> mapM (fun x => np_div x n) xs = Ok (map (fun x => x / n) xs).
Proof.
  intros Hn. induction xs as [|x xs IH]; [reflexivity|].
  cbn [mapM map bind]. rewrite np_div_ok by assumption. cbn [bind].
  rewrite IH. reflexivity.
Qed.

Lemma Normalize_vect_ok (axis : vec) :
  vnorm axis <> 0 ->
  Normalize_vect axis = Ok (map (fun x => x / vnorm axis) axis).
Proof. intros Hn. unfold Normalize_vect. apply mapM_np_div. assumption. Qed.

Lemma vnorm_e1 : vnorm [1; 0; 0] <> 0.
Proof.
  unfold vnorm. cbn [dot].
  assert (0 < sqrt (1 * 1 + (0 * 0 + (0 * 0 + 0)))) by (apply sqrt_lt_R0; lra). lra.
Qed.

Lemma vnorm_oblique : vnorm [-1; 1; 0] <> 0.
Proof.
  unfold vnorm. cbn [dot].
  assert (0 < sqrt (-1 * -1 + (1 * 1 + (0 * 0 + 0)))) by (apply sqrt_lt_R0; lra). lra.
Qed.

(** C6 on the code.  The axes (1, 0, 0) and (-1, 1, 0) are not orthogonal:
    their dot product is -1.  The test [axis1 @ axis2 <= 1e-12] passes on
    them, the constructor of the transversely isotropic law returns an
    instance, and the constructor of the anisotropic law goes on to
    [Set_C]. *)
Theorem oblique_axes_pass_the_test :
  1e-12 < Rabs (dot [1; 0; 0] [-1; 1; 0] - 0) /\
  axes_test [1; 0; 0] [-1; 1; 0] = true /\
  (exists self : Elas_IsotTrans.instance,
     Elas_IsotTrans.__init__ 3 (Scalar 1) (Scalar 1) (Scalar (1/2)) (Scalar 0) (Scalar 0)
       [1; 0; 0] [-1; 1; 0] true 1 = Ok self) /\
  (forall (Get_Pmat : vec -> vec -> result matrix)
          (Apply_Pmat : matrix -> ndarray -> result ndarray)
          (C : matrix) (useVoigtNotation : bool) (thickness : R),
     exists self0 : Elas_Anisot.instance,
       Elas_Anisot.__init__ Get_Pmat Apply_Pmat 3 C useVoigtNotation
         [1; 0; 0] [-1; 1; 0] thickness
       = match Elas_Anisot.Set_C Get_Pmat Apply_Pmat C useVoigtNotation true self0 with
         | (Ok _, self') => Ok self'
         | (Raise e, _) => Raise e
         end).
Proof.
  assert (Hdot : dot [1; 0; 0] [-1; 1; 0] = -1) by (cbn [dot]; ring).
  split; [rewrite Hdot; replace (-1 - 0) with (- (1)) by ring;
          rewrite Rabs_Ropp, Rabs_R1; lra|].
  assert (Htest : axes_test [1; 0; 0] [-1; 1; 0] = true)
    by (apply axes_test_negative; rewrite Hdot; lra).
  split; [exact Htest|]. split.
  - eexists. unfold Elas_IsotTrans.__init__, As_Coordinates, _Test_Sup0, _Test_In,
      bInf_default, bSup_default.
    rewrite Htest, !Rltb_true by lra.
    rewrite (Normalize_vect_ok _ vnorm_e1), (Normalize_vect_ok _ vnorm_oblique).
    reflexivity.
  - intros Get_Pmat Apply_Pmat C useVoigtNotation thickness. eexists.
    unfold Elas_Anisot.__init__, Elas_Anisot.check_axes, As_Coordinates.
    rewrite Htest.
    rewrite (Normalize_vect_ok _ vnorm_e1), (Normalize_vect_ok _ vnorm_oblique).
    reflexivity.
Qed.

Lemma vnorm_unit (a b c : R) :
  a * a + (b * b + (c * c + 0)) = 1 -> vnorm [a; b; c] = 1.
Proof. intros H. unfold vnorm. cbn [dot]. rewrite H. apply sqrt_1. Qed.

(** [unit_fibre] is the instance the constructor returns. *)
Lemma unit_fibre_constructed :
  exists self : Elas_IsotTrans.instance,
    Elas_IsotTrans.__init__ 2 (Scalar 1) (Scalar 1) (Scalar (1/2)) (Scalar 0) (Scalar 0)
      [1; 0; 0] [0; 1; 0] true 1 = Ok self /\
    self = unit_fibre.
Proof.
  assert (H1 : vnorm [1; 0; 0] = 1) by (apply vnorm_unit; ring).
  assert (H2 : vnorm [0; 1; 0] = 1) by (apply vnorm_unit; ring).
  eexists. split.
  - unfold Elas_IsotTrans.__init__, As_Coordinates, _Test_Sup0, _Test_In,
      bInf_default, bSup_default, _Elas.__init__.
    rewrite (axes_test_negative [1; 0; 0] [0; 1; 0]) by (cbn [dot]; lra).
    rewrite !Rltb_true by lra.
    rewrite !Normalize_vect_ok by (rewrite ?H1, ?H2; lra).
    rewrite H1, H2. reflexivity.
  - unfold unit_fibre. cbn [map Z.eqb Pos.eqb]. repeat f_equal; field.
Qed.

(** The two laws of the runs of the plane reduction are the instances the
    constructor returns. *)
Lemma coupled_fibre_constructed (planeStress : bool) :
  Elas_IsotTrans.__init__ 2 (Scalar 2) (Scalar 1) (Scalar 1) (Scalar (1/2)) (Scalar 0)
    [1; 0; 0] [0; 1; 0] planeStress 1 = Ok (coupled_fibre planeStress).
Proof.
  assert (H1 : vnorm [1; 0; 0] = 1) by (apply vnorm_unit; ring).
  assert (H2 : vnorm [0; 1; 0] = 1) by (apply vnorm_unit; ring).
  unfold Elas_IsotTrans.__init__, As_Coordinates, _Test_Sup0, _Test_In,
    bInf_default, bSup_default, _Elas.__init__.
  rewrite (axes_test_negative [1; 0; 0] [0; 1; 0]) by (cbn [dot]; lra).
  rewrite !Rltb_true by lra.
  rewrite !Normalize_vect_ok by (rewrite ?H1, ?H2; lra).
  rewrite H1, H2. cbn [andb assert bind Z.eqb Pos.eqb orb length Nat.eqb map].
  apply f_equal. unfold coupled_fibre, plane_fibre. repeat f_equal; field.
Qed.

Lemma graded_fibre_constructed (planeStress : bool) :
  Elas_IsotTrans.__init__ 2 (Array [2; 4]) (Scalar 1) (Scalar 1) (Scalar (1/2)) (Scalar 0)
    [1; 0; 0] [0; 1; 0] planeStress 1 = Ok (graded_fibre planeStress).
Proof.
  assert (H1 : vnorm [1; 0; 0] = 1) by (apply vnorm_unit; ring).
  assert (H2 : vnorm [0; 1; 0] = 1) by (apply vnorm_unit; ring).
  unfold Elas_IsotTrans.__init__, As_Coordinates, _Test_Sup0, _Test_In,
    bInf_default, bSup_default, _Elas.__init__.
  rewrite (axes_test_negative [1; 0; 0] [0; 1; 0]) by (cbn [dot]; lra).
  cbn [forallb]. rewrite !Rltb_true by lra.
  rewrite !Normalize_vect_ok by (rewrite ?H1, ?H2; lra).
  rewrite H1, H2. cbn [andb assert bind Z.eqb Pos.eqb orb length Nat.eqb map].
  apply f_equal. unfold graded_fibre, plane_fibre. repeat f_equal; field.
Qed.

(** ** Further properties of the prism elements *)

(** X1.  Entry (i, k) of the table of [PRISM15._ddN] is the derivative of
    entry (i, k) of [_dN] with respect to the same k-th coordinate: the
    second derivative of the i-th basis function in r, in s or in t. *)
Theorem PRISM15_ddN_is_second_derivative (r s t : R) (i k : nat) :
  (i < 15)%nat -> (k < 3)%nat ->
  partial_derivative k (entry PRISM15._dN i k) r s t (entry PRISM15._ddN i k r s t).
Proof.
  intros Hi Hk.
  do 15 (destruct i as [|i];
         [ do 3 (destruct k as [|k]; [ table_entry; quadratic_entry | ]); lia | ]).
  lia.
Qed.

Lemma PRISM15_ddN_is_second_derivative_witness :
  partial_derivative 2 (entry PRISM15._dN 8 2) 0 0 0 (entry PRISM15._ddN 8 2 0 0 0).
Proof. apply (PRISM15_ddN_is_second_derivative 0 0 0 8 2); lia. Defined.

Ltac unfold_tables :=
  cbv [vsum column_at evaluate evaluate_at interpolate dot map nth fold_right reshape_col
       PRISM6._N PRISM6._dN PRISM15._N PRISM15._dN PRISM15._ddN
       PRISM6.N1 PRISM6.N2 PRISM6.N3 PRISM6.N4 PRISM6.N5 PRISM6.N6
       PRISM6.dN1 PRISM6.dN2 PRISM6.dN3 PRISM6.dN4 PRISM6.dN5 PRISM6.dN6
       PRISM15.N1 PRISM15.N2 PRISM15.N3 PRISM15.N4 PRISM15.N5 PRISM15.N6
       PRISM15.N7 PRISM15.N8 PRISM15.N9 PRISM15.N10 PRISM15.N11 PRISM15.N12
       PRISM15.N13 PRISM15.N14 PRISM15.N15
       PRISM15.dN1 PRISM15.dN2 PRISM15.dN3 PRISM15.dN4 PRISM15.dN5 PRISM15.dN6
       PRISM15.dN7 PRISM15.dN8 PRISM15.dN9 PRISM15.dN10 PRISM15.dN11 PRISM15.dN12
       PRISM15.dN13 PRISM15.dN14 PRISM15.dN15
       PRISM15.ddN1 PRISM15.ddN2 PRISM15.ddN3 PRISM15.ddN4 PRISM15.ddN5 PRISM15.ddN6
       PRISM15.ddN7 PRISM15.ddN8 PRISM15.ddN9 PRISM15.ddN10 PRISM15.ddN11 PRISM15.ddN12
       PRISM15.ddN13 PRISM15.ddN14 PRISM15.ddN15
       PRISM6_nodes PRISM15_nodes prism_vertices PRISM15_edge_of_node vertex midpoint
       app fst snd no_fun].

(** X2.  At every reference coordinate each column of the tables of
    derivatives sums to zero: the derivatives of [PRISM6._dN] and
    [PRISM15._dN] in r, in s and in t, and the second derivatives of
    [PRISM15._ddN]. *)
Theorem prism_derivative_columns_sum_to_zero (r s t : R) (k : nat) :
  (k < 3)%nat ->
  vsum (column_at PRISM6._dN k r s t) = 0 /\
  vsum (column_at PRISM15._dN k r s t) = 0 /\
  vsum (column_at PRISM15._ddN k r s t) = 0.
Proof.
  intros Hk.
  do 3 (destruct k as [|k]; [unfold_tables; repeat split; field | ]). lia.
Qed.

Lemma prism_derivative_columns_sum_to_zero_witness :
  vsum (column_at PRISM6._dN 2 0 0 0) = 0 /\
  vsum (column_at PRISM15._dN 2 0 0 0) = 0 /\
  vsum (column_at PRISM15._ddN 2 0 0 0) = 0.
Proof. apply (prism_derivative_columns_sum_to_zero 0 0 0 2). lia. Defined.

(** X3.  The basis functions are nodal: the field interpolated from the
    nodal values [u] takes the value [u[j]] at node j, for the 6 nodes of
    [PRISM6] and the 15 nodes of [PRISM15] (the vertices and the middles of
    the edges). *)
Theorem prism_interpolation_at_nodes (u6 u15 : list R) (j : nat) :
  length u6 = 6%nat -> length u15 = 15%nat ->
  ((j < 6)%nat ->
   interpolate PRISM6._N u6 (nth j PRISM6_nodes (0, 0, 0)) = nth j u6 0) /\
  ((j < 15)%nat ->
   interpolate PRISM15._N u15 (nth j PRISM15_nodes (0, 0, 0)) = nth j u15 0).
Proof.
  intros H6 H15.
  do 7 (destruct u6 as [|? u6]; try discriminate H6).
  do 16 (destruct u15 as [|? u15]; try discriminate H15).
  split; intros Hj.
  - do 6 (destruct j as [|j]; [unfold_tables; field | ]). lia.
  - do 15 (destruct j as [|j]; [unfold_tables; field | ]). lia.
Qed.

Lemma prism_interpolation_at_nodes_witness :
  interpolate PRISM6._N [1; 2; 3; 4; 5; 6] (nth 4 PRISM6_nodes (0, 0, 0)) = 5 /\
  interpolate PRISM15._N [1; 2; 3; 4; 5; 6; 7; 8; 9; 10; 11; 12; 13; 14; 15]
    (nth 9 PRISM15_nodes (0, 0, 0)) = 10.
Proof.
  destruct (prism_interpolation_at_nodes
              [1; 2; 3; 4; 5; 6]
              [1; 2; 3; 4; 5; 6; 7; 8; 9; 10; 11; 12; 13; 14; 15] 4 eq_refl eq_refl)
    as [H6 _].
  destruct (prism_interpolation_at_nodes
              [1; 2; 3; 4; 5; 6]
              [1; 2; 3; 4; 5; 6; 7; 8; 9; 10; 11; 12; 13; 14; 15] 9 eq_refl eq_refl)
    as [_ H15].
  split; [apply H6 | apply H15]; lia.
Defined.

(** X4.  The basis functions reproduce the reference coordinates: at every
    point (r, s, t), interpolating the r, the s and the t coordinates of
    the nodes gives r, s and t, for [PRISM6] and for [PRISM15]. *)
Theorem prism_interpolates_coordinates (r s t : R) :
  (interpolate PRISM6._N (map (fun p => fst (fst p)) PRISM6_nodes) (r, s, t) = r /\
   interpolate PRISM6._N (map (fun p => snd (fst p)) PRISM6_nodes) (r, s, t) = s /\
   interpolate PRISM6._N (map snd PRISM6_nodes) (r, s, t) = t) /\
  (interpolate PRISM15._N (map (fun p => fst (fst p)) PRISM15_nodes) (r, s, t) = r /\
   interpolate PRISM15._N (map (fun p => snd (fst p)) PRISM15_nodes) (r, s, t) = s /\
   interpolate PRISM15._N (map snd PRISM15_nodes) (r, s, t) = t).
Proof. unfold_tables. repeat split; field. Qed.

(** Every case of a membership in an explicit list. *)
Ltac in_cases H :=
  repeat (destruct H as [H|H]; [ | ]); try contradiction.

(** X5.  The tables [faces] and [segments] agree.  In [PRISM6] every index
    is a node, every step around a face (4 nodes a face, the last joined to
    the first) is a segment or repeats a node of a triangle, and every
    segment is a step of exactly two faces.  In [PRISM15] every index is a
    node, and around a face (8 nodes) each vertex is followed by the node
    that sits in the middle of the segment to the next vertex, a triangle
    being completed by a repeated node. *)
Theorem prism_faces_follow_segments :
  (Forall (fun i => (i < 6)%nat) PRISM6.faces /\
   Forall (fun sg => exists a b, sg = [a; b] /\ (a < 6)%nat /\ (b < 6)%nat /\ a <> b)
          PRISM6.segments /\
   (forall loop a b,
      In loop (loops 4 5 PRISM6.faces) -> In (a, b) (steps loop) ->
      a = b \/ joined PRISM6.segments a b) /\
   (forall a b,
      In [a; b] PRISM6.segments -> faces_on (loops 4 5 PRISM6.faces) a b = 2%nat)) /\
  (Forall (fun i => (i < 15)%nat) PRISM15.faces /\
   PRISM15.segments = PRISM6.segments /\
   (forall loop a b m,
      In loop (loops 8 5 PRISM15.faces) -> In (a, b, m) (mid_steps loop) ->
      (a = b /\ m = a) \/
      (joined PRISM15.segments a b /\ (6 <= m < 15)%nat /\
       (nth (m - 6) PRISM15_edge_of_node (0, 0)%nat = (a, b) \/
        nth (m - 6) PRISM15_edge_of_node (0, 0)%nat = (b, a))))).
Proof.
  split; [split; [|split; [|split]] | split; [|split]].
  - unfold PRISM6.faces. repeat constructor.
  - unfold PRISM6.segments.
    repeat (constructor; [eexists; eexists; split; [reflexivity|]; repeat split; lia|]).
    constructor.
  - intros loop a b Hl Hs. cbv [loops PRISM6.faces firstn skipn] in Hl.
    cbv [joined PRISM6.segments].
    in_cases Hl; subst loop; cbv [steps combine skipn firstn app] in Hs;
      in_cases Hs; injection Hs as <- <-; cbn [In]; intuition congruence.
  - intros a b Hs. cbv [PRISM6.segments] in Hs.
    in_cases Hs; injection Hs as <- <-; reflexivity.
  - unfold PRISM15.faces. repeat constructor.
  - reflexivity.
  - intros loop a b m Hl Hs. cbv [loops PRISM15.faces firstn skipn] in Hl.
    cbv [joined PRISM15.segments].
    in_cases Hl; subst loop;
      cbv [mid_steps steps every_other combine skipn firstn app] in Hs;
      in_cases Hs; injection Hs as <- <- <-;
      first [left; split; reflexivity
            |right; split; [cbn [In]; intuition congruence
                           |split; [lia | cbn; intuition congruence]]].
Qed.

Lemma prism_faces_follow_segments_witness :
  joined PRISM6.segments 0 3 /\ faces_on (loops 4 5 PRISM6.faces) 0 1 = 2%nat.
Proof.
  destruct prism_faces_follow_segments as [(_ & _ & Hstep & Hcount) _]. split.
  - destruct (Hstep [0; 3; 4; 1]%nat 0%nat 3%nat) as [H | H].
    + left. reflexivity.
    + left. reflexivity.
    + discriminate H.
    + exact H.
  - apply Hcount. left. reflexivity.
Defined.

(** ** Further properties of the isotropic law *)

Ltac unfold_isot :=
  cbv [isot_C2d isot_S2d isot_C3d isot_S3d lambda_of mu_of hooke_S3d
       hooke_S_plane_stress hooke_S_plane_strain plane_stress_voigt plane_strain_voigt
       mat_scale map andb Z.eqb Pos.eqb].

Lemma positive_products (E v : R) :
  0 < E -> -1 < v < 0.5 ->
  0 < E * (1 + v) /\ 0 < E * (1 - 2 * v) /\ 0 < E * (1 - v).
Proof. intros HE H. repeat split; apply Rmult_lt_0_compat; lra. Qed.

(** The side conditions of [field] on the moduli. *)
Ltac solve_side E_pos v_in :=
  let H1 := fresh in let H2 := fresh in let H3 := fresh in
  destruct (positive_products _ _ E_pos v_in) as (H1 & H2 & H3);
  repeat split; first [lra | nra].

(** X6.  The compliance the isotropic law computes from scalar admissible
    E and v is Hooke's law: 1/E on the normal diagonal, -v/E between two
    normal components and (1+v)/E on the shear diagonal in dimension 3 and
    under plane stress; (1-v^2)/E, -v(1+v)/E and (1+v)/E under plane
    strain. *)
Theorem isot_compliance_is_hooke (self : Elas_Isot.instance) (E v : R) :
  Elas_Isot.E self = Scalar E ->
  Elas_Isot.v self = Scalar v ->
  admissible_E E ->
  admissible_v v ->
  (Elas_Isot._Elas_Isot__dim self = 3%Z ->
   exists c s : matrix,
     Elas_Isot._Behavior self None = Ok (Mat c, Mat s) /\ s = hooke_S3d E v) /\
  (Elas_Isot._Elas_Isot__dim self = 2%Z ->
   exists c s : matrix,
     Elas_Isot._Behavior self None = Ok (Mat c, Mat s) /\
     s = if _Elas.planeStress self
         then hooke_S_plane_stress E v
         else hooke_S_plane_strain E v).
Proof.
  intros HE Hv HEa Hva.
  apply admissible_E_pos in HEa. apply admissible_v_range in Hva.
  split; intros Hdim.
  - eexists. eexists. split.
    + apply (_Behavior_scalar_3d self E v); try assumption. right. reflexivity.
    + rewrite Hdim. unfold_isot. list_eq; field; solve_side HEa Hva.
  - eexists. eexists. split.
    + apply (_Behavior_scalar_2d self E v); try assumption.
      right. split; [reflexivity | assumption].
    + rewrite Hdim. destruct (_Elas.planeStress self); unfold_isot;
        list_eq; field; solve_side HEa Hva.
Qed.

Lemma isot_compliance_is_hooke_witness :
  exists c s : matrix,
    Elas_Isot._Behavior (steel 2) None = Ok (Mat c, Mat s) /\
    s = hooke_S_plane_stress 210000 0.3.
Proof.
  exact (proj2 (isot_compliance_is_hooke (steel 2) 210000 0.3 eq_refl eq_refl
                  admissible_E_steel admissible_v_steel) eq_refl).
Defined.

(** X7.  In dimension 2 the stiffness built from lambda and mu is the
    Kelvin-Mandel form of the matrix written in the commented-out lines of
    [_Behavior]: E/(1-v^2) [[1, v, 0], [v, 1, 0], [0, 0, (1-v)/2]] under
    plane stress, and E(1-v)/((1+v)(1-2v)) [[1, v/(1-v), 0],
    [v/(1-v), 1, 0], [0, 0, (1-2v)/(2(1-v))]] under plane strain. *)
Theorem isot_plane_stiffness_closed_form (self : Elas_Isot.instance) (E v : R) :
  Elas_Isot.E self = Scalar E ->
  Elas_Isot.v self = Scalar v ->
  admissible_E E ->
  admissible_v v ->
  Elas_Isot._Elas_Isot__dim self = 2%Z ->
  exists c s : matrix,
    Elas_Isot._Behavior self None = Ok (Mat c, Mat s) /\
    c = kelvin_matrix 2 (if _Elas.planeStress self
                         then plane_stress_voigt E v
                         else plane_strain_voigt E v).
Proof.
  intros HE Hv HEa Hva Hdim.
  apply admissible_E_pos in HEa. apply admissible_v_range in Hva.
  eexists. eexists. split.
  - apply (_Behavior_scalar_2d self E v); try assumption.
    right. split; [reflexivity | assumption].
  - rewrite Hdim. destruct (_Elas.planeStress self); unfold_isot; unfold_kelvin;
      list_eq; try (field; solve_side HEa Hva);
      (transitivity (E / (1 + v));
       [field; solve_side HEa Hva|]);
      match goal with |- _ = ?a * (_ * _) =>
        transitivity (a * 2); [field; solve_side HEa Hva | rewrite sqrt2_sqr; reflexivity]
      end.
Qed.

Lemma isot_plane_stiffness_closed_form_witness :
  exists c s : matrix,
    Elas_Isot._Behavior (steel 2) None = Ok (Mat c, Mat s) /\
    c = kelvin_matrix 2 (plane_stress_voigt 210000 0.3).
Proof.
  exact (isot_plane_stiffness_closed_form (steel 2) 210000 0.3 eq_refl eq_refl
           admissible_E_steel admissible_v_steel eq_refl).
Defined.

(** X8.  For scalar admissible E and v the bulk modulus returned by
    [get_bulk] is E/(3(1-2v)) in dimension 3, E/(2(1-v)) in dimension 2
    under plane stress and E/(2(1+v)(1-2v)) in dimension 2 under plane
    strain. *)
Theorem isot_bulk_closed_form (self : Elas_Isot.instance) (E v : R) :
  Elas_Isot.E self = Scalar E ->
  Elas_Isot.v self = Scalar v ->
  admissible_E E ->
  admissible_v v ->
  Elas_Isot._Elas_Isot__dim self = _Elas.dim self ->
  _Elas.dim self = 2%Z \/ _Elas.dim self = 3%Z ->
  exists bulk : R,
    Elas_Isot.get_bulk self = Ok (Scalar bulk) /\
    bulk = if (_Elas.dim self =? 3)%Z then E / (3 * (1 - 2 * v))
           else if _Elas.planeStress self then E / (2 * (1 - v))
           else E / (2 * (1 + v) * (1 - 2 * v)).
Proof.
  intros HE Hv HEa Hva Hsame Hdim.
  apply admissible_E_pos in HEa. apply admissible_v_range in Hva.
  eexists. split.
  - apply (get_bulk_scalar self E v); try assumption. lia.
  - rewrite Hsame. destruct Hdim as [-> | ->]; cbn [Z.eqb Pos.eqb].
    + destruct (_Elas.planeStress self); unfold_isot; field; solve_side HEa Hva.
    + unfold_isot; field; solve_side HEa Hva.
Qed.

Lemma isot_bulk_closed_form_witness :
  exists bulk : R,
    Elas_Isot.get_bulk (steel 3) = Ok (Scalar bulk) /\
    bulk = 210000 / (3 * (1 - 2 * 0.3)).
Proof.
  exact (isot_bulk_closed_form (steel 3) 210000 0.3 eq_refl eq_refl
           admissible_E_steel admissible_v_steel eq_refl (or_intror eq_refl)).
Defined.

(** ** Further properties of the cache of the isotropic law *)

Lemma planeStress_setter_coherent (value : pyobj) (self self' : Elas_Isot.instance) :
  cache_coherent self ->
  _Elas.planeStress_setter value self = (Ok tt, self') ->
  cache_coherent self'.
Proof.
  intros Hcoh. destruct value as [b| | | | |];
    try (intros H; injection H as <-; exact Hcoh).
  unfold _Elas.planeStress_setter, mbind, modify, ret, _Elas.Need_Update.
  destruct (Bool.eqb (_Elas.planeStress self) b) eqn:Hb; cbn [negb].
  - apply Bool.eqb_prop in Hb. intros H. injection H as <-.
    assert (Hsame : Elas_Isot.with_elas
                      (_Elas.set_planeStress b (Elas_Isot.elas self)) self = self)
      by (subst b; destruct self as [[] ? ? ?]; reflexivity).
    cbn [_Elas.with_base _Elas.base Elas_Isot.is_elas]. rewrite Hsame. exact Hcoh.
  - intros H. injection H as <-. left. reflexivity.
Qed.

Lemma S_read_coherent (self self' : Elas_Isot.instance) (s : ndarray) :
  cache_coherent self ->
  _Elas.S self = (Ok s, self') ->
  cache_coherent self'.
Proof.
  intros Hcoh. unfold _Elas.S, _Elas.refresh, mbind, reads, ret.
  destruct (_Elas.needUpdate self) eqn:Hstale.
  - cbn [_Elas._Update Elas_Isot.is_law]. unfold Elas_Isot._Update at 1.
    destruct (Elas_Isot._Behavior self (Some (_Elas.dim self))) as [[c0 s0]|] eqn:Hb;
      [|discriminate].
    unfold _Elas.C_setter, _Elas.S_setter, mbind, modify, _Elas.Need_Update.
    destruct (assert (last_shape_is (_Elas.expected_size self) c0)); [|discriminate].
    change (_Elas.expected_size (_Elas.with_base _ self)) with (_Elas.expected_size self).
    destruct (assert (last_shape_is (_Elas.expected_size self) s0)); [|discriminate].
    cbn. intros H. injection H as <- <-.
    right. exists c0, s0. split; [exact Hb|]. split; reflexivity.
  - destruct (_Elas._Elas__S (_Elas.base self)); [|discriminate].
    intros H. injection H as <- <-. exact Hcoh.
Qed.

(** X9.  The cache of an isotropic law stays coherent (the law is stale, or
    its cached C and S are the ones [_Behavior] computes from its current
    parameters): it is so after the constructor, after an accepted
    assignment to [E] or to [v], and it is kept by an assignment to
    [planeStress] and by a read of [C] or of [S]. *)
Theorem isot_cache_stays_coherent :
  (forall dim E v planeStress thickness self,
     Elas_Isot.__init__ dim E v planeStress thickness = Ok self ->
     cache_coherent self) /\
  (forall value self self',
     Elas_Isot.E_setter value self = (Ok tt, self') -> cache_coherent self') /\
  (forall value self self',
     Elas_Isot.v_setter value self = (Ok tt, self') -> cache_coherent self') /\
  (forall value (self self' : Elas_Isot.instance),
     cache_coherent self ->
     _Elas.planeStress_setter value self = (Ok tt, self') ->
     cache_coherent self') /\
  (forall (self self' : Elas_Isot.instance) c,
     cache_coherent self -> _Elas.C self = (Ok c, self') -> cache_coherent self') /\
  (forall (self self' : Elas_Isot.instance) s,
     cache_coherent self -> _Elas.S self = (Ok s, self') -> cache_coherent self').
Proof.
  split; [exact constructed_coherent|].
  split; [exact E_setter_coherent|].
  split; [exact v_setter_coherent|].
  split; [exact planeStress_setter_coherent|].
  split; [exact C_read_coherent | exact S_read_coherent].
Qed.

(** X10.  On a law with a coherent cache, what a read of [C] returns is the
    stiffness [_Behavior] computes from the current parameters; the law it
    leaves is fresh, a second read of [C] returns the same array and a read
    of [S] the matching compliance, both without changing the law. *)
Theorem isot_read_is_current (self self' : Elas_Isot.instance) (c : ndarray) :
  cache_coherent self ->
  _Elas.C self = (Ok c, self') ->
  exists s : ndarray,
    Elas_Isot._Behavior self (Some (_Elas.dim self)) = Ok (c, s) /\
    _Elas.needUpdate self' = false /\
    _Elas.C self' = (Ok c, self') /\
    _Elas.S self' = (Ok s, self').
Proof.
  intros Hcoh. unfold _Elas.C at 1, _Elas.refresh, mbind, reads, ret.
  destruct (_Elas.needUpdate self) eqn:Hstale.
  - cbn [_Elas._Update Elas_Isot.is_law]. unfold Elas_Isot._Update at 1.
    destruct (Elas_Isot._Behavior self (Some (_Elas.dim self))) as [[c0 s0]|] eqn:Hb;
      [|discriminate].
    unfold _Elas.C_setter, _Elas.S_setter, mbind, modify, _Elas.Need_Update.
    destruct (assert (last_shape_is (_Elas.expected_size self) c0)); [|discriminate].
    change (_Elas.expected_size (_Elas.with_base _ self)) with (_Elas.expected_size self).
    destruct (assert (last_shape_is (_Elas.expected_size self) s0)); [|discriminate].
    cbn. intros H. injection H as <- <-.
    exists s0. repeat split; reflexivity.
  - destruct (_Elas._Elas__C (_Elas.base self)) as [c0|] eqn:Hc0; [|discriminate].
    intros H. injection H as <- <-.
    destruct Hcoh as [Habs | (c1 & s1 & Hb & Hc & Hs)]; [congruence|].
    cbn [_Elas.base Elas_Isot.is_elas] in Hc0. rewrite Hc in Hc0. injection Hc0 as ->.
    exists s1. split; [exact Hb|]. split; [exact Hstale|]. split.
    + apply C_of_fresh; assumption.
    + unfold _Elas.S, _Elas.refresh, mbind, reads, ret. rewrite Hstale.
      cbn [_Elas.base Elas_Isot.is_elas]. rewrite Hs. reflexivity.
Qed.

Lemma isot_read_is_current_witness :
  exists (c s : ndarray) (self' : Elas_Isot.instance),
    Elas_Isot._Behavior (steel 3) (Some 3%Z) = Ok (c, s) /\
    _Elas.C self' = (Ok c, self') /\ _Elas.S self' = (Ok s, self').
Proof.
  assert (H0 : 0 < 210000) by lra.
  assert (H1 : -1 < 0.3 < 0.5) by lra.
  pose proof (_Behavior_scalar_3d (steel 3) 210000 0.3 eq_refl eq_refl H0 H1
                (Some 3%Z) eq_refl (or_introl eq_refl)) as Hb.
  pose proof (C_of_stale (steel 3) _ _ eq_refl Hb eq_refl eq_refl) as HC.
  destruct (isot_read_is_current (steel 3) _ _ (or_introl eq_refl) HC)
    as (s & Hb' & _ & HC' & HS').
  eexists. exists s. eexists. split; [exact Hb'|]. split; [exact HC' | exact HS'].
Defined.

(** X11.  After an accepted assignment of a scalar E to a law of dimension
    3 whose Poisson ratio is a scalar in the admissible range, the next
    read of [C] returns the stiffness of the new E, whatever the cache
    held. *)
Theorem isot_read_after_E_setter (self : Elas_Isot.instance) (E' v : R) :
  Elas_Isot.v self = Scalar v ->
  admissible_E E' ->
  admissible_v v ->
  Elas_Isot._Elas_Isot__dim self = 3%Z ->
  _Elas.dim self = 3%Z ->
  exists self1 self2 : Elas_Isot.instance,
    Elas_Isot.E_setter (Scalar E') self = (Ok tt, self1) /\
    Elas_Isot.E self1 = Scalar E' /\
    _Elas.C self1
    = (Ok (Mat (isot_C3d (E' * v / ((1 + v) * (1 - 2 * v))) (E' / (2 * (1 + v))))),
       self2).
Proof.
  intros Hv HEa Hva Hdim Hdim'.
  pose proof HEa as HEpos. apply admissible_E_pos in HEpos.
  apply admissible_v_range in Hva.
  set (self1 := Elas_Isot.set_E (Scalar E')
                  (Elas_Isot.with_elas
                     (_Elas.set_needUpdate true (Elas_Isot.elas self)) self)).
  pose proof (_Behavior_scalar_3d self1 E' v eq_refl Hv HEpos Hva
                (Some 3%Z) Hdim (or_introl eq_refl)) as Hb.
  change (Elas_Isot._Elas_Isot__dim self1) with (Elas_Isot._Elas_Isot__dim self) in Hb.
  rewrite Hdim in Hb. rewrite <- Hdim' in Hb at 1.
  change (_Elas.dim self) with (_Elas.dim self1) in Hb.
  exists self1. eexists. split; [|split].
  - unfold Elas_Isot.E_setter, mbind, reads, modify, _Elas.Need_Update.
    unfold admissible_E in HEa. rewrite HEa. reflexivity.
  - reflexivity.
  - apply (C_of_stale self1 _ _ eq_refl Hb);
      unfold _Elas.expected_size; change (_Elas.dim self1) with (_Elas.dim self);
      rewrite Hdim'; reflexivity.
Qed.

Lemma isot_cache_stays_coherent_witness : cache_coherent (steel 3).
Proof.
  apply (proj1 isot_cache_stays_coherent 3%Z (Scalar 210000) (Scalar 0.3) true 1).
  apply steel_constructed. right. reflexivity.
Defined.

Lemma isot_read_after_E_setter_witness :
  exists self1 self2 : Elas_Isot.instance,
    Elas_Isot.E_setter (Scalar 70000) (steel 3) = (Ok tt, self1) /\
    Elas_Isot.E self1 = Scalar 70000 /\
    _Elas.C self1
    = (Ok (Mat (isot_C3d (70000 * 0.3 / ((1 + 0.3) * (1 - 2 * 0.3)))
                         (70000 / (2 * (1 + 0.3))))), self2).
Proof.
  apply (isot_read_after_E_setter (steel 3) 70000 0.3); try reflexivity.
  - apply admissible_E_pos. lra.
  - apply admissible_v_steel.
Defined.

(** What a successful read of [C] did on a stale law. *)
Lemma C_of_stale_inv (self self' : Elas_Isot.instance) (c : ndarray) :
  _Elas.needUpdate self = true ->
  _Elas.C self = (Ok c, self') ->
  exists s : ndarray,
    Elas_Isot._Behavior self (Some (_Elas.dim self)) = Ok (c, s) /\
    last_shape_is (_Elas.expected_size self) c = true /\
    last_shape_is (_Elas.expected_size self) s = true /\
    self' = refreshed c s self.
Proof.
  intros Hstale. unfold _Elas.C, _Elas.refresh, mbind, reads, ret. rewrite Hstale.
  cbn [_Elas._Update Elas_Isot.is_law]. unfold Elas_Isot._Update at 1.
  destruct (Elas_Isot._Behavior self (Some (_Elas.dim self))) as [[c0 s0]|] eqn:Hb;
    [|discriminate].
  unfold _Elas.C_setter, _Elas.S_setter, mbind, modify, _Elas.Need_Update.
  destruct (last_shape_is (_Elas.expected_size self) c0) eqn:Hc; [|discriminate].
  cbn [assert].
  change (_Elas.expected_size (_Elas.with_base _ self)) with (_Elas.expected_size self).
  destruct (last_shape_is (_Elas.expected_size self) s0) eqn:Hs; [|discriminate].
  cbn. intros H. injection H as <- <-.
  exists s0. repeat split; solve [reflexivity | assumption].
Qed.

(** X12.  An array assigned to [C] on a stale isotropic law is lost: the
    assignment is accepted when the shape fits, and the next read of [C]
    updates the law, returns the stiffness it would have returned without
    the assignment and leaves the same law. *)
Theorem isot_C_assigned_while_stale_is_lost (self self1 self' : Elas_Isot.instance)
  (array c : ndarray) :
  _Elas.needUpdate self = true ->
  _Elas.C_setter array self = (Ok tt, self1) ->
  _Elas.C self = (Ok c, self') ->
  _Elas.C self1 = (Ok c, self').
Proof.
  intros Hstale Hset Hread.
  unfold _Elas.C_setter, mbind, modify in Hset.
  destruct (assert (last_shape_is (_Elas.expected_size self) array)); [|discriminate].
  injection Hset as <-.
  destruct (C_of_stale_inv self self' c Hstale Hread) as (s & Hb & Hc & Hs & ->).
  exact (C_of_stale (_Elas.with_base (_Elas.set_C array (_Elas.base self)) self)
           c s Hstale Hb Hc Hs).
Qed.

Lemma isot_C_assigned_while_stale_is_lost_witness :
  exists (self1 self' : Elas_Isot.instance) (c : ndarray),
    _Elas.C_setter (Mat (eye 6)) (steel 3) = (Ok tt, self1) /\
    _Elas.C (steel 3) = (Ok c, self') /\
    _Elas.C self1 = (Ok c, self').
Proof.
  assert (H0 : 0 < 210000) by lra.
  assert (H1 : -1 < 0.3 < 0.5) by lra.
  pose proof (_Behavior_scalar_3d (steel 3) 210000 0.3 eq_refl eq_refl H0 H1
                (Some 3%Z) eq_refl (or_introl eq_refl)) as Hb.
  pose proof (C_of_stale (steel 3) _ _ eq_refl Hb eq_refl eq_refl) as HC.
  eexists. eexists. eexists. split; [reflexivity|]. split; [exact HC|].
  exact (isot_C_assigned_while_stale_is_lost (steel 3) _ _ (Mat (eye 6)) _
           eq_refl eq_refl HC).
Defined.

(** X13.  Thickness.  A law of dimension 2 cannot be constructed with a
    thickness <= 0, whatever the other arguments.  On every constructed
    law the property [thickness] returns a positive number: the argument in
    dimension 2, and 1 in dimension 3 whatever the argument; in dimension 3
    the flag [planeStress] is false whatever the argument. *)
Theorem isot_constructed_thickness (dim : Z) (E v : value) (planeStress : bool)
  (thickness : R) :
  (dim = 2%Z -> thickness <= 0 ->
   Elas_Isot.__init__ dim E v planeStress thickness = Raise AssertionError) /\
  (forall self,
     Elas_Isot.__init__ dim E v planeStress thickness = Ok self ->
     exists h, _Elas.thickness self = Ok h /\ 0 < h /\
               (dim = 2%Z -> h = thickness /\ _Elas.planeStress self = planeStress) /\
               (dim = 3%Z -> h = 1 /\ _Elas.planeStress self = false)).
Proof.
  split.
  - intros -> Hth. unfold Elas_Isot.__init__, _Elas.__init__.
    cbn [Z.eqb Pos.eqb orb assert bind].
    destruct (_Test_Sup0 E) as [[]|e] eqn:HE;
      [cbn [bind] | cbn [bind]; f_equal; apply (_Test_Sup0_raises _ _ HE)].
    destruct (_Test_In v bInf_default bSup_default) as [[]|e] eqn:Hv;
      [cbn [bind] | cbn [bind]; f_equal; apply (_Test_In_raises _ _ _ _ Hv)].
    rewrite Rltb_false by lra. reflexivity.
  - intros self H. unfold Elas_Isot.__init__, _Elas.__init__ in H.
    bind_inv H as dim_ok. bind_inv H as E_ok. bind_inv H as v_ok.
    bind_inv H as e. injection H as <-.
    bind_inv He as th. injection He as <-.
    unfold _Elas.thickness.
    cbn [_Elas.base Elas_Isot.is_elas Elas_Isot.elas _Elas._Elas__dim
         _Elas._Elas__thickness _Elas.planeStress _Elas._Elas__planeStress].
    destruct (dim =? 2)%Z eqn:Hd.
    + bind_inv Hth as pos. injection Hth as <-.
      exists thickness. split; [reflexivity|]. split.
      * unfold assert in Hpos. destruct (Rltb 0 thickness) eqn:Hlt; [|discriminate].
        apply Rltb_spec. assumption.
      * split; [intros _; split; reflexivity|].
        intros ->. discriminate Hd.
    + injection Hth as <-. exists 1. split; [reflexivity|]. split; [lra|].
      split; [intros ->; discriminate Hd | intros _; split; reflexivity].
Qed.

Lemma isot_constructed_thickness_witness :
  Elas_Isot.__init__ 2 (Scalar 210000) (Scalar 0.3) true 0 = Raise AssertionError /\
  exists h, _Elas.thickness (steel 3) = Ok h /\ 0 < h.
Proof.
  split.
  - apply (proj1 (isot_constructed_thickness 2 (Scalar 210000) (Scalar 0.3) true 0));
      [reflexivity | lra].
  - destruct (proj2 (isot_constructed_thickness 3 (Scalar 210000) (Scalar 0.3) true 1)
                (steel 3) (steel_constructed 3 (or_intror eq_refl)))
      as (h & Hh & Hpos & _).
    exists h. split; assumption.
Defined.

(** ** Further properties of the transversely isotropic law *)


(** X14.  For scalar parameters the setters accept (El, Et, Gl > 0,
    -1 < vl < 1, -1 < vt < 0.5) and for which [kt] is defined, the
    compliance and the stiffness [_Behavior] writes in the material frame
    are inverse of each other, in exact arithmetic: the check it runs on
    them compares two equal matrices. *)
Theorem isotTrans_material_matrices_inverse (self : Elas_IsotTrans.instance)
  (El Et Gl vl vt : R) :
  Elas_IsotTrans.El self = Scalar El ->
  Elas_IsotTrans.Et self = Scalar Et ->
  Elas_IsotTrans.Gl self = Scalar Gl ->
  Elas_IsotTrans.vl self = Scalar vl ->
  Elas_IsotTrans.vt self = Scalar vt ->
  0 < El -> 0 < Et -> 0 < Gl -> -1 < vl < 1 -> -1 < vt < 0.5 ->
  2 * (1 - vt) * El - 4 * vl ^ 2 * Et <> 0 ->
  exists (Gt kt : value) (s c : matrix),
    Elas_IsotTrans.Gt self = Ok Gt /\
    Elas_IsotTrans.kt self = Ok kt /\
    Elas_IsotTrans.material_sM self Gt kt = Ok (Mat s) /\
    Elas_IsotTrans.material_cM self Gt kt = Ok (Mat c) /\
    matmul s c = eye 6 /\ matmul c s = eye 6.
Proof.
  intros HEl HEt HGl Hvl Hvt El_pos Et_pos Gl_pos vl_in vt_in Hkt.
  assert (HGt : Et / (2 * (1 + vt)) <> 0).
  { assert (0 < Et / (2 * (1 + vt))) by (apply Rdiv_lt_0_compat; lra). lra. }
  eexists. eexists. eexists. eexists.
  split; [apply (Gt_scalar self Et vt HEt Hvt); lra|].
  split; [apply (kt_scalar self El Et vl vt HEl HEt Hvl Hvt Hkt)|].
  split; [apply (material_sM_scalar self El Et Gl vl vt HEl HEt HGl Hvl Hvt); lra|].
  split; [apply (material_cM_scalar self El Gl vl HEl HGl Hvl)|].
  unfold_linalg.
  split; list_eq; field; repeat split; lra.
Qed.

Lemma isotTrans_material_matrices_inverse_witness :
  exists (Gt kt : value) (s c : matrix),
    Elas_IsotTrans.Gt unit_fibre = Ok Gt /\
    Elas_IsotTrans.kt unit_fibre = Ok kt /\
    Elas_IsotTrans.material_sM unit_fibre Gt kt = Ok (Mat s) /\
    Elas_IsotTrans.material_cM unit_fibre Gt kt = Ok (Mat c) /\
    matmul s c = eye 6 /\ matmul c s = eye 6.
Proof.
  apply (isotTrans_material_matrices_inverse unit_fibre 1 1 (1/2) 0 0);
    try reflexivity; lra.
Defined.

(** The default axes are kept by the constructor. *)
Lemma default_axes_normalized :
  Normalize_vect [1; 0; 0] = Ok [1 / 1; 0 / 1; 0 / 1] /\
  Normalize_vect [0; 1; 0] = Ok [0 / 1; 1 / 1; 0 / 1].
Proof.
  assert (H1 : vnorm [1; 0; 0] = 1) by (apply vnorm_unit; ring).
  assert (H2 : vnorm [0; 1; 0] = 1) by (apply vnorm_unit; ring).
  split; rewrite Normalize_vect_ok by (rewrite ?H1, ?H2; lra);
    rewrite ?H1, ?H2; reflexivity.
Qed.

(** X15.  [kt] divides by 2(1-vt)El - 4 vl^2 Et, which the tests of the
    setters do not keep away from zero: when it is zero [kt] raises
    ZeroDivisionError.  The constructor accepts El = Et = Gl = 1,
    vl = 0.75, vt = -0.125, and on the law it returns [kt] and [_Behavior]
    raise ZeroDivisionError. *)
Theorem isotTrans_kt_division_by_zero :
  (forall (self : Elas_IsotTrans.instance) (El Et vl vt : R),
     Elas_IsotTrans.El self = Scalar El ->
     Elas_IsotTrans.Et self = Scalar Et ->
     Elas_IsotTrans.vl self = Scalar vl ->
     Elas_IsotTrans.vt self = Scalar vt ->
     2 * (1 - vt) * El - 4 * vl ^ 2 * Et = 0 ->
     Elas_IsotTrans.kt self = Raise ZeroDivisionError) /\
  (exists self : Elas_IsotTrans.instance,
     Elas_IsotTrans.__init__ 3 (Scalar 1) (Scalar 1) (Scalar 1) (Scalar 0.75)
       (Scalar (-0.125)) [1; 0; 0] [0; 1; 0] true 1 = Ok self /\
     Elas_IsotTrans.kt self = Raise ZeroDivisionError /\
     forall (Get_Pmat : vec -> vec -> result matrix)
            (Apply_Pmat : matrix -> ndarray -> result ndarray)
            (dim : option Z) (P : matrix),
       Elas_IsotTrans._Behavior Get_Pmat Apply_Pmat self dim (Some P)
       = Raise ZeroDivisionError).
Proof.
  split.
  - intros self El Et vl vt HEl HEt Hvl Hvt H.
    apply (kt_division_by_zero self El Et vl vt); assumption.
  - destruct default_axes_normalized as [Hl Ht].
    eexists. split; [|split].
    + unfold Elas_IsotTrans.__init__, As_Coordinates, _Test_Sup0, _Test_In,
        bInf_default, bSup_default, _Elas.__init__.
      rewrite (axes_test_negative [1; 0; 0] [0; 1; 0]) by (cbn [dot]; lra).
      rewrite !Rltb_true by lra. rewrite Hl, Ht. reflexivity.
    + apply (kt_division_by_zero _ 1 1 0.75 (-0.125)); try reflexivity. lra.
    + intros Get_Pmat Apply_Pmat dim P.
      unfold Elas_IsotTrans._Behavior, Elas_IsotTrans.global_matrices.
      cbn [bind].
      match goal with |- context [Elas_IsotTrans._useSameAxis ?s] =>
        assert (Hsame : exists b, Elas_IsotTrans._useSameAxis s = Ok b)
          by (eexists; reflexivity);
        assert (HGt : Elas_IsotTrans.Gt s = #(1 / (2 * (1 + -0.125))))
          by (apply (Gt_scalar s 1 (-0.125)); [reflexivity | reflexivity | lra]);
        assert (Hkt : Elas_IsotTrans.kt s = Raise ZeroDivisionError)
          by (apply (kt_division_by_zero s 1 1 0.75 (-0.125)); try reflexivity; lra)
      end.
      destruct Hsame as [b Hsame]. rewrite Hsame. cbn [bind].
      rewrite HGt. cbn [bind]. rewrite Hkt. reflexivity.
Qed.

Lemma isotTrans_kt_division_by_zero_witness :
  Elas_IsotTrans.kt
    {| Elas_IsotTrans.elas := Elas_IsotTrans.elas unit_fibre;
       Elas_IsotTrans._Elas_IsotTrans__dim := 2;
       Elas_IsotTrans._Elas_IsotTrans__El := Scalar 1;
       Elas_IsotTrans._Elas_IsotTrans__Et := Scalar 1;
       Elas_IsotTrans._Elas_IsotTrans__Gl := Scalar 1;
       Elas_IsotTrans._Elas_IsotTrans__vl := Scalar 0.75;
       Elas_IsotTrans._Elas_IsotTrans__vt := Scalar (-0.125);
       Elas_IsotTrans._Elas_IsotTrans__axis_l := [1; 0; 0];
       Elas_IsotTrans._Elas_IsotTrans__axis_t := [0; 1; 0] |}
  = Raise ZeroDivisionError.
Proof.
  apply (proj1 isotTrans_kt_division_by_zero _ 1 1 0.75 (-0.125)); try reflexivity. lra.
Defined.

(** X16.  With the parameters of an isotropic material (El = Et = E,
    vl = vt = v, Gl = E/(2(1+v)), E > 0 and v in the admissible range) the
    stiffness and the compliance of the material frame are the ones of the
    isotropic law of dimension 3. *)
Theorem isotTrans_isotropic_parameters (self : Elas_IsotTrans.instance) (E v : R) :
  Elas_IsotTrans.El self = Scalar E ->
  Elas_IsotTrans.Et self = Scalar E ->
  Elas_IsotTrans.Gl self = Scalar (E / (2 * (1 + v))) ->
  Elas_IsotTrans.vl self = Scalar v ->
  Elas_IsotTrans.vt self = Scalar v ->
  admissible_E E ->
  admissible_v v ->
  exists (Gt kt : value) (s c : matrix),
    Elas_IsotTrans.Gt self = Ok Gt /\
    Elas_IsotTrans.kt self = Ok kt /\
    Elas_IsotTrans.material_sM self Gt kt = Ok (Mat s) /\
    Elas_IsotTrans.material_cM self Gt kt = Ok (Mat c) /\
    c = isot_C3d (E * v / ((1 + v) * (1 - 2 * v))) (E / (2 * (1 + v))) /\
    s = isot_S3d (E * v / ((1 + v) * (1 - 2 * v))) (E / (2 * (1 + v))).
Proof.
  intros HEl HEt HGl Hvl Hvt HEa Hva.
  apply admissible_E_pos in HEa. apply admissible_v_range in Hva.
  destruct (positive_products E v HEa Hva) as (P1 & P2 & P3).
  assert (Hmu : 0 < E / (2 * (1 + v))) by (apply Rdiv_lt_0_compat; lra).
  assert (Hkt : 2 * (1 - v) * E - 4 * v ^ 2 * E <> 0).
  { replace (2 * (1 - v) * E - 4 * v ^ 2 * E) with (2 * (E * (1 + v)) * (1 - 2 * v))
      by ring.
    apply Rmult_integral_contrapositive_currified; lra. }
  eexists. eexists. eexists. eexists.
  split; [apply (Gt_scalar self E v HEt Hvt); lra|].
  split; [apply (kt_scalar self E E v v HEl HEt Hvl Hvt Hkt)|].
  split; [apply (material_sM_scalar self E E _ v v HEl HEt HGl Hvl Hvt); lra|].
  split; [apply (material_cM_scalar self E _ v HEl HGl Hvl)|].
  unfold isot_C3d, isot_S3d.
  split; list_eq; field; repeat split; first [lra | nra].
Qed.

Lemma isotTrans_isotropic_parameters_witness :
  exists (Gt kt : value) (s c : matrix),
    Elas_IsotTrans.material_sM
      (Elas_IsotTrans.Build_instance (Elas_IsotTrans.elas unit_fibre) 3
         (Scalar 210000) (Scalar 210000) (Scalar (210000 / (2 * (1 + 0.3))))
         (Scalar 0.3) (Scalar 0.3) [1; 0; 0] [0; 1; 0]) Gt kt = Ok (Mat s) /\
    Elas_IsotTrans.material_cM
      (Elas_IsotTrans.Build_instance (Elas_IsotTrans.elas unit_fibre) 3
         (Scalar 210000) (Scalar 210000) (Scalar (210000 / (2 * (1 + 0.3))))
         (Scalar 0.3) (Scalar 0.3) [1; 0; 0] [0; 1; 0]) Gt kt = Ok (Mat c) /\
    c = isot_C3d (210000 * 0.3 / ((1 + 0.3) * (1 - 2 * 0.3))) (210000 / (2 * (1 + 0.3))).
Proof.
  destruct (isotTrans_isotropic_parameters
              (Elas_IsotTrans.Build_instance (Elas_IsotTrans.elas unit_fibre) 3
                 (Scalar 210000) (Scalar 210000) (Scalar (210000 / (2 * (1 + 0.3))))
                 (Scalar 0.3) (Scalar 0.3) [1; 0; 0] [0; 1; 0])
              210000 0.3 eq_refl eq_refl eq_refl eq_refl eq_refl
              admissible_E_steel admissible_v_steel)
    as (Gt & kt & s & c & _ & _ & Hs & Hc & Hceq & _).
  exists Gt, kt, s, c. repeat split; assumption.
Defined.

(** ** Further properties of the constructors with axes *)

(** X17.  Two axes whose dot product exceeds 1e-12 are rejected by the
    constructor of the transversely isotropic law and by the one of the
    anisotropic law, whatever the other arguments. *)
Theorem axes_with_positive_dot_rejected (axis1 axis2 : vec) :
  1e-12 < dot axis1 axis2 ->
  (forall dim El Et Gl vl vt planeStress thickness,
     Elas_IsotTrans.__init__ dim El Et Gl vl vt axis1 axis2 planeStress thickness
     = Raise AssertionError) /\
  (forall Get_Pmat Apply_Pmat dim C useVoigtNotation thickness,
     Elas_Anisot.__init__ Get_Pmat Apply_Pmat dim C useVoigtNotation axis1 axis2 thickness
     = Raise AssertionError).
Proof.
  intros Hdot. split.
  - intros. apply isotTrans_rejects_positive_dot. assumption.
  - intros. unfold Elas_Anisot.__init__.
    rewrite (anisot_rejects_positive_dot dim axis1 axis2 Hdot). reflexivity.
Qed.

Lemma axes_with_positive_dot_rejected_witness :
  Elas_IsotTrans.__init__ 3 (Scalar 1) (Scalar 1) (Scalar 1) (Scalar 0) (Scalar 0)
    [1; 0; 0] [1; 1; 0] true 1 = Raise AssertionError.
Proof.
  apply (proj1 (axes_with_positive_dot_rejected [1; 0; 0] [1; 1; 0]
                  ltac:(cbn [dot]; lra))).
Defined.

(** ** Properties of the anisotropic law *)

Lemma is_shape_3_case (P : matrix -> Prop) (m : matrix) :
  is_shape 3 m = true ->
  (forall a b c d e f g h i : R, P [[a; b; c]; [d; e; f]; [g; h; i]]) ->
  P m.
Proof.
  intros H HP. unfold is_shape in H. apply andb_prop in H. destruct H as [Hl Hrows].
  do 4 (destruct m as [|? m]; try discriminate Hl).
  cbn [forallb] in Hrows.
  repeat (apply andb_prop in Hrows; destruct Hrows as [? Hrows]).
  repeat match goal with
         | H : (length ?r =? 3)%nat = true |- _ =>
             do 4 (destruct r as [|? r]; try discriminate H); clear H
         end.
  apply HP.
Qed.

Lemma is_shape_6_case (P : matrix -> Prop) (m : matrix) :
  is_shape 6 m = true ->
  (forall a11 a12 a13 a14 a15 a16 a21 a22 a23 a24 a25 a26 a31 a32 a33 a34 a35 a36 a41 a42 a43 a44 a45 a46 a51 a52 a53 a54 a55 a56 a61 a62 a63 a64 a65 a66 : R,
     P [[a11; a12; a13; a14; a15; a16];
       [a21; a22; a23; a24; a25; a26];
       [a31; a32; a33; a34; a35; a36];
       [a41; a42; a43; a44; a45; a46];
       [a51; a52; a53; a54; a55; a56];
       [a61; a62; a63; a64; a65; a66]]) ->
  P m.
Proof.
  intros H HP. unfold is_shape in H. apply andb_prop in H. destruct H as [Hl Hrows].
  do 7 (destruct m as [|? m]; try discriminate Hl).
  cbn [forallb] in Hrows.
  repeat (apply andb_prop in Hrows; destruct Hrows as [? Hrows]).
  repeat match goal with
         | H : (length ?r =? 6)%nat = true |- _ =>
             do 7 (destruct r as [|? r]; try discriminate H); clear H
         end.
  apply HP.
Qed.

(** X18.  For a 6x6 stiffness matrix the anisotropic law does not look at
    [useVoigtNotation]: [_Behavior] rotates the matrix it was given,
    converted to the Kelvin-Mandel notation or not. *)
Theorem anisot_6x6_ignores_voigt_flag
  (Get_Pmat : vec -> vec -> result matrix)
  (Apply_Pmat : matrix -> ndarray -> result ndarray)
  (self : Elas_Anisot.instance) (C : matrix) :
  is_shape 6 C = true ->
  Elas_Anisot._Behavior Get_Pmat Apply_Pmat self C true
  = Elas_Anisot._Behavior Get_Pmat Apply_Pmat self C false.
Proof.
  intros Hshape. pattern C. apply (is_shape_6_case _ C Hshape).
  intros. unfold Elas_Anisot._Behavior.
  cbn [hd length Nat.eqb Z.eqb Pos.eqb]. reflexivity.
Qed.

Lemma anisot_6x6_ignores_voigt_flag_witness :
  Elas_Anisot._Behavior default_Pmat default_Apply
    (blank_anisot 3)
    (eye 6) true
  = Elas_Anisot._Behavior default_Pmat default_Apply
      (blank_anisot 3)
      (eye 6) false.
Proof.
  apply (anisot_6x6_ignores_voigt_flag default_Pmat default_Apply _ (eye 6)).
  reflexivity.
Defined.

Lemma transpose_sub_ok (C : matrix) :
  is_shape 3 C || is_shape 6 C = true ->
  exists d, mat_sub (transpose C) C = Ok d.
Proof.
  intros H. apply orb_prop in H. destruct H as [H | H].
  - pattern C. apply (is_shape_3_case _ C H). intros.
    eexists. cbv [mat_sub transpose zip_rows zip_with sequence mapM bind map col
                  hd length seq nth Nat.eqb]. reflexivity.
  - pattern C. apply (is_shape_6_case _ C H). intros.
    eexists. cbv [mat_sub transpose zip_rows zip_with sequence mapM bind map col
                  hd length seq nth Nat.eqb]. reflexivity.
Qed.

(** X19.  A stiffness matrix of norm zero never passes [_Behavior] of the
    anisotropic law: the symmetry test divides by the norm, and the
    comparison with the result is false, so the assertion fails. *)
Theorem anisot_rejects_zero_norm
  (Get_Pmat : vec -> vec -> result matrix)
  (Apply_Pmat : matrix -> ndarray -> result ndarray)
  (self : Elas_Anisot.instance) (C : matrix) (useVoigtNotation : bool) :
  norm C = 0 ->
  Elas_Anisot._Behavior Get_Pmat Apply_Pmat self C useVoigtNotation
  = Raise AssertionError.
Proof.
  intros Hnorm. unfold Elas_Anisot._Behavior.
  destruct (is_shape 3 C || is_shape 6 C) eqn:Hshape; [|reflexivity].
  destruct (transpose_sub_ok C Hshape) as (d & ->).
  cbn [assert bind]. unfold ratio_le. rewrite Hnorm.
  destruct (Req_dec_T 0 0); [reflexivity | contradiction].
Qed.

Lemma anisot_rejects_zero_norm_witness :
  Elas_Anisot._Behavior default_Pmat default_Apply
    (blank_anisot 2)
    [[0; 0; 0]; [0; 0; 0]; [0; 0; 0]] false
  = Raise AssertionError.
Proof.
  apply anisot_rejects_zero_norm.
  unfold norm. apply sqrt_sum_zero. cbv [sumsq map dot fold_right]. ring.
Defined.

(** X20.  A symmetric 3x3 stiffness matrix of a plane law goes through the
    6x6 embedding and back unchanged: when the rotation leaves the embedded
    matrix as it is, [_Behavior] returns the matrix it was given, converted
    to the Kelvin-Mandel notation if [useVoigtNotation] is set. *)
Theorem anisot_plane_round_trip
  (Get_Pmat : vec -> vec -> result matrix)
  (Apply_Pmat : matrix -> ndarray -> result ndarray)
  (self : Elas_Anisot.instance) (C P : matrix) (useVoigtNotation : bool) :
  Elas_Anisot._Elas_Anisot__dim self = 2%Z ->
  is_shape 3 C = true ->
  transpose C = C ->
  norm C <> 0 ->
  Get_Pmat (Elas_Anisot._Elas_Anisot__axis1 self) (Elas_Anisot._Elas_Anisot__axis2 self)
  = Ok P ->
  Apply_Pmat P (Mat (embed [0; 1; 5]%nat
                       (if useVoigtNotation then kelvin_matrix 2 C else C)))
  = Ok (Mat (embed [0; 1; 5]%nat
               (if useVoigtNotation then kelvin_matrix 2 C else C))) ->
  Elas_Anisot._Behavior Get_Pmat Apply_Pmat self C useVoigtNotation
  = Ok (Mat (if useVoigtNotation then kelvin_matrix 2 C else C)).
Proof.
  intros Hdim Hshape Hsym Hnorm HP Hrot.
  unfold Elas_Anisot._Behavior. rewrite Hshape, Hsym, HP, Hdim.
  revert Hsym Hnorm Hrot. pattern C. apply (is_shape_3_case _ C Hshape).
  intros a b c d e f g h i Hsym Hnorm Hrot.
  cbn [orb assert bind hd length Nat.eqb Z.eqb Pos.eqb].
  replace (mat_sub [[a; b; c]; [d; e; f]; [g; h; i]] [[a; b; c]; [d; e; f]; [g; h; i]])
    with (Ok (mat_scale 0 [[a; b; c]; [d; e; f]; [g; h; i]])).
  2:{ cbv [mat_sub mat_scale zip_rows zip_with sequence mapM bind map].
      apply f_equal. list_eq; ring. }
  cbn [bind].
  replace (norm (mat_scale 0 [[a; b; c]; [d; e; f]; [g; h; i]])) with 0.
  2:{ symmetry. unfold norm. apply sqrt_sum_zero.
      cbv [sumsq mat_scale map dot fold_right]. ring. }
  rewrite ratio_le_zero by (assumption || lra).
  cbn [bind]. rewrite Hrot. cbn [index2 bind].
  destruct useVoigtNotation;
    cbv [embed kelvin_matrix mapi mapi_from kelvin_coef seq map position Nat.eqb
         option_map nth submatrix take_rows take_cols mapM nth_error bind
         Z.ltb Z.of_nat Z.compare Pos.of_succ_nat Pos.succ Pos.compare Pos.compare_cont];
    reflexivity.
Qed.

Lemma anisot_plane_round_trip_witness :
  Elas_Anisot._Behavior default_Pmat default_Apply
    (blank_anisot 2)
    [[2; 1; 0]; [1; 2; 0]; [0; 0; 1]] false
  = Ok (Mat [[2; 1; 0]; [1; 2; 0]; [0; 0; 1]]).
Proof.
  apply (anisot_plane_round_trip default_Pmat default_Apply
           (blank_anisot 2)
           [[2; 1; 0]; [1; 2; 0]; [0; 0; 1]] (eye 6) false).
  - reflexivity.
  - reflexivity.
  - reflexivity.
  - unfold norm. intros H.
    assert (Hpos : 0 < sumsq [[2; 1; 0]; [1; 2; 0]; [0; 0; 1]])
      by (cbv [sumsq map dot fold_right]; lra).
    pose proof (sqrt_lt_R0 _ Hpos). lra.
  - reflexivity.
  - reflexivity.
Defined.

(** X21.  What [Set_C] stores is what the property [C] returns afterwards:
    the update of the anisotropic law does nothing, so the next read only
    clears the stale mark and hands back the rotated matrix that
    [_Behavior] computed; with [update_S] the property [S] returns its
    inverse. *)
Theorem anisot_Set_C_then_read
  (Get_Pmat : vec -> vec -> result matrix)
  (Apply_Pmat : matrix -> ndarray -> result ndarray)
  (self self' : Elas_Anisot.instance) (C : matrix) (useVoigtNotation update_S : bool) :
  Elas_Anisot.Set_C Get_Pmat Apply_Pmat C useVoigtNotation update_S self = (Ok tt, self') ->
  exists c,
    Elas_Anisot._Behavior Get_Pmat Apply_Pmat self C useVoigtNotation = Ok c /\
    _Elas.C self'
    = (Ok c, Elas_Anisot.with_elas (_Elas.set_needUpdate false (Elas_Anisot.elas self')) self') /\
    (update_S = true ->
     exists s, np_linalg_inv c = Ok s /\
       _Elas.S self'
       = (Ok s, Elas_Anisot.with_elas (_Elas.set_needUpdate false (Elas_Anisot.elas self')) self')).
Proof.
  unfold Elas_Anisot.Set_C, _Elas.Need_Update, _Elas.C_setter, _Elas.S_setter,
    mbind, modify, reads, ret.
  cbn [_Elas.base _Elas.with_base Elas_Anisot.is_elas].
  change (Elas_Anisot._Behavior Get_Pmat Apply_Pmat
            (Elas_Anisot.with_elas (_Elas.set_needUpdate true (Elas_Anisot.elas self)) self)
            C useVoigtNotation)
    with (Elas_Anisot._Behavior Get_Pmat Apply_Pmat self C useVoigtNotation).
  destruct (Elas_Anisot._Behavior Get_Pmat Apply_Pmat self C useVoigtNotation)
    as [c | e]; [| discriminate].
  destruct (assert (last_shape_is _ c)); [| discriminate].
  destruct update_S.
  - destruct (np_linalg_inv c) as [s | e] eqn:Hinv; [| discriminate].
    destruct (assert (last_shape_is _ s)); [| discriminate].
    intros H. injection H as <-. exists c. split; [reflexivity|]. split.
    + reflexivity.
    + intros _. exists s. split; [exact Hinv | reflexivity].
  - intros H. injection H as <-. exists c. split; [reflexivity|]. split.
    + reflexivity.
    + discriminate.
Qed.

Lemma anisot_identity_3d (self : Elas_Anisot.instance) :
  Elas_Anisot._Elas_Anisot__dim self = 3%Z ->
  Elas_Anisot._Behavior default_Pmat default_Apply self (eye 6) false = Ok (Mat (eye 6)).
Proof.
  intros Hdim. unfold Elas_Anisot._Behavior, default_Pmat, default_Apply.
  rewrite Hdim.
  change (is_shape 3 (eye 6) || is_shape 6 (eye 6)) with true.
  change (transpose (eye 6)) with (eye 6).
  replace (mat_sub (eye 6) (eye 6)) with (Ok (mat_scale 0 (eye 6))).
  2:{ cbv [mat_sub mat_scale zip_rows zip_with sequence mapM bind map eye seq Nat.eqb].
      apply f_equal. list_eq; ring. }
  cbn [assert bind].
  replace (norm (mat_scale 0 (eye 6))) with 0.
  2:{ symmetry. unfold norm. apply sqrt_sum_zero.
      cbv [sumsq mat_scale map dot fold_right eye seq Nat.eqb]. ring. }
  rewrite ratio_le_zero; [reflexivity | | lra].
  unfold norm. intros H.
  assert (Hpos : 0 < sumsq (eye 6))
    by (cbv [sumsq map dot fold_right eye seq Nat.eqb]; lra).
  pose proof (sqrt_lt_R0 _ Hpos). lra.
Qed.

Lemma anisot_Set_C_then_read_witness :
  exists self' c,
    Elas_Anisot.Set_C default_Pmat default_Apply (eye 6) false true
      (blank_anisot 3)
    = (Ok tt, self') /\
    _Elas.C self'
    = (Ok c, Elas_Anisot.with_elas (_Elas.set_needUpdate false (Elas_Anisot.elas self')) self').
Proof.
  assert (Hset : exists self',
    Elas_Anisot.Set_C default_Pmat default_Apply (eye 6) false true
      (blank_anisot 3)
    = (Ok tt, self')).
  { unfold Elas_Anisot.Set_C, _Elas.Need_Update, _Elas.C_setter, _Elas.S_setter,
      mbind, modify, reads, ret.
    rewrite anisot_identity_3d by reflexivity.
    cbn [np_linalg_inv]. rewrite inv_eye6.
    eexists. reflexivity. }
  destruct Hset as (self' & Hset). exists self'.
  destruct (anisot_Set_C_then_read _ _ _ _ _ _ _ Hset) as (c & _ & HC & _).
  exists c. split; assumption.
Defined.

(** ** The tensors of the Walpole decomposition *)

Ltac unfold_matmul :=
  cbv [matmul mat_scale mat_add zip_rows zip_with sequence mapM bind map col dot
       hd length seq nth walpole_E1 walpole_E2 Tensor_Product eye Nat.eqb].

(** X22.  Whatever the law, the two tensors that a successful
    [Walpole_Decomposition] returns are 3 and 2 times two complementary
    orthogonal projectors: each squares to itself up to its factor, their
    products vanish, and a third of the first plus a half of the second is
    the identity. *)
Theorem isot_walpole_tensors_are_projectors
  (self self' : Elas_Isot.instance) (ci : list value) (Ei : list matrix) :
  Elas_Isot.Walpole_Decomposition self = (Ok (ci, Ei), self') ->
  exists B1 B2,
    Ei = [B1; B2] /\
    matmul B1 B1 = mat_scale 3 B1 /\
    matmul B2 B2 = mat_scale 2 B2 /\
    matmul B1 B2 = mat_scale 0 (eye 6) /\
    matmul B2 B1 = mat_scale 0 (eye 6) /\
    mat_add (mat_scale (1/3) B1) (mat_scale (1/2) B2) = Ok (eye 6).
Proof.
  intros H.
  assert (HEi : Ei = [mat_scale 3 walpole_E1; mat_scale 2 walpole_E2]).
  { revert H. unfold Elas_Isot.Walpole_Decomposition, mbind, reads, ret.
    destruct (Elas_Isot.get_bulk self) as [c1 | e]; [| discriminate].
    destruct (Elas_Isot.get_mu self) as [c2 | e]; [| discriminate].
    change (mat_scale (1/3) (Tensor_Product [1; 1; 1; 0; 0; 0] [1; 1; 1; 0; 0; 0]))
      with walpole_E1.
    rewrite walpole_E2_is_complement.
    destruct (_Elas.isHeterogeneous self) as [[h | e] s1]; [| discriminate].
    destruct h; cbv beta iota delta [negb].
    - intros H. injection H as _ <- _. reflexivity.
    - destruct (_Elas.C s1) as [[c | e] s2]; [| discriminate].
      match goal with
      | |- match ?t with Ok _ => _ | Raise _ => _ end = _ -> _ => destruct t as [u | e]
      end; [| discriminate].
      intros H. injection H as _ <- _. reflexivity. }
  subst Ei. do 2 eexists. split; [reflexivity|].
  repeat split; try (unfold_matmul; list_eq; field).
  unfold_matmul. apply f_equal. list_eq; field.
Qed.

Lemma isot_walpole_tensors_are_projectors_witness :
  exists self' ci B1 B2,
    Elas_Isot.Walpole_Decomposition (steel 3) = (Ok (ci, [B1; B2]), self') /\
    matmul B1 B1 = mat_scale 3 B1 /\
    matmul B1 B2 = mat_scale 0 (eye 6).
Proof.
  destruct (Walpole_scalar_3d (steel 3) 210000 0.3 eq_refl eq_refl
              ltac:(lra) ltac:(lra) eq_refl eq_refl
              (constructed_coherent _ _ _ _ _ _ (steel_constructed 3 (or_intror eq_refl))))
    as (self' & HW & _).
  destruct (isot_walpole_tensors_are_projectors _ _ _ _ HW)
    as (B1 & B2 & HEi & H11 & _ & H12 & _).
  injection HEi as <- <-.
  exists self'. eexists. do 2 eexists.
  split; [exact HW|]. split; assumption.
Defined.
